(** * whatsapp-api: session lifecycle, registry and webhook dispatcher

    A shallow embedding of [WhatsAppService] (src/whatsapp/whatsapp.service.ts)
    and [WebhookService] (webhook.service.ts).  Every [async] method is a
    computation in a state-and-exception monad over one [World] record that
    holds the service's private maps, the three Mongo collections, the timer
    queue, the file system, the HTTP outbox, the log and the clock.  A
    method, an event handler of the protocol client and a timer callback are
    separate computations, each run from its start to its end.  One wait is
    long enough for the others to run in it: [initSession] waits up to 240 s
    at [await Promise.race(..)] after it has registered the handlers, so it
    is also given with what happens during that wait ([initSession_during]).
    The environment decides which external calls fail (the field [faults] of
    the world) and how each client object behaves over time.

    Embedded: [sendWebhook]; [initSession], [setupClientEventHandlers] with
    its handlers, [handleReadyTimeout], [handleManualReady],
    [handleInitializationFailure], [handleIncomingMessage], [sendMessage],
    [getSessionStatus], [deleteSession], [cleanupClient], [restartSession],
    [updateSession], [updateSessionStatus].  The controller, the gateway and
    the listing methods only forward to these. *)

From Stdlib Require Import ZArith Ascii String.
From stdpp Require Import gmap strings list fin_maps pretty sorting.

Local Open Scope Z_scope.
Local Open Scope string_scope.
Set Warnings "-register-all".

(** ** Documents of the three collections (src/schema) *)

Inductive Status := connecting | connected | disconnected | qr_required.

#[global] Instance Status_eq_dec : EqDecision Status.
Proof. solve_decision. Defined.

Definition status_name (s : Status) : string :=
  match s with
  | connecting => "connecting"
  | connected => "connected"
  | disconnected => "disconnected"
  | qr_required => "qr_required"
  end.

(** A hydrated [Session] document.  The key [clientId] (unique index) is the
    key of the collection map; [status] and [messageCount] carry the schema
    defaults ['disconnected'] and [0]. *)
Module Session.
Record t := mk {
  phoneNumber : option string;
  status : Status;
  lastActivity : option Z;
  qrCode : option string;
  messageCount : Z
}.

(** What an upsert inserts before [$set] is applied. *)
Definition fresh : t :=
  {| phoneNumber := None; status := disconnected; lastActivity := None;
     qrCode := None; messageCount := 0 |}.
End Session.

(** [Partial<Session>] as passed to [updateSession].  An absent key is
    [None]; for the two optional string fields a key that is present with the
    value [undefined] is [Some None]. *)
Record Updates := mkUpdates {
  u_status : option Status;
  u_phoneNumber : option (option string);
  u_lastActivity : option Z;
  u_qrCode : option (option string);
  u_messageCount : option Z
}.

Module Message.
Record t := mk {
  clientId : string;
  messageId : string;
  from : string;
  to : string;
  body : string;
  type : string;
  status : string;
  direction : string
}.
End Message.

Module Webhook.
Record t := mk {
  clientId : string;
  url : string;
  enabled : bool;
  events : list string;
  secret : option string
}.
End Webhook.

(** ** The protocol client (whatsapp-web.js), a black box

    The service only reads [client.info], calls [getState], [initialize],
    [destroy] and [sendMessage], and receives events.  What the object answers
    is the environment's choice; it is given as a behaviour over the clock
    (milliseconds), so that a second read after a delay may differ from the
    first. *)

Record Wid := mkWid { user : string; _serialized : string }.
Record ClientInfo := mkInfo { wid : option Wid }.

Inductive Settled := Fulfilled | Rejected (message : string).

Module Client.
Record t := mk {
  (** [new LocalAuth({ clientId })] *)
  authClientId : string;
  (** [client.info]: presence; [None] is [undefined] *)
  info : Z -> option ClientInfo;
  (** [client.getState()]: a state name, [null], or a rejection *)
  getState : Z -> option string + string;
  (** [client.initialize()]: settles after so many ms, or never *)
  initialize : option (Z * Settled);
  (** [client.destroy()]: the message of the error it throws, if any *)
  destroy : Z -> option string;
  (** [client.sendMessage(chatId, content)]: [id._serialized] or an error *)
  sendMessage : string -> string -> Z -> string + string
}.
End Client.

(** ** Host objects: timers, HTTP, log *)

(** The callbacks handed to [setTimeout], one constructor per call site, with
    the variables each closure captures. *)
Inductive Task :=
  | ReadyTimeoutTask (clientId : string) (client : Client.t)
  | StateCheckTask (clientId : string) (client : Client.t) (state : string)
  | FollowUpTask (clientId : string) (client : Client.t)
  | RestartTask (clientId : string)
  | InitTimeoutTask.

Record Timer := mkTimer { timer_id : nat; timer_due : Z; timer_task : Task }.

(** JSON values as the service builds them ([data: any]). *)
Inductive JSON :=
  | JUndefined
  | JNull
  | JBool (b : bool)
  | JNum (n : Z)
  | JStr (s : string)
  | JArr (items : list JSON)
  | JObj (members : list (string * JSON))
  | JBigInt (n : Z).

(** One [axios.post]: the URL, the body put on the wire, the headers. *)
Record HttpPost := mkPost {
  post_url : string;
  post_payload : JSON;
  post_body : string;
  post_headers : list (string * string);
  post_timeout : Z
}.

Inductive Level := LOG | WARN | ERROR.
Record LogEntry := mkLog { log_level : Level; log_text : string }.

(** ** The world *)

Record World := mkWorld {
  (** private fields of [WhatsAppService] *)
  clients : gmap string Client.t;
  qrCodes : gmap string string;
  initializingClients : gset string;
  readyTimeouts : gmap string nat;
  (** Mongo collections *)
  sessionModel : gmap string Session.t;
  messageModel : list Message.t;
  webhookModel : list Webhook.t;
  (** host *)
  timers : list Timer;
  nextTimer : nat;
  files : list string;
  outbox : list HttpPost;
  logs : list LogEntry;
  now : Z;
  (** The environment's answers to the fallible external calls still to come
      (storage, file system, HTTP, QR rendering, client construction), in call
      order: [None] lets the call succeed, [Some m] makes it throw
      [Error(m)].  When the list is exhausted every call succeeds. *)
  faults : list (option string)
}.

Definition with_clients (f : gmap string Client.t -> gmap string Client.t) (w : World) : World :=
  mkWorld (f (clients w)) (qrCodes w) (initializingClients w) (readyTimeouts w)
    (sessionModel w) (messageModel w) (webhookModel w) (timers w) (nextTimer w)
    (files w) (outbox w) (logs w) (now w) (faults w).

Definition with_qrCodes (f : gmap string string -> gmap string string) (w : World) : World :=
  mkWorld (clients w) (f (qrCodes w)) (initializingClients w) (readyTimeouts w)
    (sessionModel w) (messageModel w) (webhookModel w) (timers w) (nextTimer w)
    (files w) (outbox w) (logs w) (now w) (faults w).

Definition with_initializingClients (f : gset string -> gset string) (w : World) : World :=
  mkWorld (clients w) (qrCodes w) (f (initializingClients w)) (readyTimeouts w)
    (sessionModel w) (messageModel w) (webhookModel w) (timers w) (nextTimer w)
    (files w) (outbox w) (logs w) (now w) (faults w).

Definition with_readyTimeouts (f : gmap string nat -> gmap string nat) (w : World) : World :=
  mkWorld (clients w) (qrCodes w) (initializingClients w) (f (readyTimeouts w))
    (sessionModel w) (messageModel w) (webhookModel w) (timers w) (nextTimer w)
    (files w) (outbox w) (logs w) (now w) (faults w).

Definition with_sessionModel (f : gmap string Session.t -> gmap string Session.t) (w : World) : World :=
  mkWorld (clients w) (qrCodes w) (initializingClients w) (readyTimeouts w)
    (f (sessionModel w)) (messageModel w) (webhookModel w) (timers w) (nextTimer w)
    (files w) (outbox w) (logs w) (now w) (faults w).

Definition with_messageModel (f : list Message.t -> list Message.t) (w : World) : World :=
  mkWorld (clients w) (qrCodes w) (initializingClients w) (readyTimeouts w)
    (sessionModel w) (f (messageModel w)) (webhookModel w) (timers w) (nextTimer w)
    (files w) (outbox w) (logs w) (now w) (faults w).

Definition with_webhookModel (f : list Webhook.t -> list Webhook.t) (w : World) : World :=
  mkWorld (clients w) (qrCodes w) (initializingClients w) (readyTimeouts w)
    (sessionModel w) (messageModel w) (f (webhookModel w)) (timers w) (nextTimer w)
    (files w) (outbox w) (logs w) (now w) (faults w).

Definition with_timers (f : list Timer -> list Timer) (w : World) : World :=
  mkWorld (clients w) (qrCodes w) (initializingClients w) (readyTimeouts w)
    (sessionModel w) (messageModel w) (webhookModel w) (f (timers w)) (nextTimer w)
    (files w) (outbox w) (logs w) (now w) (faults w).

Definition with_nextTimer (f : nat -> nat) (w : World) : World :=
  mkWorld (clients w) (qrCodes w) (initializingClients w) (readyTimeouts w)
    (sessionModel w) (messageModel w) (webhookModel w) (timers w) (f (nextTimer w))
    (files w) (outbox w) (logs w) (now w) (faults w).

Definition with_files (f : list string -> list string) (w : World) : World :=
  mkWorld (clients w) (qrCodes w) (initializingClients w) (readyTimeouts w)
    (sessionModel w) (messageModel w) (webhookModel w) (timers w) (nextTimer w)
    (f (files w)) (outbox w) (logs w) (now w) (faults w).

Definition with_outbox (f : list HttpPost -> list HttpPost) (w : World) : World :=
  mkWorld (clients w) (qrCodes w) (initializingClients w) (readyTimeouts w)
    (sessionModel w) (messageModel w) (webhookModel w) (timers w) (nextTimer w)
    (files w) (f (outbox w)) (logs w) (now w) (faults w).

Definition with_logs (f : list LogEntry -> list LogEntry) (w : World) : World :=
  mkWorld (clients w) (qrCodes w) (initializingClients w) (readyTimeouts w)
    (sessionModel w) (messageModel w) (webhookModel w) (timers w) (nextTimer w)
    (files w) (outbox w) (f (logs w)) (now w) (faults w).

Definition with_now (f : Z -> Z) (w : World) : World :=
  mkWorld (clients w) (qrCodes w) (initializingClients w) (readyTimeouts w)
    (sessionModel w) (messageModel w) (webhookModel w) (timers w) (nextTimer w)
    (files w) (outbox w) (logs w) (f (now w)) (faults w).

Definition with_faults (f : list (option string) -> list (option string)) (w : World) : World :=
  mkWorld (clients w) (qrCodes w) (initializingClients w) (readyTimeouts w)
    (sessionModel w) (messageModel w) (webhookModel w) (timers w) (nextTimer w)
    (files w) (outbox w) (logs w) (now w) (f (faults w)).

(** ** The monad of [async] methods: state plus JavaScript exceptions

    An exception is an [Error]; only its [message] is ever read. *)

Inductive Outcome (A : Type) := Ok (a : A) | Throw (message : string).
Arguments Ok {A} a.
Arguments Throw {A} message.

Definition M (A : Type) : Type := World -> Outcome A * World.

Definition ret {A} (a : A) : M A := fun w => (Ok a, w).

Definition bind {A B} (m : M A) (k : A -> M B) : M B :=
  fun w => match m w with
           | (Ok a, w') => k a w'
           | (Throw e, w') => (Throw e, w')
           end.

Definition throw {A} (message : string) : M A := fun w => (Throw message, w).

(** [try { body } catch (error) { handler }] *)
Definition try_catch {A} (body : M A) (handler : string -> M A) : M A :=
  fun w => match body w with
           | (Ok a, w') => (Ok a, w')
           | (Throw e, w') => handler e w'
           end.

(** [try { body } finally { cleanup }]: [cleanup] runs on every exit of
    [body], a [return] included; the completion of [body] stands unless
    [cleanup] itself throws. *)
Definition try_finally {A} (body : M A) (cleanup : M unit) : M A :=
  fun w => match body w with
           | (r, w') =>
               match cleanup w' with
               | (Ok _, w'') => (r, w'')
               | (Throw e, w'') => (Throw e, w'')
               end
           end.

Definition get {A} (f : World -> A) : M A := fun w => (Ok (f w), w).
Definition modify (f : World -> World) : M unit := fun w => (Ok tt, f w).

Declare Scope js_scope.
Delimit Scope js_scope with js.
Notation "x <- m ;; k" := (bind m (fun x => k))
  (at level 100, m at next level, right associativity) : js_scope.
Notation "m ;; k" := (bind m (fun _ => k))
  (at level 100, k at level 200, right associativity) : js_scope.
Local Open Scope js_scope.

(** The next answer of the environment to a fallible external call. *)
Definition external : M unit :=
  fun w => match faults w with
           | [] => (Ok tt, w)
           | None :: rest => (Ok tt, with_faults (fun _ => rest) w)
           | Some e :: rest => (Throw e, with_faults (fun _ => rest) w)
           end.


(** ** [JSON.stringify]

    Members whose value is [undefined] are left out of an object and print as
    [null] in an array; a BigInt makes the call throw a [TypeError].  Numbers
    are the integers the service produces (attempt counts, timestamps). *)

Definition hex_digit (n : N) : string :=
  match n with
  | 0 => "0" | 1 => "1" | 2 => "2" | 3 => "3" | 4 => "4" | 5 => "5"
  | 6 => "6" | 7 => "7" | 8 => "8" | 9 => "9" | 10 => "a" | 11 => "b"
  | 12 => "c" | 13 => "d" | 14 => "e" | _ => "f"
  end%N.

Definition escape_char (c : ascii) : string :=
  let n := N_of_ascii c in
  if (n =? 34)%N then String "\" (String c EmptyString)
  else if (n =? 92)%N then String c (String c EmptyString)
  else if (n =? 8)%N then "\b"
  else if (n =? 9)%N then "\t"
  else if (n =? 10)%N then "\n"
  else if (n =? 12)%N then "\f"
  else if (n =? 13)%N then "\r"
  else if (n <? 32)%N then "\u00" +:+ hex_digit (n / 16) +:+ hex_digit (n mod 16)
  else String c EmptyString.

Fixpoint escape (s : string) : string :=
  match s with
  | EmptyString => EmptyString
  | String c s' => escape_char c +:+ escape s'
  end.

Definition quote (s : string) : string :=
  String (ascii_of_N 34) (escape s +:+ String (ascii_of_N 34) EmptyString).

Inductive Serialized := Text (s : string) | Omitted | TypeError (message : string).

Definition bigint_error : string := "Do not know how to serialize a BigInt".

Fixpoint serialize (j : JSON) : Serialized :=
  match j with
  | JUndefined => Omitted
  | JNull => Text "null"
  | JBool true => Text "true"
  | JBool false => Text "false"
  | JNum n => Text (pretty n)
  | JStr s => Text (quote s)
  | JBigInt _ => TypeError bigint_error
  | JArr items =>
      match (fix elements (l : list JSON) : string + list string :=
               match l with
               | [] => inr []
               | x :: l' =>
                   match serialize x with
                   | TypeError m => inl m
                   | Text t =>
                       match elements l' with inl m => inl m | inr ts => inr (t :: ts) end
                   | Omitted =>
                       match elements l' with inl m => inl m | inr ts => inr ("null" :: ts) end
                   end
               end) items with
      | inl m => TypeError m
      | inr ts => Text ("[" +:+ String.concat "," ts +:+ "]")
      end
  | JObj members =>
      match (fix properties (l : list (string * JSON)) : string + list string :=
               match l with
               | [] => inr []
               | (k, x) :: l' =>
                   match serialize x with
                   | TypeError m => inl m
                   | Text t =>
                       match properties l' with
                       | inl m => inl m
                       | inr ts => inr ((quote k +:+ ":" +:+ t) :: ts)
                       end
                   | Omitted => properties l'
                   end
               end) members with
      | inl m => TypeError m
      | inr ts => Text ("{" +:+ String.concat "," ts +:+ "}")
      end
  end.

(** ** [path.resolve] (POSIX) *)

Fixpoint split_slash (acc : string) (s : string) : list string :=
  match s with
  | EmptyString => [String.rev acc]
  | String c s' =>
      if (N_of_ascii c =? 47)%N then String.rev acc :: split_slash EmptyString s'
      else split_slash (String c acc) s'
  end.

(** [stack] is the resolved path so far, innermost segment first. *)
Fixpoint normalize (stack : list string) (segments : list string) : list string :=
  match segments with
  | [] => List.rev stack
  | seg :: rest =>
      if String.eqb seg EmptyString then normalize stack rest
      else if String.eqb seg "." then normalize stack rest
      else if String.eqb seg ".." then normalize (List.tl stack) rest
      else normalize (seg :: stack) rest
  end.

Definition is_absolute (p : string) : bool := String.prefix "/" p.

Definition path_resolve (cwd : string) (paths : list string) : string :=
  let joined :=
    List.fold_left (fun acc p => if is_absolute p then p else acc +:+ "/" +:+ p) paths cwd in
  "/" +:+ String.concat "/" (normalize [] (split_slash EmptyString joined)).

(** [p] is [dir] or lies below it. *)
Definition within (dir p : string) : bool :=
  String.eqb p dir || String.prefix (dir +:+ "/") p.

(** ** What the platform and the libraries compute

    These are outside the repository; the service is verified for every
    choice of them. *)
Record Platform := mkPlatform {
  (** [crypto.createHmac('sha256', key).update(text).digest('hex')] *)
  hmac_sha256_hex : string -> string -> string;
  (** [QRCode.toDataURL(qr)] *)
  QRCode_toDataURL : string -> string;
  (** [new Date(t).toISOString()] *)
  toISOString : Z -> string;
  (** the object [new Client({ authStrategy: new LocalAuth({ clientId }), .. })]
      built at a given instant *)
  newClient : string -> Z -> Client.t;
  (** [process.cwd()] *)
  cwd : string;
  (** whether Mongoose drops a key whose value is [undefined] from an update
      (version 6 and later) or writes [null] for it (version 5) *)
  omitUndefined : bool;
  (** the directory a [LocalAuth] strategy keeps its sessions in when it is
      built without [dataPath] (whatsapp-web.js: [./.wwebjs_auth/]) *)
  localAuth_dataPath : string
}.

(** ** Primitive operations of the host *)

Definition is_Some_b {A} (o : option A) : bool :=
  match o with Some _ => true | None => false end.

(** The world with one more line in the log. *)
Definition logged (level : Level) (text : string) (w : World) : World :=
  with_logs (fun l => (l ++ [mkLog level text])%list) w.

Definition logger (level : Level) (text : string) : M unit :=
  modify (logged level text).

(** [this.logger.error(text, error)]: the line that reaches the log. *)
Definition error_line (text error : string) : string := text +:+ " " +:+ error.

Definition logger_error (text error : string) : M unit :=
  logger ERROR (error_line text error).

(** [await new Promise((resolve) => setTimeout(resolve, ms))] *)
Definition sleep (ms : Z) : M unit := modify (with_now (fun t => t + ms)).

(** An [await] that resumes at instant [t], or at once when the clock has
    passed [t] while the call was waiting. *)
Definition sleep_until (t : Z) : M unit := modify (with_now (Z.max t)).

Definition setTimeout (task : Task) (ms : Z) : M nat :=
  fun w =>
    let id := nextTimer w in
    (Ok id,
     with_nextTimer S (with_timers (fun ts => (ts ++ [mkTimer id (now w + ms) task])%list) w)).

Definition clearTimeout (id : nat) : M unit :=
  modify (with_timers (filter (fun t => timer_id t ≠ id))).

(** Reading and calling the protocol client at the current instant. *)
Definition client_info (client : Client.t) : M (option ClientInfo) :=
  get (fun w => Client.info client (now w)).

Definition client_getState (client : Client.t) : M (option string) :=
  fun w => match Client.getState client (now w) with
           | inl state => (Ok state, w)
           | inr e => (Throw e, w)
           end.

Definition client_destroy (client : Client.t) : M unit :=
  fun w => match Client.destroy client (now w) with
           | None => (Ok tt, w)
           | Some e => (Throw e, w)
           end.

Definition client_sendMessage (client : Client.t) (chatId content : string) : M string :=
  fun w => match Client.sendMessage client chatId content (now w) with
           | inl id => (Ok id, w)
           | inr e => (Throw e, w)
           end.

(** [JSON.stringify(value)] where a string is expected. *)
Definition JSON_stringify (value : JSON) : M string :=
  match serialize value with
  | Text s => ret s
  | Omitted => throw "The data argument must be of type string"
  | TypeError m => throw m
  end.

(** [axios.post(url, payload, { headers, timeout })]: the payload is
    serialized with [JSON.stringify], the request goes out, and the promise
    rejects on a network error, a timeout or an error status. *)
Definition axios_post (url : string) (payload : JSON)
    (headers : list (string * string)) (timeout : Z) : M unit :=
  body <- JSON_stringify payload ;;
  modify (with_outbox (fun o => (o ++ [mkPost url payload body headers timeout])%list)) ;;
  external.

(** ** Mongoose models *)

Section Service.
Context (P : Platform).

(** [$set] of one optional field. *)
Definition set_optional {A} (update : option (option A)) (old : option A) : option A :=
  match update with
  | None => old
  | Some (Some v) => Some v
  | Some None => if omitUndefined P then old else None
  end.

Definition apply_set (u : Updates) (s : Session.t) : Session.t :=
  {| Session.phoneNumber := set_optional (u_phoneNumber u) (Session.phoneNumber s);
     Session.status := default (Session.status s) (u_status u);
     Session.lastActivity :=
       match u_lastActivity u with Some t => Some t | None => Session.lastActivity s end;
     Session.qrCode := set_optional (u_qrCode u) (Session.qrCode s);
     Session.messageCount := default (Session.messageCount s) (u_messageCount u) |}.

(** [sessionModel.updateOne({ clientId }, { $set: updates }, { upsert: true })] *)
Definition sessionModel_updateOne (clientId : string) (updates : Updates) : M unit :=
  external ;;
  modify (with_sessionModel (fun m =>
    <[clientId := apply_set updates (default Session.fresh (m !! clientId))]> m)).

(** [sessionModel.findOne({ clientId })] *)
Definition sessionModel_findOne (clientId : string) : M (option Session.t) :=
  external ;; get (fun w => sessionModel w !! clientId).

(** [sessionModel.deleteOne({ clientId })] *)
Definition sessionModel_deleteOne (clientId : string) : M unit :=
  external ;; modify (with_sessionModel (delete clientId)).

Definition of_client (clientId : string) (m : Message.t) : bool :=
  String.eqb (Message.clientId m) clientId.

(** The paths that the Message schema marks [required: true], with their
    values in a document. *)
Definition required_paths (doc : Message.t) : list (string * string) :=
  [("clientId", Message.clientId doc); ("messageId", Message.messageId doc);
   ("from", Message.from doc); ("to", Message.to doc); ("body", Message.body doc)].

(** Mongoose's required validator on a string path rejects the empty string
    (and a missing value, which the service never passes). *)
Definition missing_paths (doc : Message.t) : list string :=
  (List.filter (fun p => String.eqb (snd p) EmptyString) (required_paths doc)).*1.

(** The message of the [ValidationError] that Mongoose raises. *)
Definition validation_error (paths : list string) : string :=
  "Message validation failed: "
  +:+ String.concat ", "
        (List.map (fun p => p +:+ ": Path `" +:+ p +:+ "` is required.") paths).

(** [messageModel.create(doc)]: the document is validated against the schema
    before anything is written. *)
Definition messageModel_create (doc : Message.t) : M Message.t :=
  match missing_paths doc with
  | [] => external ;; modify (with_messageModel (fun l => (l ++ [doc])%list)) ;; ret doc
  | paths => throw (validation_error paths)
  end.

(** [messageModel.countDocuments({ clientId })] *)
Definition messageModel_countDocuments (clientId : string) : M Z :=
  external ;;
  get (fun w => Z.of_nat (length (List.filter (of_client clientId) (messageModel w)))).

(** [messageModel.deleteMany({ clientId })] *)
Definition messageModel_deleteMany (clientId : string) : M unit :=
  external ;;
  modify (with_messageModel (List.filter (fun m => negb (of_client clientId m)))).

(** The filter of [sendWebhook]:
    [{ clientId, enabled: true,
       $or: [{ events: { $in: [event] } }, { events: { $size: 0 } }] }] *)
Definition webhook_filter (clientId event : string) (h : Webhook.t) : bool :=
  String.eqb (Webhook.clientId h) clientId
  && Webhook.enabled h
  && (bool_decide (event ∈ Webhook.events h)
      || bool_decide (Webhook.events h = [])).

(** [webhookModel.findOne(filter)]: the first matching document. *)
Definition webhookModel_findOne (filter : Webhook.t -> bool) : M (option Webhook.t) :=
  external ;; get (fun w => List.find filter (webhookModel w)).

(** [fs.existsSync], [fs.rmSync(p, { recursive: true, force: true })] *)
Definition fs_existsSync (p : string) : M bool :=
  get (fun w => bool_decide (p ∈ files w)).

Definition fs_rmSync (p : string) : M unit :=
  external ;; modify (with_files (List.filter (fun q => negb (within p q)))).

(** ** WebhookService *)

(** [if (webhook.secret)]: [undefined] and the empty string are falsy. *)
Definition truthy (s : option string) : option string :=
  match s with
  | Some EmptyString => None
  | other => other
  end.

Definition envelope (event clientId : string) (t : Z) (data : JSON) : JSON :=
  JObj [("event", JStr event); ("clientId", JStr clientId);
        ("timestamp", JStr (toISOString P t)); ("data", data)].

Definition base_headers : list (string * string) :=
  [("Content-Type", "application/json");
   ("User-Agent", "WhatsApp-API-Webhook/1.0")].

Definition signature_header (secret text : string) : string * string :=
  ("X-Webhook-Signature", "sha256=" +:+ hmac_sha256_hex P secret text).

(** The [try] block of [sendWebhook]. *)
Definition sendWebhook_try (clientId event : string) (data : JSON) : M unit :=
  webhook <- webhookModel_findOne (webhook_filter clientId event) ;;
  match webhook with
  | None => ret tt
  | Some webhook =>
      t <- get now ;;
      let payload := envelope event clientId t data in
      headers <-
        match truthy (Webhook.secret webhook) with
        | Some secret =>
            text <- JSON_stringify payload ;;
            ret (base_headers ++ [signature_header secret text])%list
        | None => ret base_headers
        end ;;
      axios_post (Webhook.url webhook) payload headers 10000 ;;
      logger LOG ("Webhook sent successfully for " +:+ clientId +:+ ": " +:+ event)
  end.

(** Its [catch] clause. *)
Definition sendWebhook_catch (clientId error : string) : M unit :=
  logger_error ("Failed to send webhook for " +:+ clientId +:+ ":") error.

Definition sendWebhook (clientId event : string) (data : JSON) : M unit :=
  try_catch (sendWebhook_try clientId event data) (sendWebhook_catch clientId).

(** ** WhatsAppService: results handed back to the callers *)

(** [{ success, status }] of [initSession] (the optional [qr] is never
    set). *)
Record InitResult := mkInitResult { init_success : bool; init_status : string }.

(** [{ success, message }] of [restartSession] and [deleteSession]. *)
Record Reply := mkReply { success : bool; message : string }.

(** [${x}] of a value that may be [undefined] or [null]. *)
Definition or_undefined (o : option string) : string := default "undefined" o.
Definition or_null (o : option string) : string := default "null" o.

Definition json_opt (o : option string) : JSON :=
  match o with Some s => JStr s | None => JUndefined end.

(** ** Persisting a session *)

Definition updateSession (clientId : string) (updates : Updates) : M unit :=
  try_catch
    (sessionModel_updateOne clientId updates)
    (fun error => logger_error ("Failed to update session " +:+ clientId +:+ ":") error).

Definition updateSessionStatus (clientId : string) (status : Status) : M unit :=
  t <- get now ;;
  updateSession clientId
    {| u_status := Some status; u_phoneNumber := None; u_lastActivity := Some t;
       u_qrCode := None; u_messageCount := None |}.

(** The block that five methods repeat:
    [const readyTimeout = this.readyTimeouts.get(clientId);
     if (readyTimeout) { clearTimeout(readyTimeout);
                         this.readyTimeouts.delete(clientId); }] *)
Definition clearReadyTimeout (clientId : string) : M unit :=
  readyTimeout <- get (fun w => readyTimeouts w !! clientId) ;;
  match readyTimeout with
  | Some id => clearTimeout id ;; modify (with_readyTimeouts (delete clientId))
  | None => ret tt
  end.

Definition cleanupClient (clientId : string) : M unit :=
  clearReadyTimeout clientId ;;
  client <- get (fun w => clients w !! clientId) ;;
  match client with
  | Some client =>
      try_catch
        (client_destroy client ;;
         logger LOG ("Client " +:+ clientId +:+ " destroyed successfully"))
        (fun error => logger_error ("Error cleaning up client " +:+ clientId +:+ ":") error) ;;
      modify (with_clients (delete clientId))
  | None => ret tt
  end ;;
  modify (with_qrCodes (delete clientId)) ;;
  modify (with_initializingClients (fun s => s ∖ {[clientId]})).

Definition handleInitializationFailure (clientId reason : string) : M unit :=
  logger ERROR ("Initialization failed for " +:+ clientId +:+ ": " +:+ reason) ;;
  clearReadyTimeout clientId ;;
  updateSessionStatus clientId disconnected ;;
  cleanupClient clientId.

(** [client.info?.wid?.user] *)
Definition phone_of (info : option ClientInfo) : option string :=
  match info with
  | Some i => match wid i with Some w => Some (user w) | None => None end
  | None => None
  end.

Definition ready_updates (phoneNumber : option string) (t : Z) : Updates :=
  {| u_status := Some connected; u_phoneNumber := Some phoneNumber;
     u_lastActivity := Some t; u_qrCode := Some None; u_messageCount := None |}.

Definition handleManualReady (clientId : string) (client : Client.t) : M unit :=
  try_catch
    (info <- client_info client ;;
     let phoneNumber := phone_of info in
     logger LOG ("Manually processing ready state for " +:+ clientId
                 +:+ " with phone: " +:+ or_undefined phoneNumber) ;;
     t <- get now ;;
     updateSession clientId (ready_updates phoneNumber t) ;;
     modify (with_qrCodes (delete clientId)) ;;
     logger LOG ("Client " +:+ clientId +:+ " (" +:+ or_undefined phoneNumber
                 +:+ ") manually set to ready!") ;;
     sendWebhook clientId "ready"
       (JObj [("phoneNumber", json_opt phoneNumber); ("clientId", JStr clientId)]) ;;
     clearReadyTimeout clientId)
    (fun error =>
       logger_error ("Error in manual ready handler for " +:+ clientId +:+ ":") error).

Definition restartSession (clientId : string) : M Reply :=
  logger LOG ("Restarting session " +:+ clientId) ;;
  cleanupClient clientId ;;
  updateSessionStatus clientId disconnected ;;
  _ <- setTimeout (RestartTask clientId) 3000 ;;
  ret {| success := true; message := "Session restart initiated" |}.

Definition handleReadyTimeout (clientId : string) (client : Client.t) : M unit :=
  try_finally
    (try_catch
       (logger LOG ("Handling ready timeout for " +:+ clientId
                    +:+ " - checking client state...") ;;
        info <- client_info client ;;
        match info with
        | Some _ =>
            logger LOG ("Client " +:+ clientId
                        +:+ " has info despite no ready event - treating as ready") ;;
            handleManualReady clientId client
        | None =>
            try_catch
              (state <- client_getState client ;;
               logger LOG ("Client " +:+ clientId +:+ " state: " +:+ or_null state) ;;
               if bool_decide (state = Some "CONNECTED") then
                 _ <- setTimeout (FollowUpTask clientId client) 5000 ;; ret tt
               else
                 logger ERROR ("Client " +:+ clientId
                               +:+ " not ready after timeout, state: " +:+ or_null state) ;;
                 handleInitializationFailure clientId
                   ("Client not ready after timeout, state: " +:+ or_null state))
              (fun stateError =>
                 logger_error ("Failed to get state for " +:+ clientId +:+ ":") stateError ;;
                 handleInitializationFailure clientId "Failed to verify client state")
        end)
       (fun error =>
          logger_error ("Error handling ready timeout for " +:+ clientId +:+ ":") error ;;
          handleInitializationFailure clientId "Ready timeout handling failed"))
    (modify (with_readyTimeouts (delete clientId))).

(** ** Event handlers of [setupClientEventHandlers]

    The handlers close over [clientId], [client] and the counter
    [let qrCount = 0]; the closure is the record below, and a handler that
    assigns to [qrCount] returns the closure it leaves behind. *)

Record Attempt := mkAttempt {
  attempt_clientId : string;
  attempt_client : Client.t;
  qrCount : nat
}.

(** [await QRCode.toDataURL(qr)] *)
Definition toDataURL (qr : string) : M string :=
  external ;; ret (QRCode_toDataURL P qr).

Definition qr_updates (qrDataUrl : string) : Updates :=
  {| u_status := Some qr_required; u_phoneNumber := None; u_lastActivity := None;
     u_qrCode := Some (Some qrDataUrl); u_messageCount := None |}.

(** [client.on('qr', async (qr) => { .. })] *)
Definition on_qr (a : Attempt) (qr : string) : M Attempt :=
  let clientId := attempt_clientId a in
  let qrCount := S (qrCount a) in
  try_catch
    (logger LOG ("QR code generated for " +:+ clientId +:+ " (attempt "
                 +:+ pretty qrCount +:+ ")") ;;
     if bool_decide (5 < qrCount)%nat then
       logger ERROR ("Too many QR codes generated for " +:+ clientId +:+ ", stopping") ;;
       handleInitializationFailure clientId "Too many QR attempts"
     else
       qrDataUrl <- toDataURL qr ;;
       modify (with_qrCodes <[clientId := qrDataUrl]>) ;;
       updateSession clientId (qr_updates qrDataUrl) ;;
       sendWebhook clientId "qr_code"
         (JObj [("qr", JStr qrDataUrl); ("attempt", JNum (Z.of_nat qrCount))]))
    (fun error => logger_error ("QR generation failed for " +:+ clientId +:+ ":") error) ;;
  ret (mkAttempt clientId (attempt_client a) qrCount).

(** [client.on('authenticated', async () => { .. })] *)
Definition on_authenticated (a : Attempt) : M unit :=
  let clientId := attempt_clientId a in
  logger LOG ("Client " +:+ clientId
              +:+ " authenticated successfully - waiting for ready event...") ;;
  modify (with_qrCodes (delete clientId)) ;;
  updateSessionStatus clientId connecting ;;
  readyTimeout <- setTimeout (ReadyTimeoutTask clientId (attempt_client a)) 60000 ;;
  modify (with_readyTimeouts <[clientId := readyTimeout]>).

(** [client.on('ready', async () => { .. })]; the [console.log] of the
    client object is not part of the model. *)
Definition on_ready (a : Attempt) : M unit :=
  let clientId := attempt_clientId a in
  let client := attempt_client a in
  try_catch
    (clearReadyTimeout clientId ;;
     logger LOG ("Client " +:+ clientId +:+ " ready event fired!") ;;
     sleep 1000 ;;
     info <- client_info client ;;
     match info with
     | None =>
         logger ERROR ("Client " +:+ clientId +:+ " ready but no info available") ;;
         try_catch
           (state <- client_getState client ;;
            logger LOG ("Manual state check for " +:+ clientId +:+ ": " +:+ or_null state))
           (fun stateError =>
              logger_error ("Failed to get manual state for " +:+ clientId +:+ ":")
                stateError)
     | Some i =>
         let phoneNumber := phone_of (Some i) in
         logger LOG ("Processing ready event for " +:+ clientId +:+ " with phone: "
                     +:+ or_undefined phoneNumber) ;;
         t <- get now ;;
         updateSession clientId (ready_updates phoneNumber t) ;;
         modify (with_qrCodes (delete clientId)) ;;
         logger LOG ("Client " +:+ clientId +:+ " (" +:+ or_undefined phoneNumber
                     +:+ ") is fully ready and connected!") ;;
         sendWebhook clientId "ready"
           (JObj [("phoneNumber", json_opt phoneNumber); ("clientId", JStr clientId)])
     end)
    (fun error =>
       logger_error ("Error in ready handler for " +:+ clientId +:+ ":") error ;;
       updateSessionStatus clientId connected).

(** [client.on('change_state', async (state) => { .. })] *)
Definition on_change_state (a : Attempt) (state : string) : M unit :=
  let clientId := attempt_clientId a in
  logger LOG ("Client " +:+ clientId +:+ " state changed to: " +:+ state) ;;
  if String.eqb state "CONNECTED" || String.eqb state "OPENING" then
    logger LOG ("Client " +:+ clientId +:+ " reached state " +:+ state
                +:+ " - checking if ready...") ;;
    _ <- setTimeout (StateCheckTask clientId (attempt_client a) state) 3000 ;;
    ret tt
  else ret tt.

(** [client.on('disconnected', async (reason) => { .. })] *)
Definition on_disconnected (a : Attempt) (reason : string) : M unit :=
  let clientId := attempt_clientId a in
  logger WARN ("Client " +:+ clientId +:+ " disconnected: " +:+ reason) ;;
  clearReadyTimeout clientId ;;
  updateSessionStatus clientId disconnected ;;
  modify (with_clients (delete clientId)) ;;
  modify (with_qrCodes (delete clientId)) ;;
  sendWebhook clientId "disconnected" (JObj [("reason", JStr reason)]).

(** [client.on('auth_failure', async (message) => { .. })] *)
Definition on_auth_failure (a : Attempt) (message : string) : M unit :=
  let clientId := attempt_clientId a in
  logger_error ("Auth failure for " +:+ clientId +:+ ":") message ;;
  handleInitializationFailure clientId ("Auth failure: " +:+ message) ;;
  sendWebhook clientId "auth_failure" (JObj [("message", JStr message)]).

(** [setupClientEventHandlers]: drops a timeout left by an earlier attempt
    and registers the handlers above, whose closure starts with
    [qrCount = 0]. *)
Definition setupClientEventHandlers (clientId : string) (client : Client.t) : M Attempt :=
  clearReadyTimeout clientId ;;
  ret (mkAttempt clientId client 0).

(** ** [initSession] *)

(** [new Client({ authStrategy: new LocalAuth({ clientId }), puppeteer })] *)
Definition new_Client (clientId : string) : M Client.t :=
  external ;; get (fun w => newClient P clientId (now w)).

(** The options of a [LocalAuth] strategy. *)
Record LocalAuthOptions := mkLocalAuth {
  auth_clientId : string;
  auth_dataPath : option string
}.

(** [new LocalAuth({ clientId })], the strategy that [initSession] builds: no
    [dataPath] is given (the call that gave [path.resolve('./wa-sessions')]
    is commented out). *)
Definition authStrategy (clientId : string) : LocalAuthOptions :=
  mkLocalAuth clientId None.

(** The directory in which a strategy keeps the authentication artifacts of
    its identity: [session-<clientId>] below its [dataPath], which is the
    library's own directory when the option is missing (or empty).  It is the
    layout [deleteSession] counts on when it removes [session-<clientId>]
    below [./wa-sessions], the [dataPath] of the commented-out call. *)
Definition userDataDir (o : LocalAuthOptions) : string :=
  path_resolve (cwd P)
    [match truthy (auth_dataPath o) with
     | Some dataPath => dataPath
     | None => localAuth_dataPath P
     end;
     "session-" +:+ auth_clientId o].

Definition init_timeout : string := "Initialization timeout after 240 seconds".

(** [await Promise.race([client.initialize(), timeoutPromise])] with the
    240000 ms rejection timer, when nothing else runs while the call waits:
    no event of the client is handled, no timer fires and no other request
    comes in before the race settles.  [race_begin] and [race_end] below are
    the two halves of it, for the runs in which something does. *)
Definition race_initialize (client : Client.t) : M unit :=
  match Client.initialize client with
  | Some (ms, outcome) =>
      if (ms <? 240000)%Z then
        _ <- setTimeout InitTimeoutTask 240000 ;;
        sleep ms ;;
        match outcome with
        | Fulfilled => ret tt
        | Rejected e => throw e
        end
      else sleep 240000 ;; throw init_timeout
  | None => sleep 240000 ;; throw init_timeout
  end.

(** The [try] block from [this.initializingClients.add(clientId)] up to the
    call of [client.initialize()]. *)
Definition initSession_begin (clientId : string) : M (InitResult + Client.t) :=
  modify (with_initializingClients (fun s => {[clientId]} ∪ s)) ;;
  updateSessionStatus clientId connecting ;;
  logger LOG ("Initializing session for " +:+ clientId +:+ "...") ;;
  client <- new_Client clientId ;;
  _ <- setupClientEventHandlers clientId client ;;
  modify (with_clients <[clientId := client]>) ;;
  ret (inr client).

(** The [try] block up to the call of [client.initialize()]: either a
    [return] taken before it, or the client about to be initialized. *)
Definition initSession_prologue (clientId : string) : M (InitResult + Client.t) :=
  initializing <- get (fun w => bool_decide (clientId ∈ initializingClients w)) ;;
  if initializing : bool then
    logger WARN ("Session " +:+ clientId +:+ " is already being initialized") ;;
    ret (inl {| init_success := false; init_status := "initializing" |})
  else
    existing <- get (fun w => clients w !! clientId) ;;
    match existing with
    | Some client =>
        info <- client_info client ;;
        if is_Some_b info then
          ret (inl {| init_success := true; init_status := "connected" |})
        else cleanupClient clientId ;; initSession_begin clientId
    | None => initSession_begin clientId
    end.

(** The rest of the [try] block. *)
Definition initSession_epilogue (clientId : string) (p : InitResult + Client.t)
    : M InitResult :=
  match p with
  | inl result => ret result
  | inr client =>
      race_initialize client ;;
      logger LOG ("Session " +:+ clientId +:+ " initialization completed") ;;
      ret {| init_success := true; init_status := "connecting" |}
  end.

Definition initSession_catch (clientId error : string) : M InitResult :=
  logger_error ("Failed to initialize session " +:+ clientId +:+ ":") error ;;
  handleInitializationFailure clientId error ;;
  ret {| init_success := false; init_status := "disconnected" |}.

Definition initSession_finally (clientId : string) : M unit :=
  modify (with_initializingClients (fun s => s ∖ {[clientId]})).

Definition initSession (clientId : string) : M InitResult :=
  try_finally
    (try_catch
       (p <- initSession_prologue clientId ;; initSession_epilogue clientId p)
       (initSession_catch clientId))
    (initSession_finally clientId).

(** A call that is suspended in [await Promise.race(..)] and resumes. *)
Definition initSession_resume (clientId : string) (client : Client.t) : M InitResult :=
  try_finally
    (try_catch (initSession_epilogue clientId (inr client)) (initSession_catch clientId))
    (initSession_finally clientId).

(** *** The call and what happens while it waits

    [initSession] above runs from its first line to its [return] with nothing
    in between.  The code waits at [await Promise.race(..)], and the handlers
    that [setupClientEventHandlers] has registered by then, the timer
    callbacks and other requests run during that wait.  The race is therefore
    also given in two halves, with the world free to change between them. *)

(** [const initPromise = client.initialize()] and the [setTimeout] of
    [timeoutPromise]: the instant at which the race starts.  As in
    [race_initialize], the rejection timer is left in the queue when the
    client settles first, and has fired when it does not. *)
Definition race_begin (client : Client.t) : M Z :=
  t0 <- get now ;;
  match Client.initialize client with
  | Some (ms, _) =>
      if (ms <? 240000)%Z then _ <- setTimeout InitTimeoutTask 240000 ;; ret t0
      else ret t0
  | None => ret t0
  end.

(** The call resumes from [await Promise.race(..)]: at the settlement of
    [client.initialize()], or at the rejection of the timer, both counted
    from the start [t0] of the race. *)
Definition race_end (client : Client.t) (t0 : Z) : M unit :=
  match Client.initialize client with
  | Some (ms, outcome) =>
      if (ms <? 240000)%Z then
        sleep_until (t0 + ms) ;;
        match outcome with
        | Fulfilled => ret tt
        | Rejected e => throw e
        end
      else sleep_until (t0 + 240000) ;; throw init_timeout
  | None => sleep_until (t0 + 240000) ;; throw init_timeout
  end.

(** The [try] block up to the [await] of the race: a [return] taken before
    it, or the client and the start of the race the call waits for. *)
Definition initSession_suspend (clientId : string) : M (InitResult + Client.t * Z) :=
  p <- initSession_prologue clientId ;;
  match p with
  | inl result => ret (inl result)
  | inr client => t0 <- race_begin client ;; ret (inr (client, t0))
  end.

(** The [try] block from the [await] on. *)
Definition initSession_continue (clientId : string) (p : InitResult + Client.t * Z)
    : M InitResult :=
  match p with
  | inl result => ret result
  | inr (client, t0) =>
      race_end client t0 ;;
      logger LOG ("Session " +:+ clientId +:+ " initialization completed") ;;
      ret {| init_success := true; init_status := "connecting" |}
  end.

(** [initSession] with what happens during its wait: [during] is what the
    handlers, callbacks and requests that ran meanwhile made of the world.
    They are no part of the call, so an error of theirs does not reach its
    [catch]. *)
Definition initSession_during (during : World -> World) (clientId : string)
    : M InitResult :=
  try_finally
    (try_catch
       (p <- initSession_suspend clientId ;;
        match p with
        | inl _ => ret tt
        | inr _ => modify during
        end ;;
        initSession_continue clientId p)
       (initSession_catch clientId))
    (initSession_finally clientId).

(** ** Timer callbacks *)

Definition run_task (task : Task) : M unit :=
  match task with
  | ReadyTimeoutTask clientId client =>
      logger WARN ("Ready event timeout for " +:+ clientId
                   +:+ " - checking client state manually") ;;
      handleReadyTimeout clientId client
  | StateCheckTask clientId client state =>
      info <- client_info client ;;
      pending <- get (fun w => is_Some_b (readyTimeouts w !! clientId)) ;;
      if is_Some_b info && negb pending then
        logger LOG ("Client " +:+ clientId +:+ " has info in state " +:+ state
                    +:+ " - treating as ready") ;;
        handleManualReady clientId client
      else ret tt
  | FollowUpTask clientId client =>
      info <- client_info client ;;
      if is_Some_b info then handleManualReady clientId client
      else
        logger ERROR ("Client " +:+ clientId
                      +:+ " connected but still no info - restarting session") ;;
        _ <- restartSession clientId ;; ret tt
  | RestartTask clientId => _ <- initSession clientId ;; ret tt
  | InitTimeoutTask => ret tt
  end.

(** ** Messages *)

(** The fields of a [WAMessage] that the service reads. *)
Record WAMessage := mkWAMessage {
  wa_id : string;               (* message.id._serialized *)
  wa_from : string;
  wa_to : option string;
  wa_body : string;
  wa_type : string;
  wa_timestamp : Z
}.

(** [message.to || clientId] *)
Definition to_or (o : option string) (clientId : string) : string :=
  match truthy o with Some s => s | None => clientId end.

Definition count_updates (t count : Z) : Updates :=
  {| u_status := None; u_phoneNumber := None; u_lastActivity := Some t;
     u_qrCode := None; u_messageCount := Some count |}.

Definition handleIncomingMessage (clientId : string) (message : WAMessage) : M unit :=
  try_catch
    (_ <- messageModel_create
            {| Message.clientId := clientId; Message.messageId := wa_id message;
               Message.from := wa_from message;
               Message.to := to_or (wa_to message) clientId;
               Message.body := wa_body message; Message.type := wa_type message;
               Message.status := "delivered"; Message.direction := "incoming" |} ;;
     t <- get now ;;
     count <- messageModel_countDocuments clientId ;;
     updateSession clientId (count_updates t count) ;;
     sendWebhook clientId "message"
       (JObj [("id", JStr (wa_id message)); ("from", JStr (wa_from message));
              ("to", json_opt (wa_to message)); ("body", JStr (wa_body message));
              ("type", JStr (wa_type message));
              ("timestamp", JNum (wa_timestamp message))]))
    (fun error => logger_error "Failed to handle incoming message:" error).

(** [{ success, messageId, message }] of [sendMessage]. *)
Record SendResult := mkSendResult {
  send_success : bool;
  send_messageId : string;
  send_message : string
}.

(** [to.includes('@')] *)
Fixpoint includes_at (s : string) : bool :=
  match s with
  | EmptyString => false
  | String c s' => (N_of_ascii c =? 64)%N || includes_at s'
  end.

Definition not_ready : string :=
  "Client not ready. Please ensure WhatsApp is connected and try again.".

Definition sendMessage (clientId to message type : string) : M SendResult :=
  try_catch
    (found <- get (fun w => clients w !! clientId) ;;
     match found with
     | None => throw "Client not found"
     | Some client =>
         info <- client_info client ;;
         match info with
         | Some _ => ret tt
         | None =>
             sleep 2000 ;;
             info <- client_info client ;;
             match info with
             | Some _ => ret tt
             | None => throw not_ready
             end
         end ;;
         let chatId := if includes_at to then to else to +:+ "@c.us" in
         sentId <- client_sendMessage client chatId message ;;
         info <- client_info client ;;
         sender <-
           match info with
           | None => throw "Cannot read properties of undefined (reading 'wid')"
           | Some i =>
               match wid i with
               | None => throw "Cannot read properties of undefined (reading '_serialized')"
               | Some w => ret (_serialized w)
               end
           end ;;
         _ <- messageModel_create
                {| Message.clientId := clientId; Message.messageId := sentId;
                   Message.from := sender; Message.to := chatId;
                   Message.body := message; Message.type := type;
                   Message.status := "sent"; Message.direction := "outgoing" |} ;;
         t <- get now ;;
         count <- messageModel_countDocuments clientId ;;
         updateSession clientId (count_updates t count) ;;
         ret {| send_success := true; send_messageId := sentId;
                send_message := "Message sent successfully" |}
     end)
    (fun error =>
       logger_error "Failed to send message:" error ;;
       throw ("Failed to send message: " +:+ error)).

(** ** Status, deletion *)

Record Snapshot := mkSnapshot {
  snap_clientId : string;
  snap_status : string;
  snap_phoneNumber : option string;
  snap_connected : bool;
  snap_lastActivity : option Z;
  snap_messageCount : Z;
  snap_qrCode : option string;
  snap_isInitializing : bool;
  snap_clientState : option string;
  snap_hasClientInfo : bool
}.

Definition getSessionStatus (clientId : string) : M Snapshot :=
  session <- sessionModel_findOne clientId ;;
  client <- get (fun w => clients w !! clientId) ;;
  qr <- get (fun w => qrCodes w !! clientId) ;;
  clientState <-
    match client with
    | Some c =>
        try_catch
          (client_getState c)
          (fun error =>
             logger_error ("Failed to get state for " +:+ clientId +:+ ":") error ;;
             ret (Some "unknown"))
    | None => ret (Some "unknown")
    end ;;
  info <- match client with
          | Some c => client_info c
          | None => ret None
          end ;;
  isInitializing <- get (fun w => bool_decide (clientId ∈ initializingClients w)) ;;
  ret {| snap_clientId := clientId;
         snap_status :=
           match session with
           | Some s => status_name (Session.status s)
           | None => "disconnected"
           end;
         snap_phoneNumber := session ≫= Session.phoneNumber;
         snap_connected := is_Some_b info;
         snap_lastActivity := session ≫= Session.lastActivity;
         snap_messageCount :=
           match session with
           | Some s => Session.messageCount s
           | None => 0
           end;
         snap_qrCode := qr;
         snap_isInitializing := isInitializing;
         snap_clientState := clientState;
         snap_hasClientInfo := is_Some_b info |}.

(** [path.resolve('./wa-sessions', `session-${clientId}`)] *)
Definition sessionPath (clientId : string) : string :=
  path_resolve (cwd P) ["./wa-sessions"; "session-" +:+ clientId].

Definition deleteSession (clientId : string) : M Reply :=
  try_catch
    (cleanupClient clientId ;;
     exists_ <- fs_existsSync (sessionPath clientId) ;;
     (if exists_ : bool then fs_rmSync (sessionPath clientId) else ret tt) ;;
     modify (with_qrCodes (delete clientId)) ;;
     sessionModel_deleteOne clientId ;;
     messageModel_deleteMany clientId ;;
     ret {| success := true; message := "Session deleted successfully" |})
    (fun error =>
       logger_error ("Failed to delete session " +:+ clientId +:+ ":") error ;;
       throw ("Failed to delete session: " +:+ error)).

(** The host fires a pending timer: it leaves the queue and its callback
    runs. *)
Definition fire (id : nat) : M unit :=
  fun w =>
    match List.find (fun t => Nat.eqb (timer_id t) id) (timers w) with
    | Some t => run_task (timer_task t) (with_timers (filter (fun t' => timer_id t' ≠ id)) w)
    | None => (Ok tt, w)
    end.

End Service.

(** ** The rest of the two services *)

(** What a route of the controller answers with: a thrown [HttpException] is
    a value here, next to the body of a normal reply. *)
Inductive Http (A : Type) := Replied (body : A) | HttpException (message : string) (status : Z).
Arguments Replied {A} body.
Arguments HttpException {A} message status.

Section Coverage.
Context (P : Platform).

(** *** WebhookService: the subscription of an identity *)

(** The [Partial<Webhook>] handed to [createWebhook].  Both callers (the
    controller's [createSession] and [configureWebhook]) give a [url]; a key
    the request leaves out is [None]. *)
Record WebhookData := mkWebhookData {
  data_url : string;
  data_enabled : option bool;
  data_events : option (list string);
  data_secret : option string
}.

Definition for_client (clientId : string) (h : Webhook.t) : bool :=
  String.eqb (Webhook.clientId h) clientId.

(** The update [{ ...webhookData, clientId }] applied to a document. *)
Definition apply_data (d : WebhookData) (h : Webhook.t) : Webhook.t :=
  {| Webhook.clientId := Webhook.clientId h;
     Webhook.url := data_url d;
     Webhook.enabled := default (Webhook.enabled h) (data_enabled d);
     Webhook.events := default (Webhook.events h) (data_events d);
     Webhook.secret :=
       match data_secret d with Some s => Some s | None => Webhook.secret h end |}.

(** What an upsert inserts before the update is applied: the filter's
    [clientId] and the schema defaults ([enabled: true], [events: []]). *)
Definition fresh_webhook (clientId : string) : Webhook.t :=
  {| Webhook.clientId := clientId; Webhook.url := EmptyString;
     Webhook.enabled := true; Webhook.events := []; Webhook.secret := None |}.

(** The first document that matches is the one an update or a delete takes. *)
Fixpoint update_first (p : Webhook.t -> bool) (f : Webhook.t -> Webhook.t)
    (l : list Webhook.t) : list Webhook.t :=
  match l with
  | [] => []
  | h :: rest => if p h then f h :: rest else h :: update_first p f rest
  end.

Fixpoint remove_first (p : Webhook.t -> bool) (l : list Webhook.t) : list Webhook.t :=
  match l with
  | [] => []
  | h :: rest => if p h then rest else h :: remove_first p rest
  end.

(** [webhookModel.findOneAndUpdate({ clientId }, { ...webhookData, clientId },
    { upsert: true, new: true })] *)
Definition createWebhook (clientId : string) (webhookData : WebhookData) : M Webhook.t :=
  external ;;
  existing <- get (fun w => List.find (for_client clientId) (webhookModel w)) ;;
  match existing with
  | Some h =>
      modify (with_webhookModel
                (update_first (for_client clientId) (apply_data webhookData))) ;;
      ret (apply_data webhookData h)
  | None =>
      let h := apply_data webhookData (fresh_webhook clientId) in
      modify (with_webhookModel (fun l => (l ++ [h])%list)) ;;
      ret h
  end.

(** [webhookModel.findOne({ clientId })] *)
Definition getWebhook (clientId : string) : M (option Webhook.t) :=
  webhookModel_findOne (for_client clientId).

(** [webhookModel.deleteOne({ clientId })]: the [deletedCount]. *)
Definition deleteWebhook (clientId : string) : M nat :=
  external ;;
  existing <- get (fun w => List.find (for_client clientId) (webhookModel w)) ;;
  modify (with_webhookModel (remove_first (for_client clientId))) ;;
  ret (if is_Some_b existing then 1%nat else 0%nat).

(** *** WhatsAppService: what is left of it *)

(** [${!!x}] *)
Definition bool_text (b : bool) : string := if b then "true" else "false".

Definition checkAndFixReadyState (clientId : string) : M Reply :=
  try_catch
    (found <- get (fun w => clients w !! clientId) ;;
     match found with
     | None => ret {| success := false; message := "Client not found" |}
     | Some client =>
         state <- client_getState client ;;
         info <- client_info client ;;
         logger LOG ("Manual check for " +:+ clientId +:+ " - state: " +:+ or_null state
                     +:+ ", has info: " +:+ bool_text (is_Some_b info)) ;;
         pending <- get (fun w => is_Some_b (readyTimeouts w !! clientId)) ;;
         if (bool_decide (state = Some "CONNECTED") || is_Some_b info) && negb pending then
           handleManualReady P clientId client ;;
           ret {| success := true; message := "Ready state fixed manually" |}
         else
           ret {| success := false;
                  message := "Client state: " +:+ or_null state +:+ ", has info: "
                             +:+ bool_text (is_Some_b info) |}
     end)
    (fun error =>
       logger_error ("Failed to check ready state for " +:+ clientId +:+ ":") error ;;
       ret {| success := false; message := error |}).

(** [getMessages]: [find({ clientId }).sort({ createdAt: -1 }).limit(limit)
    .skip(offset)].  [createdAt] is stamped by [messageModel.create], so the
    collection is in [createdAt] order and newest-first is its reverse; the
    query skips before it limits, and a limit of 0 is no limit. *)
Definition page {A} (limit offset : nat) (l : list A) : list A :=
  let rest := drop offset l in
  match limit with
  | O => rest
  | _ => take limit rest
  end.

Definition getMessages (clientId : string) (limit offset : nat) : M (list Message.t) :=
  external ;;
  get (fun w => page limit offset (List.rev (List.filter (of_client clientId) (messageModel w)))).

(** One row of [getAllSessions]. *)
Record SessionRow := mkSessionRow {
  row_clientId : string;
  row_status : Status;
  row_phoneNumber : option string;
  row_connected : bool;
  row_lastActivity : option Z;
  row_messageCount : Z;
  row_isInitializing : bool
}.

(** [sort({ lastActivity: -1 })]: later first, documents without the field
    last.  Which of two documents with the same [lastActivity] comes first is
    the store's choice; the model takes a stable merge sort of the
    collection. *)
Definition later_first (a b : string * Session.t) : Prop :=
  match Session.lastActivity a.2, Session.lastActivity b.2 with
  | _, None => True
  | None, Some _ => False
  | Some x, Some y => (y <= x)%Z
  end.

#[global] Instance later_first_dec a b : Decision (later_first a b).
Proof.
  unfold later_first.
  destruct (Session.lastActivity a.2), (Session.lastActivity b.2); apply _.
Defined.

Definition sessionModel_find_sorted : M (list (string * Session.t)) :=
  external ;; get (fun w => merge_sort later_first (map_to_list (sessionModel w))).

Definition session_row (w : World) (d : string * Session.t) : SessionRow :=
  {| row_clientId := d.1;
     row_status := Session.status d.2;
     row_phoneNumber := Session.phoneNumber d.2;
     row_connected :=
       match clients w !! d.1 with
       | Some c => is_Some_b (Client.info c (now w))
       | None => false
       end;
     row_lastActivity := Session.lastActivity d.2;
     row_messageCount := Session.messageCount d.2;
     row_isInitializing := bool_decide (d.1 ∈ initializingClients w) |}.

Definition getAllSessions : M (list SessionRow) :=
  sessions <- sessionModel_find_sorted ;;
  get (fun w => List.map (session_row w) sessions).

(** [sessionModel.find({ status: 'connected' })], in the order of the
    collection. *)
Definition sessionModel_find_connected : M (list string) :=
  external ;;
  get (fun w =>
         (List.filter (fun d => bool_decide (Session.status d.2 = connected))
            (map_to_list (sessionModel w))).*1).

(** The loop of [restoreSessions]. *)
Fixpoint restore_each (clientIds : list string) : M unit :=
  match clientIds with
  | [] => ret tt
  | clientId :: rest =>
      sleep 3000 ;;
      _ <- initSession P clientId ;;
      restore_each rest
  end.

Definition restoreSessions : M unit :=
  try_catch
    (sessions <- sessionModel_find_connected ;;
     logger LOG ("Restoring " +:+ pretty (length sessions) +:+ " sessions...") ;;
     restore_each sessions)
    (fun error => logger_error "Failed to restore sessions:" error).

(** [fs.mkdirSync(dir, { recursive: true, mode: 0o755 })]: the directory and
    the ancestors it lacks. *)
Fixpoint ancestors (prefix : string) (segments : list string) : list string :=
  match segments with
  | [] => []
  | seg :: rest => (prefix +:+ "/" +:+ seg) :: ancestors (prefix +:+ "/" +:+ seg) rest
  end.

Definition fs_mkdirSync (dir : string) : M unit :=
  external ;;
  modify (with_files (fun l =>
    (l ++ List.filter (fun q => negb (bool_decide (q ∈ l)))
            (ancestors EmptyString (normalize [] (split_slash EmptyString dir))))%list)).

Definition sessionsDir : string := path_resolve (cwd P) ["./wa-sessions"].

Definition ensureSessionsDirectory : M unit :=
  present <- fs_existsSync sessionsDir ;;
  if present : bool then ret tt
  else fs_mkdirSync sessionsDir ;; logger LOG "Created wa-sessions directory".

(** [client.on('loading_screen', (percent, message) => { .. })] *)
Definition on_loading_screen (a : Attempt) (percent : Z) (message : string) : M unit :=
  logger LOG ("Loading screen for " +:+ attempt_clientId a +:+ ": " +:+ pretty percent
              +:+ "% - " +:+ message).

(** *** WhatsAppController *)


(** [CreateSessionDto], [SendMessageDto] *)
Record CreateSessionDto := mkCreateSessionDto { dto_clientId : string; dto_webhook : option string }.
Record SendMessageDto := mkSendMessageDto {
  dto_to : string; dto_message : string; dto_type : option string }.

Definition controller_createSession (dto : CreateSessionDto) : M (Http InitResult) :=
  try_catch
    (result <- initSession P (dto_clientId dto) ;;
     match truthy (dto_webhook dto) with
     | Some url =>
         _ <- createWebhook (dto_clientId dto)
                {| data_url := url; data_enabled := Some true; data_events := Some [];
                   data_secret := None |} ;;
         ret tt
     | None => ret tt
     end ;;
     ret (Replied result))
    (fun error => ret (HttpException error 500)).

Definition controller_deleteSession (clientId : string) : M (Http Reply) :=
  try_catch
    (r <- deleteSession P clientId ;; ret (Replied r))
    (fun error => ret (HttpException error 500)).

Definition controller_sendMessage (clientId : string) (dto : SendMessageDto)
    : M (Http SendResult) :=
  try_catch
    (r <- sendMessage P clientId (dto_to dto) (dto_message dto)
            (match truthy (dto_type dto) with Some t => t | None => "text" end) ;;
     ret (Replied r))
    (fun error => ret (HttpException error 400)).

(** [getMessages(clientId, limit || 50, offset || 0)] *)
Definition controller_getMessages (clientId : string) (limit offset : option nat)
    : M (list Message.t) :=
  getMessages clientId
    (match limit with Some (S n) => S n | _ => 50%nat end)
    (default 0%nat offset).

End Coverage.


(** * A concrete platform for the worked examples

    HMAC-SHA256 (FIPS 180-4, RFC 2104) over the bytes of the strings, and
    [Date.prototype.toISOString] for the years 0000 to 9999. *)

Module SHA256.
Local Open Scope N_scope.

Definition mask (x : N) : N := N.land x 4294967295.
Definition add (x y : N) : N := mask (x + y).
Definition rotr (n x : N) : N := mask (N.lor (N.shiftr x n) (N.shiftl x (32 - n))).

Definition Ch (x y z : N) : N :=
  N.lxor (N.land x y) (N.land (N.lxor x 4294967295) z).
Definition Maj (x y z : N) : N :=
  N.lxor (N.lxor (N.land x y) (N.land x z)) (N.land y z).
Definition Sigma0 (x : N) : N := N.lxor (N.lxor (rotr 2 x) (rotr 13 x)) (rotr 22 x).
Definition Sigma1 (x : N) : N := N.lxor (N.lxor (rotr 6 x) (rotr 11 x)) (rotr 25 x).
Definition sigma0 (x : N) : N := N.lxor (N.lxor (rotr 7 x) (rotr 18 x)) (N.shiftr x 3).
Definition sigma1 (x : N) : N := N.lxor (N.lxor (rotr 17 x) (rotr 19 x)) (N.shiftr x 10).

(** The largest [r] below [2 ^ bits] with [r ^ 3 <= n], built bit by bit. *)
Fixpoint cube_root (bits : nat) (n r : N) : N :=
  match bits with
  | O => r
  | S b =>
      let c := r + N.shiftl 1 (N.of_nat b) in
      if c * c * c <=? n then cube_root b n c else cube_root b n r
  end.

Definition is_prime (p : N) : bool :=
  forallb (fun d => negb (p mod N.of_nat d =? 0)) (seq 2 (N.to_nat p - 2)).

Definition primes : list N :=
  firstn 64 (List.filter is_prime (List.map N.of_nat (seq 2 320))).

(** The round constants: the first 32 bits of the fractional parts of the
    cube roots of the first 64 primes; the initial hash value: the same of
    the square roots of the first 8. *)
Definition K : list N :=
  List.map (fun p => mask (cube_root 40 (N.shiftl p 96) 0)) primes.

Definition H0 : list N :=
  List.map (fun p => mask (N.sqrt (N.shiftl p 64))) (firstn 8 primes).

Definition bytes_of (s : string) : list N :=
  List.map N_of_ascii (list_ascii_of_string s).

(** The [n] low bytes of [x], most significant first. *)
Fixpoint be_bytes (n : nat) (x : N) : list N :=
  match n with
  | O => []
  | S n' => N.land (N.shiftr x (8 * N.of_nat n')) 255 :: be_bytes n' x
  end.

Definition pad (msg : list N) : list N :=
  let len := N.of_nat (length msg) in
  let zeros := N.to_nat ((119 - len mod 64) mod 64) in
  (msg ++ 128 :: repeat 0 zeros ++ be_bytes 8 (8 * len))%list.

Fixpoint words (fuel : nat) (bytes : list N) : list N :=
  match fuel, bytes with
  | S fuel', a :: b :: c :: d :: rest =>
      (N.shiftl a 24 + N.shiftl b 16 + N.shiftl c 8 + d) :: words fuel' rest
  | _, _ => []
  end.

(** The message schedule, newest word first. *)
Fixpoint extend (n : nat) (r : list N) : list N :=
  match n with
  | O => r
  | S n' =>
      let w := add (add (sigma1 (nth 1 r 0)) (nth 6 r 0))
                   (add (sigma0 (nth 14 r 0)) (nth 15 r 0)) in
      extend n' (w :: r)
  end.

Definition round (s : list N) (kw : N * N) : list N :=
  match s with
  | [a; b; c; d; e; f; g; h] =>
      let t1 := add (add (add h (Sigma1 e)) (add (Ch e f g) (fst kw))) (snd kw) in
      let t2 := add (Sigma0 a) (Maj a b c) in
      [add t1 t2; a; b; c; add d t1; e; f; g]
  | _ => s
  end.

Definition compress (h : list N) (block : list N) : list N :=
  let w := List.rev (extend 48 (List.rev block)) in
  let s := List.fold_left round (List.combine K w) h in
  List.map (fun p => add (fst p) (snd p)) (List.combine h s).

Fixpoint blocks (fuel : nat) (h : list N) (ws : list N) : list N :=
  match fuel with
  | O => h
  | S fuel' =>
      match ws with
      | [] => h
      | _ => blocks fuel' (compress h (firstn 16 ws)) (skipn 16 ws)
      end
  end.

Definition digest (msg : list N) : list N :=
  let p := pad msg in
  let ws := words (length p) p in
  List.concat (List.map (be_bytes 4) (blocks (length ws) H0 ws)).

Definition hex_nibble (n : N) : ascii :=
  ascii_of_N (if n <? 10 then 48 + n else 87 + n).

Fixpoint hex (bytes : list N) : string :=
  match bytes with
  | [] => EmptyString
  | b :: rest => String (hex_nibble (b / 16)) (String (hex_nibble (b mod 16)) (hex rest))
  end.

Definition hmac (key msg : list N) : list N :=
  let k := if 64 <? N.of_nat (length key) then digest key else key in
  let k := (k ++ repeat 0 (64 - length k)%nat)%list in
  digest (List.map (N.lxor 0x5c) k ++ digest (List.map (N.lxor 0x36) k ++ msg)).

Definition sha256_hex (text : string) : string := hex (digest (bytes_of text)).
Definition hmac_hex (key text : string) : string :=
  hex (hmac (bytes_of key) (bytes_of text)).
End SHA256.

Fixpoint zeros (n : nat) : string :=
  match n with
  | O => EmptyString
  | S n' => String "0" (zeros n')
  end.

(** [x] in decimal, at least [n] digits wide. *)
Definition digits (n : nat) (x : Z) : string :=
  zeros (n - String.length (pretty x)) +:+ pretty x.

Definition iso8601 (t : Z) : string :=
  let days := t / 86400000 in
  let ms := t mod 86400000 in
  let z := days + 719468 in
  let era := z / 146097 in
  let doe := z - era * 146097 in
  let yoe := (doe - doe / 1460 + doe / 36524 - doe / 146096) / 365 in
  let doy := doe - (365 * yoe + yoe / 4 - yoe / 100) in
  let mp := (5 * doy + 2) / 153 in
  let d := doy - (153 * mp + 2) / 5 + 1 in
  let m := if (mp <? 10)%Z then mp + 3 else mp - 9 in
  let y := yoe + era * 400 + (if (m <=? 2)%Z then 1 else 0) in
  digits 4 y +:+ "-" +:+ digits 2 m +:+ "-" +:+ digits 2 d +:+ "T"
  +:+ digits 2 (ms / 3600000) +:+ ":" +:+ digits 2 (ms / 60000 mod 60) +:+ ":"
  +:+ digits 2 (ms / 1000 mod 60) +:+ "." +:+ digits 3 (ms mod 1000) +:+ "Z".

(** * Worked examples: a platform, a client, a first world *)

(** A client whose presence shows five seconds after the example epoch and
    whose [initialize] takes a minute and a half. *)
Definition example_client (clientId : string) : Client.t :=
  {| Client.authClientId := clientId;
     Client.info := fun t =>
       if (1700000005000 <=? t)%Z
       then Some (mkInfo (Some (mkWid "15550001" "15550001@c.us")))
       else None;
     Client.getState := fun t =>
       inl (Some (if (1700000005000 <=? t)%Z then "CONNECTED" else "OPENING"));
     Client.initialize := Some (90000, Fulfilled);
     Client.destroy := fun _ => None;
     Client.sendMessage := fun chatId _ _ => inl ("true_" +:+ chatId +:+ "_3EB0") |}.

(** The platform of the examples.  The QR renderer is a stand-in (the data
    URL wraps the QR text, not a PNG of it); the theorems hold for every
    platform. *)
Definition example_platform : Platform :=
  {| hmac_sha256_hex := SHA256.hmac_hex;
     QRCode_toDataURL := fun qr => "data:image/png;base64," +:+ qr;
     toISOString := iso8601;
     newClient := fun clientId _ => example_client clientId;
     cwd := "/srv/app";
     omitUndefined := true;
     localAuth_dataPath := "./.wwebjs_auth/" |}.

Definition empty_world : World :=
  {| clients := ∅; qrCodes := ∅; initializingClients := ∅; readyTimeouts := ∅;
     sessionModel := ∅; messageModel := []; webhookModel := [];
     timers := []; nextTimer := 0; files := []; outbox := []; logs := [];
     now := 1700000000000; faults := [] |}.

(** A subscription of identity [A] to every event, with a signing secret. *)
Definition example_webhook : Webhook.t :=
  {| Webhook.clientId := "A"; Webhook.url := "https://hooks.example/wa";
     Webhook.enabled := true; Webhook.events := [];
     Webhook.secret := Some "s3cret" |}.

(** [initSession("A")] has run up to [await Promise.race(..)] and is
    suspended there. *)
Definition first_call_suspended : World :=
  (initSession_prologue example_platform "A"
     (with_webhookModel (fun _ => [example_webhook]) empty_world)).2.

Definition first_attempt : Attempt := mkAttempt "A" (example_client "A") 0.

(** The first QR code of that attempt has been issued... *)
Definition qr_issued : World :=
  (on_qr example_platform first_attempt "2@k9" first_call_suspended).2.

(** ... and scanned: the [authenticated] event has been handled. *)
Definition authenticated_after_qr : World :=
  (on_authenticated example_platform (mkAttempt "A" (example_client "A") 1) qr_issued).2.

(** Six seconds into the suspended first call the client has presence, and
    no [ready] event has been handled yet. *)
Definition presence_before_ready : World :=
  with_now (fun t => t + 6000) first_call_suspended.

(** The payload and the request of a [ready] notification sent from that
    world. *)
Definition ready_data : JSON :=
  JObj [("phoneNumber", JStr "15550001"); ("clientId", JStr "A")].

Definition ready_post : HttpPost :=
  let w' := (sendWebhook example_platform "A" "ready" ready_data first_call_suspended).2 in
  default (mkPost EmptyString JNull EmptyString [] 0) (last (outbox w')).

(** The closure of the attempt after five QR events. *)
Definition fifth_attempt : Attempt := mkAttempt "A" (example_client "A") 5.

(** The same world with the store unreachable for the next call, and with
    the subscriber's endpoint timing out. *)
Definition storage_down : World :=
  with_faults (fun _ => [Some "MongoNetworkError: connection timed out"])
    first_call_suspended.

Definition endpoint_down : World :=
  with_faults (fun _ => [None; Some "timeout of 10000ms exceeded"]) first_call_suspended.

(** A subscription to inbound messages only, and a disabled one. *)
Definition messages_only : Webhook.t :=
  {| Webhook.clientId := "A"; Webhook.url := "https://hooks.example/wa";
     Webhook.enabled := true; Webhook.events := ["message"];
     Webhook.secret := None |}.

Definition disabled_webhook : Webhook.t :=
  {| Webhook.clientId := "A"; Webhook.url := "https://hooks.example/wa";
     Webhook.enabled := false; Webhook.events := [];
     Webhook.secret := Some "s3cret" |}.

Definition message_of (clientId messageId : string) : Message.t :=
  {| Message.clientId := clientId; Message.messageId := messageId;
     Message.from := "15550002@c.us"; Message.to := "15550001@c.us";
     Message.body := "hi"; Message.type := "text";
     Message.status := "delivered"; Message.direction := "incoming" |}.

(** Identity [A] with a stored QR code, two messages and its directory, next
    to a message and a directory of identity [B]. *)
Definition populated : World :=
  with_files
    (fun _ => ["/srv/app/wa-sessions"; "/srv/app/wa-sessions/session-A";
               "/srv/app/wa-sessions/session-A/Default";
               "/srv/app/wa-sessions/session-B"])
    (with_messageModel
       (fun _ => [message_of "A" "m1"; message_of "B" "m2"; message_of "A" "m3"])
       qr_issued).

(** The store takes the next two writes; then the browser fails to launch. *)
Definition browser_fails : World :=
  with_faults (fun _ => [None; None; Some "Failed to launch the browser process!"])
    qr_issued.

(** Identity [C] with four messages on record, and a fifth coming in. *)
Definition four_messages : World :=
  with_webhookModel
    (fun _ => [{| Webhook.clientId := "C"; Webhook.url := "https://hooks.example/c";
                  Webhook.enabled := true; Webhook.events := ["message"];
                  Webhook.secret := None |}])
    (with_messageModel
       (fun _ => [message_of "C" "m1"; message_of "C" "m2"; message_of "B" "m3";
                  message_of "C" "m4"; message_of "C" "m5"])
       empty_world).

Definition fifth_message : WAMessage :=
  {| wa_id := "false_15550002@c.us_3EB0A1"; wa_from := "15550002@c.us";
     wa_to := Some "15550003@c.us"; wa_body := "hello"; wa_type := "chat";
     wa_timestamp := 1700000000 |}.

(** The QR events of one attempt, handled one after the other. *)
Fixpoint issue_qrs (P : Platform) (a : Attempt) (qrs : list string) (w : World)
    : Attempt * World :=
  match qrs with
  | [] => (a, w)
  | qr :: rest =>
      match on_qr P a qr w with
      | (Ok a', w') => issue_qrs P a' rest w'
      | (Throw _, w') => (a, w')
      end
  end.

(** The text of a JSON object with the given members, and of an envelope. *)
Definition object_text (members : list (string * string)) : string :=
  "{" +:+ String.concat "," (List.map (fun m => quote (fst m) +:+ ":" +:+ snd m) members)
  +:+ "}".

Definition envelope_text (event clientId timestamp data : string) : string :=
  object_text [("event", quote event); ("clientId", quote clientId);
               ("timestamp", quote timestamp); ("data", data)].

(** ** Observations used in the statements *)

(** The environment lets the next fallible external call succeed. *)
Definition next_call_succeeds (w : World) : bool :=
  match faults w with
  | Some _ :: _ => false
  | _ => true
  end.

(** [JSON.stringify] does not throw on the value. *)
Definition serializable (j : JSON) : bool :=
  match serialize j with
  | TypeError _ => false
  | _ => true
  end.

(** [w'] differs from [w] at most in the environment's pending answers. *)
Definition unchanged (w w' : World) : Prop :=
  w' = with_faults (fun _ => faults w') w.

(** The service state a webhook delivery must not touch: the registry, the
    three collections, the timers and the files. *)
Definition same_service_state (w w' : World) : Prop :=
  clients w' = clients w /\ qrCodes w' = qrCodes w
  /\ initializingClients w' = initializingClients w
  /\ readyTimeouts w' = readyTimeouts w
  /\ sessionModel w' = sessionModel w /\ messageModel w' = messageModel w
  /\ webhookModel w' = webhookModel w /\ timers w' = timers w
  /\ files w' = files w /\ now w' = now w.

(** The identity has a subscription that is enabled and whose event filter is
    empty or holds the event. *)
Definition subscribed (w : World) (clientId event : string) : Prop :=
  exists h, h ∈ webhookModel w /\ Webhook.clientId h = clientId
            /\ Webhook.enabled h = true
            /\ (Webhook.events h = [] \/ event ∈ Webhook.events h).

(** The call that took [w] to [w'] made one outbound request. *)
Definition delivered (w w' : World) : Prop :=
  exists p, outbox w' = (outbox w ++ [p])%list.

(** [headers[name]] *)
Definition header (name : string) (headers : list (string * string)) : option string :=
  snd <$> List.find (fun h => String.eqb (fst h) name) headers.

(** What the receiver of a webhook does with the signature header: it
    recomputes the HMAC of the body it got under the shared secret. *)
Definition verify_signature (P : Platform) (secret body signature : string) : bool :=
  String.eqb signature ("sha256=" +:+ hmac_sha256_hex P secret body).

(** The persisted status and QR payload of an identity. *)
Definition persisted_status (w : World) (clientId : string) : option Status :=
  Session.status <$> sessionModel w !! clientId.

Definition persisted_qrCode (w : World) (clientId : string) : option string :=
  sessionModel w !! clientId ≫= Session.qrCode.

(** The registry holds a handle for the identity and the handle has
    presence now. *)
Definition live_presence (w : World) (clientId : string) : Prop :=
  exists c i, clients w !! clientId = Some c /\ Client.info c (now w) = Some i.

(** ** Observations used beyond the claims *)

(** What the service holds for one identity: its registry entries and its
    Session record. *)
Definition identity_view (w : World) (clientId : string)
    : option Client.t * option string * option nat * bool * option Session.t :=
  (clients w !! clientId, qrCodes w !! clientId, readyTimeouts w !! clientId,
   bool_decide (clientId ∈ initializingClients w), sessionModel w !! clientId).

(** [client.initialize()] as [Promise.race] sees it: the settlement, if it
    comes before the 240000 ms rejection. *)
Definition settles_in_time (c : Client.t) : option (Z * Settled) :=
  match Client.initialize c with
  | Some (ms, outcome) => if (ms <? 240000)%Z then Some (ms, outcome) else None
  | None => None
  end.

(** What [sendWebhook(clientId, event, data)], called at instant [t] between
    [w] and [w'], puts in the outbox when the environment answers: one
    request to the first matching subscription, none without one. *)
Definition notified (P : Platform) (w w' : World) (clientId event : string) (t : Z)
    (data : JSON) : Prop :=
  match List.find (webhook_filter clientId event) (webhookModel w) with
  | Some h =>
      exists p,
        outbox w' = (outbox w ++ [p])%list
        /\ post_url p = Webhook.url h
        /\ post_payload p = envelope P event clientId t data
  | None => outbox w' = outbox w
  end.

(** [sort({ lastActivity: -1 })] on two values of the field. *)
Definition not_earlier (a b : option Z) : Prop :=
  match a, b with
  | _, None => True
  | None, Some _ => False
  | Some x, Some y => (y <= x)%Z
  end.

(** [s.includes('/')] *)
Fixpoint includes_slash (s : string) : bool :=
  match s with
  | EmptyString => false
  | String c s' => (N_of_ascii c =? 47)%N || includes_slash s'
  end.

(** A path segment that [normalize] keeps as it is. *)
Definition plain_segment (seg : string) : bool :=
  negb (String.eqb seg EmptyString) && negb (String.eqb seg ".")
  && negb (String.eqb seg "..") && negb (includes_slash seg).

(** The presence of the example client, and the data of a subscription to
    every event at the URL of the examples. *)
Definition example_info : ClientInfo := mkInfo (Some (mkWid "15550001" "15550001@c.us")).

Definition example_data : WebhookData :=
  {| data_url := "https://hooks.example/wa"; data_enabled := Some true;
     data_events := Some []; data_secret := None |}.

(** Six seconds after the scan: the ready-timeout armed by the
    [authenticated] event is pending and the client has presence. *)
Definition ready_event_due : World :=
  with_now (fun t => t + 6000) authenticated_after_qr.

(** Identity [A] as in [populated], with the artifacts of its client where
    the strategy [new LocalAuth({ clientId })] keeps them; [./wa-sessions],
    created at start-up, is empty. *)
Definition paired_on_disk : World :=
  with_files
    (fun _ => ["/srv/app/wa-sessions"; "/srv/app/.wwebjs_auth";
               "/srv/app/.wwebjs_auth/session-A";
               "/srv/app/.wwebjs_auth/session-A/Default";
               "/srv/app/.wwebjs_auth/session-A/Default/Cookies";
               "/srv/app/.wwebjs_auth/session-B"])
    populated.

(** What the first QR event of the attempt, and what a [disconnected] event,
    make of the world in which they are handled. *)
Definition qr_while_waiting (w : World) : World :=
  (on_qr example_platform first_attempt "2@k9" w).2.

Definition logout_while_waiting (w : World) : World :=
  (on_disconnected example_platform first_attempt "LOGOUT" w).2.

(** [initSession("A")] has run to its end, ninety seconds after the example
    epoch: the client has presence and the guard is released. *)
Definition session_started : World :=
  (initSession example_platform "A" empty_world).2.

(** * Properties *)

(** ** Vocabulary *)

(** [m] never throws. *)
Definition succeeds {A} (m : M A) : Prop :=
  forall w, exists a w', m w = (Ok a, w').

(** [m] leaves the observation [f] of the world as it found it, whether it
    returns or throws. *)
Definition preserves {A B} (f : World -> B) (m : M A) : Prop :=
  forall w, f (m w).2 = f w.

(** ** Symbolic execution *)

Ltac js_unfold :=
  cbv beta iota zeta delta
    [bind ret throw try_catch try_finally get modify external
     logged error_line logger logger_error sleep setTimeout clearTimeout
     client_info client_getState client_destroy client_sendMessage
     JSON_stringify axios_post
     sessionModel_updateOne sessionModel_findOne sessionModel_deleteOne
     messageModel_create messageModel_countDocuments messageModel_deleteMany
     webhookModel_findOne fs_existsSync fs_rmSync
     sendWebhook_try sendWebhook_catch sendWebhook
     updateSession updateSessionStatus clearReadyTimeout cleanupClient
     handleInitializationFailure handleManualReady restartSession handleReadyTimeout
     toDataURL on_qr on_authenticated on_ready on_change_state on_disconnected
     on_auth_failure setupClientEventHandlers new_Client race_initialize
     initSession_begin initSession_prologue initSession_epilogue initSession_catch
     initSession_finally initSession initSession_resume run_task
     handleIncomingMessage sendMessage getSessionStatus deleteSession
     with_clients with_qrCodes with_initializingClients with_readyTimeouts
     with_sessionModel with_messageModel with_webhookModel with_timers
     with_nextTimer with_files with_outbox with_logs with_now with_faults
     clients qrCodes initializingClients readyTimeouts sessionModel messageModel
     webhookModel timers nextTimer files outbox logs now faults
     fst snd] in *.

(** ** The combinators respect [succeeds] and [preserves] *)

Section Combinators.
Context {A B C : Type}.

Lemma succeeds_ret (a : A) : succeeds (ret a).
Proof. intros w. by exists a, w. Qed.

Lemma succeeds_get (f : World -> A) : succeeds (get f).
Proof. intros w. by exists (f w), w. Qed.

Lemma succeeds_modify (f : World -> World) : succeeds (modify f).
Proof. intros w. by exists tt, (f w). Qed.

Lemma succeeds_bind (m : M A) (k : A -> M B) :
  succeeds m -> (forall a, succeeds (k a)) -> succeeds (bind m k).
Proof.
  intros Hm Hk w. destruct (Hm w) as (a & w1 & E).
  destruct (Hk a w1) as (b & w2 & E2). exists b, w2.
  unfold bind. by rewrite E.
Qed.

Lemma succeeds_try_catch (m : M A) (h : string -> M A) :
  (forall e, succeeds (h e)) -> succeeds (try_catch m h).
Proof.
  intros Hh w. unfold try_catch. destruct (m w) as [[a|e] w1].
  - by exists a, w1.
  - apply Hh.
Qed.

Lemma succeeds_try_finally (m : M A) (c : M unit) :
  succeeds m -> succeeds c -> succeeds (try_finally m c).
Proof.
  intros Hm Hc w. unfold try_finally.
  destruct (Hm w) as (a & w1 & ->). destruct (Hc w1) as ([] & w2 & ->).
  by exists a, w2.
Qed.

Lemma succeeds_setTimeout task ms : succeeds (setTimeout task ms).
Proof. intros w. unfold setTimeout. eauto. Qed.

Variable f : World -> C.

Lemma preserves_ret (a : A) : preserves f (ret a).
Proof. by intros w. Qed.

Lemma preserves_throw e : preserves f (@throw A e).
Proof. by intros w. Qed.

Lemma preserves_get (g : World -> A) : preserves f (get g).
Proof. by intros w. Qed.

Lemma preserves_modify (g : World -> World) :
  (forall w, f (g w) = f w) -> preserves f (modify g).
Proof. intros H w. apply H. Qed.

Lemma preserves_bind (m : M A) (k : A -> M B) :
  preserves f m -> (forall a, preserves f (k a)) -> preserves f (bind m k).
Proof.
  intros Hm Hk w. unfold bind. specialize (Hm w).
  destruct (m w) as [[a|e] w1]; simpl in *; [|done].
  by rewrite Hk.
Qed.

Lemma preserves_try_catch (m : M A) (h : string -> M A) :
  preserves f m -> (forall e, preserves f (h e)) -> preserves f (try_catch m h).
Proof.
  intros Hm Hh w. unfold try_catch. specialize (Hm w).
  destruct (m w) as [[a|e] w1]; simpl in *; [done|].
  by rewrite Hh.
Qed.

Lemma preserves_try_finally (m : M A) (c : M unit) :
  preserves f m -> preserves f c -> preserves f (try_finally m c).
Proof.
  intros Hm Hc w. unfold try_finally. specialize (Hm w).
  destruct (m w) as [r w1]; simpl in *. specialize (Hc w1).
  by destruct (c w1) as [[[]|e] w2]; simpl in *; rewrite Hc.
Qed.

Lemma preserves_external :
  (forall g w, f (with_faults g w) = f w) -> preserves f external.
Proof.
  intros H w. unfold external. destruct (faults w) as [|[e|] rest]; simpl; auto.
Qed.

Lemma preserves_setTimeout task ms :
  (forall g h w, f (with_nextTimer g (with_timers h w)) = f w) ->
  preserves f (setTimeout task ms).
Proof. intros H w. apply H. Qed.

Lemma preserves_client_getState c : preserves f (client_getState c).
Proof. intros w. unfold client_getState. by destruct (Client.getState c (now w)). Qed.

Lemma preserves_client_destroy c : preserves f (client_destroy c).
Proof. intros w. unfold client_destroy. by destruct (Client.destroy c (now w)). Qed.

Lemma preserves_client_sendMessage c chatId content :
  preserves f (client_sendMessage c chatId content).
Proof.
  intros w. unfold client_sendMessage.
  by destruct (Client.sendMessage c chatId content (now w)).
Qed.

End Combinators.

(** Unfolds the methods of the two services down to the combinators and the
    primitive calls. *)
Ltac js_open :=
  unfold logger, logger_error, sleep, clearTimeout, client_info,
    JSON_stringify, axios_post,
    sessionModel_updateOne, sessionModel_findOne, sessionModel_deleteOne,
    messageModel_create, messageModel_countDocuments, messageModel_deleteMany,
    webhookModel_findOne, fs_existsSync, fs_rmSync,
    sendWebhook_try, sendWebhook_catch, sendWebhook,
    updateSession, updateSessionStatus, clearReadyTimeout, cleanupClient,
    handleInitializationFailure, handleManualReady, restartSession,
    handleReadyTimeout, toDataURL, on_qr, on_authenticated, on_ready,
    on_change_state, on_disconnected, on_auth_failure,
    setupClientEventHandlers, new_Client, race_initialize,
    initSession_begin, initSession_prologue, initSession_epilogue,
    initSession_catch, initSession_finally, initSession, initSession_resume,
    run_task, handleIncomingMessage, sendMessage, getSessionStatus, deleteSession.

Create HintDb frame.

Ltac frame_step :=
  lazymatch goal with
  | |- preserves _ (updateSessionStatus _ _ _) =>
      first [ solve [auto with frame nocore] | progress js_open ]
  | |- preserves _ (bind _ _) => apply preserves_bind; [|intros ?]
  | |- preserves _ (try_catch _ _) => apply preserves_try_catch; [|intros ?]
  | |- preserves _ (try_finally _ _) => apply preserves_try_finally
  | |- preserves _ (ret _) => apply preserves_ret
  | |- preserves _ (throw _) => apply preserves_throw
  | |- preserves _ (get _) => apply preserves_get
  | |- preserves _ (modify _) => apply preserves_modify; intros []; reflexivity
  | |- preserves _ external => apply preserves_external; intros ? []; reflexivity
  | |- preserves _ (setTimeout _ _) =>
      apply preserves_setTimeout; intros ? ? []; reflexivity
  | |- preserves _ (client_getState _) => apply preserves_client_getState
  | |- preserves _ (client_destroy _) => apply preserves_client_destroy
  | |- preserves _ (client_sendMessage _ _ _) => apply preserves_client_sendMessage
  | |- preserves _ (match ?x with _ => _ end) => destruct x
  | |- preserves _ _ => progress js_open
  end.

(** Proves [preserves f m] when [m] never writes what [f] reads. *)
Ltac frame := repeat frame_step.

(** Proves [f (m w).2 = f w] in the same way. *)
Ltac framed :=
  lazymatch goal with
  | |- ?f (?m ?w).2 = ?f ?w =>
      let H := fresh in assert (preserves f m) as H; [frame | apply H]
  end.

Ltac succeeds_step :=
  lazymatch goal with
  | |- succeeds (bind _ _) => apply succeeds_bind; [|intros ?]
  | |- succeeds (try_catch _ _) => apply succeeds_try_catch; intros ?
  | |- succeeds (try_finally _ _) => apply succeeds_try_finally
  | |- succeeds (ret _) => apply succeeds_ret
  | |- succeeds (get _) => apply succeeds_get
  | |- succeeds (modify _) => apply succeeds_modify
  | |- succeeds (setTimeout _ _) => apply succeeds_setTimeout
  | |- succeeds (match ?x with _ => _ end) => destruct x
  | |- succeeds _ => progress js_open
  end.

(** Proves [succeeds m] when every call that can throw sits in a [try]. *)
Ltac no_throw := repeat succeeds_step.

(** Splits on an innermost undetermined test and keeps executing. *)
Ltac js_case :=
  match goal with
  | |- context [match ?x with _ => _ end] =>
      lazymatch x with
      | context [match _ with _ => _ end] => fail
      | _ => destruct x eqn:?
      end
  end.

Ltac js_run := js_unfold; repeat (js_case; js_unfold).

(** The same, leaving the methods of the services folded: a proof unfolds
    the ones it wants to enter. *)
Ltac js_core :=
  cbv beta iota zeta delta
    [bind ret throw try_catch try_finally get modify external
     logged error_line logger logger_error sleep setTimeout clearTimeout
     client_info client_getState client_destroy client_sendMessage
     JSON_stringify axios_post
     sessionModel_updateOne sessionModel_findOne sessionModel_deleteOne
     messageModel_create messageModel_countDocuments messageModel_deleteMany
     webhookModel_findOne fs_existsSync fs_rmSync
     with_clients with_qrCodes with_initializingClients with_readyTimeouts
     with_sessionModel with_messageModel with_webhookModel with_timers
     with_nextTimer with_files with_outbox with_logs with_now with_faults
     clients qrCodes initializingClients readyTimeouts sessionModel messageModel
     webhookModel timers nextTimer files outbox logs now faults
     fst snd] in *.

Ltac js_core_run := js_core; repeat (js_case; js_core).

(** Closes the goals about the maps of the registry after a run. *)
Ltac map_facts :=
  rewrite ?lookup_delete_eq, ?lookup_insert_eq; repeat split; try done; try set_solver.

Section Properties.
Context (P : Platform).

(** ** What never throws *)

Lemma sendWebhook_succeeds clientId event data :
  succeeds (sendWebhook P clientId event data).
Proof. no_throw. Qed.

Lemma updateSession_succeeds clientId updates :
  succeeds (updateSession P clientId updates).
Proof. no_throw. Qed.

Lemma updateSessionStatus_succeeds clientId status :
  succeeds (updateSessionStatus P clientId status).
Proof. no_throw. Qed.

Lemma cleanupClient_succeeds clientId : succeeds (cleanupClient clientId).
Proof. no_throw. Qed.

Lemma handleInitializationFailure_succeeds clientId reason :
  succeeds (handleInitializationFailure P clientId reason).
Proof. no_throw. Qed.

Lemma initSession_succeeds clientId : succeeds (initSession P clientId).
Proof. no_throw. Qed.

Lemma restartSession_succeeds clientId : succeeds (restartSession P clientId).
Proof. no_throw. Qed.

Lemma run_task_succeeds task : succeeds (run_task P task).
Proof. no_throw. Qed.

(** ** WebhookService *)

Lemma webhook_filter_true clientId event h :
  webhook_filter clientId event h = true <->
  Webhook.clientId h = clientId /\ Webhook.enabled h = true
  /\ (Webhook.events h = [] \/ event ∈ Webhook.events h).
Proof.
  unfold webhook_filter.
  rewrite !andb_true_iff, orb_true_iff, String.eqb_eq, !bool_decide_eq_true.
  tauto.
Qed.

Lemma find_subscribed w clientId event :
  (exists h, List.find (webhook_filter clientId event) (webhookModel w) = Some h)
  <-> subscribed w clientId event.
Proof.
  unfold subscribed. split.
  - intros (h & Hf). apply find_some in Hf as [Hin Hm].
    exists h. rewrite list_elem_of_In. split; [done|]. by apply webhook_filter_true.
  - intros (h & Hin & Hm).
    destruct (List.find _ _) as [h'|] eqn:Hf; [by exists h'|].
    apply list_elem_of_In in Hin.
    pose proof (find_none _ _ Hf h Hin) as Hn.
    assert (webhook_filter clientId event h = true) by by apply webhook_filter_true.
    congruence.
Qed.

Lemma serialize_envelope event clientId t data :
  serialize (envelope P event clientId t data) =
  match serialize data with
  | TypeError m => TypeError m
  | Text d =>
      Text ("{" +:+ String.concat ","
              [quote "event" +:+ ":" +:+ quote event;
               quote "clientId" +:+ ":" +:+ quote clientId;
               quote "timestamp" +:+ ":" +:+ quote (toISOString P t);
               quote "data" +:+ ":" +:+ d] +:+ "}")
  | Omitted =>
      Text ("{" +:+ String.concat ","
              [quote "event" +:+ ":" +:+ quote event;
               quote "clientId" +:+ ":" +:+ quote clientId;
               quote "timestamp" +:+ ":" +:+ quote (toISOString P t)] +:+ "}")
  end.
Proof.
  unfold envelope. cbn [serialize]. by destruct (serialize data).
Qed.

Lemma envelope_serializable event clientId t data :
  serializable data = true ->
  exists body, serialize (envelope P event clientId t data) = Text body.
Proof.
  unfold serializable. rewrite serialize_envelope.
  destruct (serialize data); eauto. discriminate.
Qed.

Lemma envelope_not_omitted event clientId t data :
  serialize (envelope P event clientId t data) <> Omitted.
Proof. rewrite serialize_envelope. by destruct (serialize data). Qed.


Lemma sendWebhook_frame clientId event data w :
  same_service_state w (sendWebhook P clientId event data w).2.
Proof. repeat split; framed. Qed.

(** C7. [sendWebhook] never propagates an error: for every identity, event and
    payload, and whatever the environment answers (a failed subscription
    lookup, a payload that cannot be serialized, a failed HTTP call), the call
    returns normally; an error raised in its [try] block ends in the [catch]
    clause, which only writes one ERROR line to the log; and the registry, the
    collections, the timers and the files are as before, so the transition
    that triggered the delivery is neither blocked nor failed. *)
Theorem sendWebhook_never_throws clientId event data w :
  exists w',
    sendWebhook P clientId event data w = (Ok tt, w')
    /\ same_service_state w w'
    /\ forall e w1,
         sendWebhook_try P clientId event data w = (Throw e, w1) ->
         w' = logged ERROR
                (error_line ("Failed to send webhook for " +:+ clientId +:+ ":") e) w1.
Proof.
  destruct (sendWebhook_succeeds clientId event data w) as ([] & w' & E).
  exists w'. split; [done|]. split.
  - pose proof (sendWebhook_frame clientId event data w) as H. by rewrite E in H.
  - intros e w1 Ht. unfold sendWebhook, try_catch in E. rewrite Ht in E.
    unfold sendWebhook_catch, logger_error, logger, modify in E. by simplify_eq.
Qed.

Lemma one_more_is_not_same {A} (l : list A) (x : A) : l <> (l ++ [x])%list.
Proof.
  intros H. apply (f_equal length) in H. rewrite length_app in H. simpl in H. lia.
Qed.

(** A delivery happens only for a matching subscription, whatever the
    environment does. *)
Lemma delivered_only_if_subscribed clientId event data w :
  delivered w (sendWebhook P clientId event data w).2 -> subscribed w clientId event.
Proof.
  intros [p H]. apply find_subscribed. revert H. destruct w. js_run.
  all: intros H; eauto.
  all: by apply one_more_is_not_same in H.
Qed.

(** C5. [sendWebhook] makes an outbound delivery if and only if the identity
    has a subscription that is enabled and whose event filter is empty or
    contains the event; with no such subscription the call is a no-op: it
    returns and changes nothing.  The environment is assumed to answer the
    subscription lookup and the payload to be serializable (a failed lookup
    or a BigInt in the payload ends in the [catch] clause, with no delivery
    either). *)
Theorem sendWebhook_delivers_iff_subscribed clientId event data w :
  next_call_succeeds w = true ->
  serializable data = true ->
  let w' := (sendWebhook P clientId event data w).2 in
  (delivered w w' <-> subscribed w clientId event)
  /\ (~ subscribed w clientId event -> unchanged w w').
Proof.
  intros Hn Hs w'. subst w'. split; [split|].
  - apply delivered_only_if_subscribed.
  - intros Hsub. apply find_subscribed in Hsub as [h Hf].
    destruct (envelope_serializable event clientId (now w) data Hs) as [body Hb].
    revert Hn Hf Hb. unfold delivered, next_call_succeeds. destruct w.
    js_run; intros; simplify_eq; eauto.
  - intros Hsub.
    assert (List.find (webhook_filter clientId event) (webhookModel w) = None) as Hf.
    { destruct (List.find _ _) as [h|] eqn:Hf; [|done].
      destruct Hsub. apply find_subscribed. eauto. }
    revert Hn Hf. unfold unchanged, next_call_succeeds. destruct w.
    js_run; intros; simplify_eq; eauto.
Qed.

(** C6. Every request that [sendWebhook] sends for a subscription with a
    signing secret carries the header [X-Webhook-Signature] whose value is
    ["sha256="] followed by the hex HMAC-SHA256, keyed by the secret, of the
    body put on the wire, and that body is the JSON serialization of the
    envelope [{event, clientId, timestamp, data}]; a receiver that recomputes
    the HMAC of the body under the same secret accepts the signature.  A
    subscription without a (non-empty) secret gets no signature header. *)
Theorem webhook_signature_round_trip clientId event data w p :
  outbox (sendWebhook P clientId event data w).2 = (outbox w ++ [p])%list ->
  exists h,
    List.find (webhook_filter clientId event) (webhookModel w) = Some h
    /\ post_url p = Webhook.url h
    /\ post_payload p = envelope P event clientId (now w) data
    /\ serialize (post_payload p) = Text (post_body p)
    /\ match truthy (Webhook.secret h) with
       | Some secret =>
           exists signature,
             header "X-Webhook-Signature" (post_headers p) = Some signature
             /\ signature = "sha256=" +:+ hmac_sha256_hex P secret (post_body p)
             /\ verify_signature P secret (post_body p) signature = true
       | None => header "X-Webhook-Signature" (post_headers p) = None
       end.
Proof.
  destruct w. js_run.
  all: intros H.
  all: try by apply one_more_is_not_same in H.
  all: apply app_inj_tail in H as [_ <-]; eexists; split; [done|]; simpl.
  all: match goal with H : truthy _ = _ |- _ => rewrite H end.
  all: repeat split; try done.
  all: eexists; split; [reflexivity|]; split; [done|].
  all: unfold verify_signature; apply String.eqb_refl.
Qed.

(** ** Sending without a handle *)

Lemma sendMessage_without_client clientId to message type w :
  clients w !! clientId = None ->
  sendMessage P clientId to message type w
  = (Throw "Failed to send message: Client not found",
     logged ERROR "Failed to send message: Client not found" w).
Proof.
  intros H. destruct w. js_unfold. rewrite H. reflexivity.
Qed.

(** C9. With no live handle for the identity in the registry, [sendMessage]
    fails at once (no grace period is waited, the clock does not move) with
    the failure "Client not found", which the [catch] clause rethrows under
    the prefix "Failed to send message: "; no Message record is created, the
    session record is not updated, nothing is sent: only the log has one more
    line. *)
Theorem sendMessage_client_not_found clientId to message type w :
  clients w !! clientId = None ->
  exists w',
    sendMessage P clientId to message type w
    = (Throw ("Failed to send message: " +:+ "Client not found"), w')
    /\ w' = logged ERROR "Failed to send message: Client not found" w
    /\ messageModel w' = messageModel w
    /\ sessionModel w' = sessionModel w
    /\ outbox w' = outbox w
    /\ now w' = now w.
Proof.
  intros H. eexists. split; [by apply sendMessage_without_client|]. done.
Qed.

(** ** Cleanup, failure, restart *)

Lemma cleanupClient_clears clientId w :
  let w' := (cleanupClient clientId w).2 in
  clients w' !! clientId = None /\ qrCodes w' !! clientId = None
  /\ (clientId ∉ initializingClients w') /\ readyTimeouts w' !! clientId = None.
Proof. destruct w. js_run. all: map_facts. Qed.

(** [handleInitializationFailure] is the convergence point of the failure
    branches: it returns, leaves no handle, QR, guard or timeout for the
    identity, sends nothing, and persists [disconnected] when the store takes
    the write. *)
Lemma handleInitializationFailure_converges clientId reason w :
  exists w',
    handleInitializationFailure P clientId reason w = (Ok tt, w')
    /\ outbox w' = outbox w
    /\ clients w' !! clientId = None /\ qrCodes w' !! clientId = None
    /\ (clientId ∉ initializingClients w') /\ readyTimeouts w' !! clientId = None
    /\ (next_call_succeeds w = true -> persisted_status w' clientId = Some disconnected).
Proof.
  unfold next_call_succeeds, persisted_status. destruct w. js_run.
  all: eexists; split; [reflexivity|]; js_unfold; map_facts.
Qed.

(** The run of the QR handler once the counter has reached 5. *)
Lemma on_qr_failure_path a qr w :
  (5 <= qrCount a)%nat ->
  on_qr P a qr w
  = (Ok (mkAttempt (attempt_clientId a) (attempt_client a) (S (qrCount a))),
     (handleInitializationFailure P (attempt_clientId a) "Too many QR attempts"
        (logged ERROR
           ("Too many QR codes generated for " +:+ attempt_clientId a +:+ ", stopping")
           (logged LOG
              ("QR code generated for " +:+ attempt_clientId a +:+ " (attempt "
               +:+ pretty (S (qrCount a)) +:+ ")") w))).2).
Proof.
  intros Hc. set (w1 := logged ERROR _ _).
  destruct (handleInitializationFailure_succeeds (attempt_clientId a)
              "Too many QR attempts" w1) as ([] & w' & E).
  unfold on_qr. rewrite bool_decide_eq_true_2 by lia.
  unfold try_catch, bind, logger, modify, ret. fold w1. by rewrite E.
Qed.

(** C4. On the sixth and every later QR issuance of one attempt (the counter
    of the attempt's closure is at 5 or more when the event arrives) the
    handler takes the failure path: it is [handleInitializationFailure] with
    the reason "Too many QR attempts" that runs, after two log lines; no
    webhook request is sent (the outbox is as before, so no [qr_code]
    notification); the handle, the cached QR, the guard and the ready-timeout
    of the identity are gone; and the persisted status is [disconnected]
    provided the store takes the write. *)
Theorem on_qr_beyond_five a qr w :
  (5 <= qrCount a)%nat ->
  let clientId := attempt_clientId a in
  let count := S (qrCount a) in
  exists w',
    on_qr P a qr w = (Ok (mkAttempt clientId (attempt_client a) count), w')
    /\ w' = (handleInitializationFailure P clientId "Too many QR attempts"
               (logged ERROR ("Too many QR codes generated for " +:+ clientId +:+ ", stopping")
                  (logged LOG ("QR code generated for " +:+ clientId +:+ " (attempt "
                               +:+ pretty count +:+ ")") w))).2
    /\ outbox w' = outbox w
    /\ clients w' !! clientId = None /\ qrCodes w' !! clientId = None
    /\ (clientId ∉ initializingClients w') /\ readyTimeouts w' !! clientId = None
    /\ (next_call_succeeds w = true -> persisted_status w' clientId = Some disconnected).
Proof.
  intros Hc clientId count.
  set (w1 := logged ERROR _ _).
  destruct (handleInitializationFailure_converges clientId "Too many QR attempts" w1)
    as (w' & E & Ho & Hrest).
  exists w'. split; [|split; [by rewrite E|split; [done|exact Hrest]]].
  rewrite (on_qr_failure_path a qr w Hc). fold clientId count w1. by rewrite E.
Qed.

Lemma restartSession_effect clientId w :
  exists w',
    restartSession P clientId w
    = (Ok {| success := true; message := "Session restart initiated" |}, w')
    /\ clients w' !! clientId = None /\ qrCodes w' !! clientId = None
    /\ (clientId ∉ initializingClients w') /\ readyTimeouts w' !! clientId = None
    /\ (next_call_succeeds w = true -> persisted_status w' clientId = Some disconnected)
    /\ last (timers w') = Some (mkTimer (nextTimer w) (now w + 3000) (RestartTask clientId)).
Proof.
  unfold next_call_succeeds, persisted_status. destruct w. js_run.
  all: eexists; split; [reflexivity|]; js_unfold; map_facts.
  all: apply last_snoc.
Qed.

(** C10. [restartSession] returns [{success: true, message: 'Session restart
    initiated'}] for every identity and every world, whatever the environment
    answers: cleanup and the write of [disconnected] cannot make it throw.  On
    return the handle, the QR, the guard and the ready-timeout of the identity
    are gone, [disconnected] is persisted when the store takes the write, and
    the re-initialization has not run: it is the timer callback queued last,
    due in 3000 ms.  That callback never throws either, and its result goes
    nowhere: a failed re-initialization shows in the log only. *)
Theorem restartSession_reports_success clientId w :
  exists w',
    restartSession P clientId w
    = (Ok {| success := true; message := "Session restart initiated" |}, w')
    /\ clients w' !! clientId = None /\ qrCodes w' !! clientId = None
    /\ (clientId ∉ initializingClients w') /\ readyTimeouts w' !! clientId = None
    /\ (next_call_succeeds w = true -> persisted_status w' clientId = Some disconnected)
    /\ last (timers w') = Some (mkTimer (nextTimer w) (now w + 3000) (RestartTask clientId))
    /\ succeeds (run_task P (RestartTask clientId)).
Proof.
  destruct (restartSession_effect clientId w) as (w' & E & H1 & H2 & H3 & H4 & H5 & H6).
  exists w'. repeat (split; [assumption|]). apply run_task_succeeds.
Qed.

(** ** Status and deletion *)

Lemma deleteMany_leaves_none clientId (l : list Message.t) m :
  m ∈ List.filter (fun m => negb (of_client clientId m)) l -> Message.clientId m <> clientId.
Proof.
  rewrite list_elem_of_In, filter_In. intros [_ H] E.
  unfold of_client in H. apply String.eqb_eq in E. by rewrite E in H.
Qed.

Lemma rmSync_removes dir (l : list string) :
  dir ∉ List.filter (fun q => negb (within dir q)) l.
Proof.
  rewrite list_elem_of_In, filter_In. intros [_ H].
  unfold within in H. by rewrite String.eqb_refl in H.
Qed.

Lemma deleteSession_effect clientId w :
  match deleteSession P clientId w with
  | (Ok r, w') =>
      r = {| success := true; message := "Session deleted successfully" |}
      /\ sessionModel w' !! clientId = None
      /\ (forall m, m ∈ messageModel w' -> Message.clientId m <> clientId)
      /\ (sessionPath P clientId ∉ files w')
      /\ clients w' !! clientId = None /\ qrCodes w' !! clientId = None
      /\ (clientId ∉ initializingClients w') /\ readyTimeouts w' !! clientId = None
  | (Throw e, _) => True
  end.
Proof.
  destruct w. js_run.
  all: try exact I.
  all: rewrite ?lookup_delete_eq; repeat split; try done.
  all: try (intros ?; apply deleteMany_leaves_none).
  all: try apply rmSync_removes.
  all: try (by eapply bool_decide_eq_false_1).
  all: set_solver.
Qed.

Lemma deleteSession_returns clientId w :
  faults w = [] ->
  exists w',
    deleteSession P clientId w
    = (Ok {| success := true; message := "Session deleted successfully" |}, w')
    /\ faults w' = [].
Proof.
  intros H. destruct w. simpl in H. subst. js_run.
  all: eexists; split; reflexivity.
Qed.

Lemma getSessionStatus_returns clientId w :
  next_call_succeeds w = true ->
  exists s w', getSessionStatus clientId w = (Ok s, w').
Proof.
  unfold next_call_succeeds. destruct w. js_run.
  all: intros; try discriminate; eauto.
Qed.

Lemma getSessionStatus_effect clientId w :
  match getSessionStatus clientId w with
  | (Ok s, w') =>
      snap_clientId s = clientId
      /\ snap_status s =
           match sessionModel w !! clientId with
           | Some d => status_name (Session.status d)
           | None => "disconnected"
           end
      /\ snap_messageCount s =
           match sessionModel w !! clientId with
           | Some d => Session.messageCount d
           | None => 0
           end
      /\ snap_connected s =
           match clients w !! clientId with
           | Some c => is_Some_b (Client.info c (now w))
           | None => false
           end
      /\ snap_hasClientInfo s = snap_connected s
      /\ snap_qrCode s = qrCodes w !! clientId
      /\ snap_isInitializing s = bool_decide (clientId ∈ initializingClients w)
  | (Throw e, _) => head (faults w) = Some (Some e)
  end.
Proof. destruct w. js_run. all: repeat split; done. Qed.

(** What [deleteSession] does remove.  It either throws (the environment made
    the removal of the directory or a delete of the store fail) or returns
    success, and it returns whenever the environment answers every call.
    When it returns, the Session record of the identity is gone, no Message
    record of the identity is left, the path
    [./wa-sessions/session-<identity>] does not exist, and the registry holds
    nothing for the identity; a status query that follows reports the
    defaults of an unknown identity: status "disconnected", message count 0,
    not connected, no QR.  The directory in which the strategy of the client
    keeps the authentication artifacts is another one ([userDataDir]), and
    nothing here is about it. *)
Lemma deleteSession_removes clientId w :
  (faults w = [] ->
   exists w' s w'',
     deleteSession P clientId w
     = (Ok {| success := true; message := "Session deleted successfully" |}, w')
     /\ getSessionStatus clientId w' = (Ok s, w''))
  /\ forall r w',
       deleteSession P clientId w = (Ok r, w') ->
       r = {| success := true; message := "Session deleted successfully" |}
       /\ sessionModel w' !! clientId = None
       /\ (forall m, m ∈ messageModel w' -> Message.clientId m <> clientId)
       /\ (sessionPath P clientId ∉ files w')
       /\ clients w' !! clientId = None
       /\ forall s w'',
            getSessionStatus clientId w' = (Ok s, w'') ->
            snap_status s = "disconnected" /\ snap_messageCount s = 0
            /\ snap_connected s = false /\ snap_qrCode s = None.
Proof.
  split.
  - intros Hf. destruct (deleteSession_returns clientId w Hf) as (w' & E & Hf').
    destruct (getSessionStatus_returns clientId w') as (s & w'' & E').
    { unfold next_call_succeeds. by rewrite Hf'. }
    eauto.
  - intros r w' E. pose proof (deleteSession_effect clientId w) as H.
    rewrite E in H. destruct H as (-> & Hs & Hm & Hd & Hc & Hq & _).
    repeat (split; [done|]).
    intros s w'' E'. pose proof (getSessionStatus_effect clientId w') as H.
    rewrite E' in H. destruct H as (_ & H1 & H2 & H3 & _ & H4 & _).
    rewrite Hs in H1, H2. rewrite Hc in H3. rewrite Hq in H4. done.
Qed.

Lemma getSessionStatus_connected clientId w s w' :
  getSessionStatus clientId w = (Ok s, w') ->
  snap_connected s = true <-> live_presence w clientId.
Proof.
  intros E. pose proof (getSessionStatus_effect clientId w) as H. rewrite E in H.
  destruct H as (_ & _ & _ & -> & _). unfold live_presence.
  destruct (clients w !! clientId) as [c|] eqn:Hc.
  - destruct (Client.info c (now w)) as [i|] eqn:Hi; simpl.
    + split; [|done]. intros _. by exists c, i.
    + split; [done|]. intros (c' & i & ? & ?). by simplify_eq.
  - split; [done|]. by intros (c & i & ? & ?).
Qed.

(** C3, as amended.  The [connected] flag of [getSessionStatus] is true if
    and only if the registry holds a handle for the identity and that handle
    has presence ([client.info] is populated); the persisted status takes no
    part in it.  So a persisted [connected] without a handle never yields
    [connected = true].  The query returns whenever the store answers. *)
Theorem connected_flag_is_live_presence clientId w :
  next_call_succeeds w = true ->
  exists s w',
    getSessionStatus clientId w = (Ok s, w')
    /\ (snap_connected s = true <-> live_presence w clientId)
    /\ (clients w !! clientId = None -> snap_connected s = false).
Proof.
  intros Hn. destruct (getSessionStatus_returns clientId w Hn) as (s & w' & E).
  exists s, w'. split; [done|]. split; [by eapply getSessionStatus_connected|].
  intros Hc. pose proof (getSessionStatus_effect clientId w) as H. rewrite E in H.
  destruct H as (_ & _ & _ & -> & _). by rewrite Hc.
Qed.

(** ** Starting a session *)

(** A start request that finds the guard set returns the rejection, and its
    [finally] clause removes the guard. *)
Lemma initSession_while_initializing clientId w :
  clientId ∈ initializingClients w ->
  initSession P clientId w
  = (Ok {| init_success := false; init_status := "initializing" |},
     with_initializingClients (fun s => s ∖ {[clientId]})
       (logged WARN ("Session " +:+ clientId +:+ " is already being initialized") w)).
Proof.
  intros H. destruct w. js_unfold. simpl in H.
  by rewrite bool_decide_eq_true_2.
Qed.

(** A call that runs from start to end is its prologue followed by the
    resumption. *)
Lemma initSession_prologue_resume clientId w client w1 :
  initSession_prologue P clientId w = (Ok (inr client), w1) ->
  initSession P clientId w = initSession_resume P clientId client w1.
Proof.
  intros H. unfold initSession, initSession_resume, try_finally, try_catch, bind.
  by rewrite H.
Qed.

(** ** The persisted QR payload *)

(** A write of the status alone leaves the stored QR payload of every
    identity as it was. *)
Lemma updateSessionStatus_keeps_qrCode clientId clientId' status :
  preserves (fun w => persisted_qrCode w clientId') (updateSessionStatus P clientId status).
Proof.
  intros w. unfold persisted_qrCode. destruct w as [? ? ? ? sessions ? ? ? ? ? ? ? ? ?].
  js_run; try done.
  all: destruct (decide (clientId = clientId')) as [->|];
    [rewrite lookup_insert_eq|by rewrite lookup_insert_ne].
  all: by destruct (sessions !! clientId').
Qed.

#[local] Hint Resolve updateSessionStatus_keeps_qrCode : frame.

(** The handlers that leave [qr_required] through a write of the status
    alone: none of them touches the stored QR payload. *)
Lemma on_authenticated_keeps_qrCode a clientId :
  preserves (fun w => persisted_qrCode w clientId) (on_authenticated P a).
Proof. frame. Qed.

Lemma on_disconnected_keeps_qrCode a reason clientId :
  preserves (fun w => persisted_qrCode w clientId) (on_disconnected P a reason).
Proof. frame. Qed.

Lemma handleInitializationFailure_keeps_qrCode clientId' reason clientId :
  preserves (fun w => persisted_qrCode w clientId)
    (handleInitializationFailure P clientId' reason).
Proof. frame. Qed.

Lemma on_auth_failure_keeps_qrCode a message clientId :
  preserves (fun w => persisted_qrCode w clientId) (on_auth_failure P a message).
Proof. frame. Qed.

Lemma on_authenticated_effect a w :
  let clientId := attempt_clientId a in
  exists w',
    on_authenticated P a w = (Ok tt, w')
    /\ qrCodes w' !! clientId = None
    /\ readyTimeouts w' !! clientId = Some (nextTimer w)
    /\ (next_call_succeeds w = true -> persisted_status w' clientId = Some connecting).
Proof.
  unfold next_call_succeeds, persisted_status. destruct w. js_run.
  all: eexists; split; [reflexivity|]; js_unfold; map_facts.
Qed.

(** Whatever QR payload is stored when [authenticated] arrives is still
    stored afterwards, now under the status [connecting]. *)
Lemma authenticated_leaves_stale_qr a w q :
  persisted_qrCode w (attempt_clientId a) = Some q ->
  next_call_succeeds w = true ->
  let w' := (on_authenticated P a w).2 in
  persisted_status w' (attempt_clientId a) = Some connecting
  /\ persisted_qrCode w' (attempt_clientId a) = Some q.
Proof.
  intros Hq Hn w'. subst w'. split.
  - destruct (on_authenticated_effect a w) as (w' & E & _ & _ & H). rewrite E. auto.
  - by rewrite (on_authenticated_keeps_qrCode a (attempt_clientId a) w).
Qed.

(** The ready path passes [qrCode: undefined] with the new status.  Mongoose 6
    and later strip a key whose value is [undefined] from an update, so the
    stored payload stays on this path too; Mongoose 5 writes [null] for it. *)
Lemma handleManualReady_qrCode clientId client w :
  next_call_succeeds w = true ->
  let w' := (handleManualReady P clientId client w).2 in
  persisted_status w' clientId = Some connected
  /\ persisted_qrCode w' clientId
     = if omitUndefined P then persisted_qrCode w clientId else None.
Proof.
  intros Hn.
  unfold next_call_succeeds, persisted_status, persisted_qrCode in *.
  destruct w as [? ? ? ? sessions ? ? ? ? ? ? ? ? ?]. js_run.
  all: try discriminate.
  all: rewrite lookup_insert_eq; simpl; split; [done|].
  all: destruct (omitUndefined P); [|done].
  all: by destruct (sessions !! clientId).
Qed.

(** ** QR issuance *)

Lemma sendWebhook_outbox clientId event data w :
  let w' := (sendWebhook P clientId event data w).2 in
  outbox w' = outbox w \/ delivered w w'.
Proof. unfold delivered. destruct w. js_run. all: eauto. Qed.

(** One QR event: the handler returns, counts the event, and sends at most
    one request, none once the counter has reached 5. *)
Lemma on_qr_step a qr w :
  exists a' w',
    on_qr P a qr w = (Ok a', w')
    /\ qrCount a' = S (qrCount a)
    /\ (length (outbox w') <= length (outbox w) + 1)%nat
    /\ ((5 <= qrCount a)%nat -> outbox w' = outbox w).
Proof.
  destruct (decide (5 <= qrCount a)%nat) as [Hc|Hc].
  - rewrite (on_qr_failure_path a qr w Hc).
    assert (preserves outbox
              (handleInitializationFailure P (attempt_clientId a) "Too many QR attempts"))
      as Ho by frame.
    eexists _, _. split; [reflexivity|]. rewrite Ho. simpl.
    split; [done|]. split; [lia|done].
  - assert (forall w0, length (outbox (sendWebhook P (attempt_clientId a) "qr_code"
              (JObj [("qr", JStr (QRCode_toDataURL P qr));
                     ("attempt", JNum (Z.of_nat (S (qrCount a))))]) w0).2)
              <= length (outbox w0) + 1)%nat as Hs.
    { intros w0. destruct (sendWebhook_outbox (attempt_clientId a) "qr_code"
        (JObj [("qr", JStr (QRCode_toDataURL P qr));
               ("attempt", JNum (Z.of_nat (S (qrCount a))))]) w0) as [->|[p ->]].
      - lia.
      - rewrite length_app. simpl. lia. }
    unfold on_qr, toDataURL, updateSession.
    rewrite bool_decide_eq_false_2 by lia.
    destruct w. js_core_run.
    all: eexists _, _; split; [reflexivity|]; js_core; repeat split; try lia.
    all: match goal with
         | E : sendWebhook _ _ _ _ ?w0 = (_, ?w1) |- _ =>
             let H := fresh in
             pose proof (Hs w0) as H; rewrite E in H; js_core; simpl in H; try lia
         end.
Qed.

(** Over the QR events of one attempt, from a counter [qrCount a] on, at most
    [5 - qrCount a] requests are sent: five for a fresh attempt. *)
Lemma issue_qrs_at_most_five qrs : forall a w,
  (length (outbox (issue_qrs P a qrs w).2)
   <= length (outbox w) + (5 - qrCount a))%nat.
Proof.
  induction qrs as [|qr rest IH]; intros a w; simpl; [lia|].
  destruct (on_qr_step a qr w) as (a' & w' & E & Hc & Hl & H5). rewrite E.
  specialize (IH a' w'). rewrite Hc in IH.
  destruct (decide (5 <= qrCount a)%nat) as [H|H].
  - rewrite (H5 H) in IH. lia.
  - lia.
Qed.

End Properties.

(** * The claims on the worked examples *)

(** C1. The claim asks that a start request rejected as "already
    initializing" change nothing, the guard included.  Here the first
    [initSession("A")] is suspended in [await Promise.race(..)], with the guard
    set and its client in the registry; the second call returns
    [{success: false, status: 'initializing'}] and leaves the persisted record
    and the registry as they were, but its [finally] clause has removed the
    guard that the first call still relies on. *)
Theorem rejected_start_removes_guard :
  bool_decide ("A" ∈ initializingClients first_call_suspended) = true
  /\ is_Some_b (clients first_call_suspended !! "A") = true
  /\ let '(r, w') := initSession example_platform "A" first_call_suspended in
     r = Ok {| init_success := false; init_status := "initializing" |}
     /\ sessionModel w' = sessionModel first_call_suspended
     /\ clients w' = clients first_call_suspended
     /\ bool_decide ("A" ∈ initializingClients w') = false.
Proof. vm_compute. repeat split; reflexivity. Qed.

(** What follows from it: a third start request is not rejected; it finds the
    first call's client without presence, destroys it and starts an attempt of
    its own while the first call is still waiting for its client. *)
Example third_start_is_not_rejected :
  let w2 := (initSession example_platform "A" first_call_suspended).2 in
  let '(r, w3) := initSession_prologue example_platform "A" w2 in
  r = Ok (inr (example_client "A"))
  /\ mkLog LOG "Client A destroyed successfully" ∈ logs w3
  /\ bool_decide ("A" ∈ initializingClients w3) = true.
Proof. vm_compute. repeat split; try reflexivity. set_solver. Qed.

(** C2. The claim asks that the persisted [qrCode] be non-null exactly when
    the persisted status is [qr_required].  Here a QR code is issued (status
    [qr_required], payload stored, as the claim says) and then scanned: the
    [authenticated] handler persists [connecting] and empties the in-memory QR
    cache, but the payload is still in the Session record. *)
Theorem authenticated_keeps_persisted_qr :
  persisted_status qr_issued "A" = Some qr_required
  /\ persisted_qrCode qr_issued "A" = Some "data:image/png;base64,2@k9"
  /\ persisted_status authenticated_after_qr "A" = Some connecting
  /\ persisted_qrCode authenticated_after_qr "A" = Some "data:image/png;base64,2@k9"
  /\ qrCodes authenticated_after_qr !! "A" = None.
Proof. vm_compute. repeat split; reflexivity. Qed.

(** C3, counterexample to the claim as stated.  Six seconds into the first
    start the client has presence while the persisted status is still
    [connecting]: the status query reports [connected: true] next to
    [status: 'connecting'], so [connected] does not require a persisted
    [connected]. *)
Lemma connected_without_persisted_connected :
  persisted_status presence_before_ready "A" = Some connecting
  /\ exists s w',
       getSessionStatus "A" presence_before_ready = (Ok s, w')
       /\ snap_connected s = true
       /\ snap_status s = "connecting".
Proof. split; [reflexivity|]. eexists _, _. vm_compute. repeat split; reflexivity. Qed.

(** The amended statement at the same world. *)
Lemma connected_flag_is_live_presence_witness :
  next_call_succeeds presence_before_ready = true
  /\ exists s w',
       getSessionStatus "A" presence_before_ready = (Ok s, w')
       /\ (snap_connected s = true <-> live_presence presence_before_ready "A")
       /\ (clients presence_before_ready !! "A" = None -> snap_connected s = false).
Proof.
  split; [reflexivity|].
  apply (connected_flag_is_live_presence "A" presence_before_ready). reflexivity.
Defined.

(** A sixth QR event in the attempt of the examples. *)
Lemma on_qr_beyond_five_witness :
  (5 <= qrCount fifth_attempt)%nat
  /\ exists w',
       on_qr example_platform fifth_attempt "2@k9" qr_issued
       = (Ok (mkAttempt "A" (example_client "A") 6), w')
       /\ outbox w' = outbox qr_issued
       /\ clients w' !! "A" = None
       /\ persisted_status w' "A" = Some disconnected.
Proof.
  split; [apply le_n|].
  destruct (on_qr_beyond_five example_platform fifth_attempt "2@k9" qr_issued (le_n 5))
    as (w' & E & _ & Ho & Hc & _ & _ & _ & Hs).
  exists w'. split; [exact E|]. split; [exact Ho|]. split; [exact Hc|].
  apply Hs. reflexivity.
Defined.

(** The subscription of the examples and a [ready] notification. *)
Lemma sendWebhook_delivers_iff_subscribed_witness :
  let w := first_call_suspended in
  let w' := (sendWebhook example_platform "A" "ready" ready_data w).2 in
  next_call_succeeds w = true /\ serializable ready_data = true
  /\ (delivered w w' <-> subscribed w "A" "ready")
  /\ (~ subscribed w "A" "ready" -> unchanged w w').
Proof.
  split; [reflexivity|]. split; [reflexivity|].
  apply (sendWebhook_delivers_iff_subscribed example_platform "A" "ready" ready_data
           first_call_suspended); reflexivity.
Defined.

(** The request of that notification carries the HMAC-SHA256 of its body. *)
Lemma webhook_signature_round_trip_witness :
  outbox (sendWebhook example_platform "A" "ready" ready_data first_call_suspended).2
  = (outbox first_call_suspended ++ [ready_post])%list
  /\ header "X-Webhook-Signature" (post_headers ready_post)
     = Some ("sha256=" +:+ hmac_sha256_hex example_platform "s3cret" (post_body ready_post))
  /\ verify_signature example_platform "s3cret" (post_body ready_post)
       ("sha256=" +:+ hmac_sha256_hex example_platform "s3cret" (post_body ready_post))
     = true.
Proof.
  assert (outbox (sendWebhook example_platform "A" "ready" ready_data
                    first_call_suspended).2
          = (outbox first_call_suspended ++ [ready_post])%list) as H
    by (vm_compute; reflexivity).
  split; [exact H|].
  destruct (webhook_signature_round_trip example_platform "A" "ready" ready_data
              first_call_suspended ready_post H) as (h & Hf & _ & _ & _ & Hsig).
  assert (h = example_webhook) as ->
    by (change (Some example_webhook = Some h) in Hf; congruence).
  simpl in Hsig. destruct Hsig as (sig & Hh & -> & Hv). split; [exact Hh|exact Hv].
Defined.

(** The scenario of the specification: a send for identity [B], which has no
    handle. *)
Lemma sendMessage_client_not_found_witness :
  clients empty_world !! "B" = None
  /\ exists w',
       sendMessage example_platform "B" "1555" "hi" "text" empty_world
       = (Throw "Failed to send message: Client not found", w')
       /\ messageModel w' = [] /\ sessionModel w' = ∅.
Proof.
  split; [reflexivity|].
  destruct (sendMessage_client_not_found example_platform "B" "1555" "hi" "text"
              empty_world eq_refl) as (w' & E & _ & Hm & Hs & _).
  exists w'. split; [exact E|]. split; [exact Hm|exact Hs].
Defined.

(** The store is down: the delivery is given up, the caller sees a normal
    return and the registry is as before. *)
Lemma sendWebhook_never_throws_witness :
  exists w',
    sendWebhook example_platform "A" "ready" ready_data storage_down = (Ok tt, w')
    /\ clients w' = clients storage_down
    /\ sessionModel w' = sessionModel storage_down.
Proof.
  destruct (sendWebhook_never_throws example_platform "A" "ready" ready_data storage_down)
    as (w' & E & (Hc & _ & _ & _ & Hs & _) & _).
  exists w'. split; [exact E|]. split; [exact Hc|exact Hs].
Defined.

(** C8. The claim asks that [deleteSession] remove the Session record, the
    Message records and the directory of the authentication artifacts of the
    identity.  The client of an identity is built with
    [new LocalAuth({ clientId })], which keeps the artifacts in
    [session-A] below the directory of the library,
    [/srv/app/.wwebjs_auth]; [deleteSession] removes
    [path.resolve('./wa-sessions', 'session-A')], the directory of the
    commented-out call that passed [dataPath].  Here identity [A] has its
    records in the store and its artifacts on disk: the call returns success,
    the records are gone and a status query reports the defaults, but no path
    has been removed and the artifacts are all still there. *)
Theorem deleteSession_leaves_auth_artifacts :
  userDataDir example_platform (authStrategy "A") = "/srv/app/.wwebjs_auth/session-A"
  /\ sessionPath example_platform "A" = "/srv/app/wa-sessions/session-A"
  /\ List.filter (within (userDataDir example_platform (authStrategy "A")))
       (files paired_on_disk)
     = ["/srv/app/.wwebjs_auth/session-A"; "/srv/app/.wwebjs_auth/session-A/Default";
        "/srv/app/.wwebjs_auth/session-A/Default/Cookies"]
  /\ is_Some_b (sessionModel paired_on_disk !! "A") = true
  /\ length (List.filter (of_client "A") (messageModel paired_on_disk)) = 2%nat
  /\ let '(r, w') := deleteSession example_platform "A" paired_on_disk in
     r = Ok {| success := true; message := "Session deleted successfully" |}
     /\ sessionModel w' !! "A" = None
     /\ List.filter (of_client "A") (messageModel w') = []
     /\ match (getSessionStatus "A" w').1 with
        | Ok s => snap_status s = "disconnected" /\ snap_messageCount s = 0
        | Throw _ => False
        end
     /\ files w' = files paired_on_disk
     /\ List.filter (within (userDataDir example_platform (authStrategy "A"))) (files w')
        = ["/srv/app/.wwebjs_auth/session-A";
           "/srv/app/.wwebjs_auth/session-A/Default";
           "/srv/app/.wwebjs_auth/session-A/Default/Cookies"].
Proof. vm_compute. repeat split; reflexivity. Qed.

(** With the option of the commented-out call the two directories are the
    same, and the removal does take the artifacts. *)
Example userDataDir_with_dataPath :
  let o := mkLocalAuth "A" (Some (path_resolve (cwd example_platform) ["./wa-sessions"])) in
  userDataDir example_platform o = sessionPath example_platform "A"
  /\ let '(r, w') := deleteSession example_platform "A" populated in
     r = Ok {| success := true; message := "Session deleted successfully" |}
     /\ List.filter (within (userDataDir example_platform o)) (files populated)
        = ["/srv/app/wa-sessions/session-A"; "/srv/app/wa-sessions/session-A/Default"]
     /\ List.filter (within (userDataDir example_platform o)) (files w') = []
     /\ files w' = ["/srv/app/wa-sessions"; "/srv/app/wa-sessions/session-B"].
Proof. vm_compute. repeat split; reflexivity. Qed.

(** A restart in the world where the browser will fail to launch. *)
Lemma restartSession_reports_success_witness :
  next_call_succeeds browser_fails = true
  /\ exists w',
       restartSession example_platform "A" browser_fails
       = (Ok {| success := true; message := "Session restart initiated" |}, w')
       /\ clients w' !! "A" = None
       /\ persisted_status w' "A" = Some disconnected
       /\ last (timers w') = Some (mkTimer 0 1700000003000 (RestartTask "A")).
Proof.
  split; [reflexivity|].
  destruct (restartSession_reports_success example_platform "A" browser_fails)
    as (w' & E & Hc & _ & _ & _ & Hs & Ht & _).
  exists w'. split; [exact E|]. split; [exact Hc|]. split; [apply Hs; reflexivity|].
  exact Ht.
Defined.

(** ** More runs of the model *)

Example sha256_abc :
  SHA256.sha256_hex "abc"
  = "ba7816bf8f01cfea414140de5dae2223b00361a396177a9cb410ff61f20015ad".
Proof. vm_compute. reflexivity. Qed.

(** RFC 4231, test case 2. *)
Example hmac_sha256_rfc4231 :
  SHA256.hmac_hex "Jefe" "what do ya want for nothing?"
  = "5bdcc146bf60754e6a042426089575c75a003f089d2739839dec58b964ec3843".
Proof. vm_compute. reflexivity. Qed.

Example iso8601_example_epoch : iso8601 1700000000000 = "2023-11-14T22:13:20.000Z".
Proof. vm_compute. reflexivity. Qed.

Example iso8601_leap_day : iso8601 951782400123 = "2000-02-29T00:00:00.123Z".
Proof. vm_compute. reflexivity. Qed.

Example path_resolve_session :
  sessionPath example_platform "A" = "/srv/app/wa-sessions/session-A".
Proof. vm_compute. reflexivity. Qed.

(** The three ways a delivery fails, each swallowed and logged. *)
Example webhook_lookup_fails :
  let '(r, w') := sendWebhook example_platform "A" "ready" ready_data storage_down in
  r = Ok tt /\ outbox w' = outbox storage_down
  /\ last (logs w')
     = Some (mkLog ERROR
               "Failed to send webhook for A: MongoNetworkError: connection timed out").
Proof. vm_compute. repeat split; reflexivity. Qed.

Example webhook_payload_not_serializable :
  let '(r, w') :=
    sendWebhook example_platform "A" "message" (JObj [("size", JBigInt 7)])
      first_call_suspended in
  r = Ok tt /\ outbox w' = outbox first_call_suspended
  /\ last (logs w')
     = Some (mkLog ERROR
               "Failed to send webhook for A: Do not know how to serialize a BigInt").
Proof. vm_compute. repeat split; reflexivity. Qed.

Example webhook_endpoint_times_out :
  let '(r, w') := sendWebhook example_platform "A" "ready" ready_data endpoint_down in
  r = Ok tt /\ outbox w' = [ready_post]
  /\ last (logs w')
     = Some (mkLog ERROR "Failed to send webhook for A: timeout of 10000ms exceeded").
Proof. vm_compute. repeat split; reflexivity. Qed.

(** A filter that leaves the event out, and a disabled subscription: no-ops. *)
Example webhook_filtered_out :
  let w := with_webhookModel (fun _ => [messages_only]) first_call_suspended in
  sendWebhook example_platform "A" "qr_code" ready_data w = (Ok tt, w).
Proof. vm_compute. reflexivity. Qed.

Example webhook_disabled :
  let w := with_webhookModel (fun _ => [disabled_webhook]) first_call_suspended in
  sendWebhook example_platform "A" "qr_code" ready_data w = (Ok tt, w).
Proof. vm_compute. reflexivity. Qed.

(** The signature of the [ready] notification of the examples. *)
Example ready_post_signature :
  post_body ready_post
  = envelope_text "ready" "A" "2023-11-14T22:13:20.000Z"
      (object_text [("phoneNumber", quote "15550001"); ("clientId", quote "A")])
  /\ header "X-Webhook-Signature" (post_headers ready_post)
     = Some ("sha256=" +:+ SHA256.hmac_hex "s3cret" (post_body ready_post)).
Proof. vm_compute. split; reflexivity. Qed.

(** Six QR codes in one attempt: five notifications, then [disconnected]. *)
Example six_qr_codes :
  let '(a, w') :=
    issue_qrs example_platform first_attempt ["q1"; "q2"; "q3"; "q4"; "q5"; "q6"]
      first_call_suspended in
  qrCount a = 6%nat
  /\ length (outbox w') = 5%nat
  /\ persisted_status w' "A" = Some disconnected
  /\ clients w' !! "A" = None.
Proof. vm_compute. repeat split; reflexivity. Qed.

(** Deleting identity [A] leaves identity [B] alone. *)
Example delete_then_status :
  let '(r, w') := deleteSession example_platform "A" populated in
  r = Ok {| success := true; message := "Session deleted successfully" |}
  /\ sessionModel w' !! "A" = None
  /\ messageModel w' = [message_of "B" "m2"]
  /\ files w' = ["/srv/app/wa-sessions"; "/srv/app/wa-sessions/session-B"]
  /\ let '(q, _) := getSessionStatus "A" w' in
     exists s, q = Ok s /\ snap_status s = "disconnected" /\ snap_messageCount s = 0.
Proof. vm_compute. repeat split; try reflexivity. eexists. repeat split; reflexivity. Qed.

(** A restart whose delayed re-initialization fails: the reply was success,
    the failure is in the log and in the persisted status. *)
Example restart_then_failed_start :
  let '(r, w1) := restartSession example_platform "A" browser_fails in
  let '(q, w2) := fire example_platform 0 w1 in
  r = Ok {| success := true; message := "Session restart initiated" |}
  /\ q = Ok tt
  /\ mkLog ERROR "Failed to initialize session A: Failed to launch the browser process!"
     ∈ logs w2
  /\ persisted_status w2 "A" = Some disconnected.
Proof. vm_compute. repeat split; try reflexivity. set_solver. Qed.

(** The [ready] event after the scan, once the client has presence: the
    status becomes [connected]; the update carries [qrCode: undefined], which
    Mongoose strips, so the stored QR payload stays on this path too. *)
Example ready_after_authenticated :
  let w := with_now (fun t => t + 6000) authenticated_after_qr in
  let '(r, w') := on_ready example_platform (mkAttempt "A" (example_client "A") 1) w in
  r = Ok tt
  /\ sessionModel w' !! "A"
     = Some {| Session.phoneNumber := Some "15550001"; Session.status := connected;
               Session.lastActivity := Some 1700000007000;
               Session.qrCode := Some "data:image/png;base64,2@k9";
               Session.messageCount := 0 |}
  /\ readyTimeouts w' !! "A" = None
  /\ length (outbox w') = 2%nat.
Proof. vm_compute. repeat split; reflexivity. Qed.

(** The ready event never comes: the 60 s timer fires, finds presence and
    takes the manual-ready path. *)
Example ready_timeout_recovers :
  let w := with_now (fun t => t + 60000) authenticated_after_qr in
  let '(r, w') := fire example_platform 0 w in
  r = Ok tt
  /\ persisted_status w' "A" = Some connected
  /\ readyTimeouts w' !! "A" = None
  /\ timers w' = [].
Proof. vm_compute. repeat split; reflexivity. Qed.

(** An inbound message for an identity with four messages on record. *)
Example inbound_message_counts :
  let '(r, w') := handleIncomingMessage example_platform "C" fifth_message four_messages in
  r = Ok tt
  /\ (Session.messageCount <$> sessionModel w' !! "C") = Some 5
  /\ (sessionModel w' !! "C" ≫= Session.lastActivity) = Some 1700000000000
  /\ length (outbox w') = 1%nat.
Proof. vm_compute. repeat split; reflexivity. Qed.

(** * Properties of the rest of the two services *)

(** ** Symbolic execution in the goal *)

Ltac run_goal :=
  cbv beta iota zeta delta
    [bind ret throw try_catch try_finally get modify external
     logged error_line logger logger_error sleep setTimeout clearTimeout
     client_info client_getState client_destroy client_sendMessage
     JSON_stringify axios_post
     sessionModel_updateOne sessionModel_findOne sessionModel_deleteOne
     messageModel_create messageModel_countDocuments messageModel_deleteMany
     webhookModel_findOne fs_existsSync fs_rmSync
     sendWebhook_try sendWebhook_catch sendWebhook
     updateSession updateSessionStatus clearReadyTimeout cleanupClient
     handleInitializationFailure handleManualReady restartSession handleReadyTimeout
     toDataURL on_qr on_authenticated on_ready on_change_state on_disconnected
     on_auth_failure setupClientEventHandlers new_Client race_initialize
     initSession_begin initSession_prologue initSession_epilogue initSession_catch
     initSession_finally initSession initSession_resume run_task
     handleIncomingMessage sendMessage getSessionStatus deleteSession
     createWebhook getWebhook deleteWebhook checkAndFixReadyState getMessages
     sessionModel_find_sorted getAllSessions sessionModel_find_connected
     restoreSessions fs_mkdirSync ensureSessionsDirectory on_loading_screen
     controller_createSession controller_deleteSession controller_sendMessage
     controller_getMessages
     with_clients with_qrCodes with_initializingClients with_readyTimeouts
     with_sessionModel with_messageModel with_webhookModel with_timers
     with_nextTimer with_files with_outbox with_logs with_now with_faults
     clients qrCodes initializingClients readyTimeouts sessionModel messageModel
     webhookModel timers nextTimer files outbox logs now faults
     fst snd].

Ltac run := run_goal; repeat (js_case; run_goal).

(** The same, computing the serialization of an envelope whose data is
    given. *)
Ltac run_ser P :=
  run_goal;
  repeat (first [ progress (rewrite (serialize_envelope P); cbn [serialize])
                | js_case ];
          run_goal).

(** The world record with its fields reduced, nothing else unfolded. *)
Ltac world_core :=
  cbv beta iota zeta delta
    [logged with_clients with_qrCodes with_initializingClients with_readyTimeouts
     with_sessionModel with_messageModel with_webhookModel with_timers
     with_nextTimer with_files with_outbox with_logs with_now with_faults
     clients qrCodes initializingClients readyTimeouts sessionModel messageModel
     webhookModel timers nextTimer files outbox logs now faults fst snd].

Ltac cov_open :=
  unfold createWebhook, getWebhook, deleteWebhook, checkAndFixReadyState, getMessages,
    sessionModel_find_sorted, getAllSessions, sessionModel_find_connected,
    restoreSessions, fs_mkdirSync, ensureSessionsDirectory, on_loading_screen,
    controller_createSession, controller_deleteSession, controller_sendMessage,
    controller_getMessages.

(** Side conditions of a frame about another identity. *)
Ltac other_side :=
  unfold identity_view; world_core;
  repeat match goal with |- (_, _) = (_, _) => f_equal end;
  first [ reflexivity
        | by rewrite lookup_insert_ne
        | by rewrite lookup_delete_ne
        | by (apply bool_decide_ext; set_solver) ].

Ltac other_step :=
  lazymatch goal with
  | |- preserves _ (bind _ _) => apply preserves_bind; [|intros ?]
  | |- preserves _ (try_catch _ _) => apply preserves_try_catch; [|intros ?]
  | |- preserves _ (try_finally _ _) => apply preserves_try_finally
  | |- preserves _ (ret _) => apply preserves_ret
  | |- preserves _ (throw _) => apply preserves_throw
  | |- preserves _ (get _) => apply preserves_get
  | |- preserves _ (modify _) => apply preserves_modify; intros []; other_side
  | |- preserves _ external => apply preserves_external; intros ? []; reflexivity
  | |- preserves _ (setTimeout _ _) =>
      apply preserves_setTimeout; intros ? ? []; reflexivity
  | |- preserves _ (client_getState _) => apply preserves_client_getState
  | |- preserves _ (client_destroy _) => apply preserves_client_destroy
  | |- preserves _ (client_sendMessage _ _ _) => apply preserves_client_sendMessage
  | |- preserves _ (match ?x with _ => _ end) => destruct x
  | |- preserves _ _ => first [ progress js_open | progress cov_open ]
  end.

(** Proves [preserves f m] when [f] looks at another identity than the one
    [m] works on. *)
Ltac other_identity := repeat other_step.

(** ** Notifications and the failure path when the environment answers *)

Section Notifications.
Context (P : Platform).

(** The call returns, the service state is as before, and the request went
    to the first matching subscription. *)
Lemma sendWebhook_notifies clientId event data w :
  faults w = [] ->
  serializable data = true ->
  exists w',
    sendWebhook P clientId event data w = (Ok tt, w')
    /\ faults w' = []
    /\ same_service_state w w'
    /\ notified P w w' clientId event (now w) data.
Proof.
  intros Hf Hs.
  destruct (envelope_serializable P event clientId (now w) data Hs) as [body Hb].
  revert Hf Hb. unfold notified, same_service_state.
  destruct w as [cl qc ic rt sm mm wm tm nt fl ob lg nw ft].
  run_goal. intros -> Hb.
  run_goal; repeat (first [progress rewrite Hb | js_case]; run_goal).
  all: eexists; split; [reflexivity|]; run_goal; repeat split; try done.
  all: eexists; repeat split; reflexivity.
Qed.


End Notifications.

(** ** Cleanup and the start of a session *)

Section Starting.
Context (P : Platform).

Lemma cleanupClient_nothing_to_do clientId w :
  readyTimeouts w !! clientId = None -> clients w !! clientId = None ->
  qrCodes w !! clientId = None -> clientId ∉ initializingClients w ->
  cleanupClient clientId w = (Ok tt, w).
Proof.
  intros Hr Hc Hq Hi. destruct w. simpl in *. js_unfold. rewrite Hr, Hc.
  f_equal. f_equal; [by apply delete_id | set_solver].
Qed.

(** X1. [cleanupClient] never throws (an error of [client.destroy()] is
    caught and logged), touches neither the collections, the outbox, the
    files nor the environment's pending answers, and is idempotent: a second
    cleanup of the same identity finds nothing to do and leaves the world
    exactly as the first one left it. *)
Theorem cleanupClient_idempotent clientId w :
  exists w1,
    cleanupClient clientId w = (Ok tt, w1)
    /\ cleanupClient clientId w1 = (Ok tt, w1)
    /\ sessionModel w1 = sessionModel w /\ messageModel w1 = messageModel w
    /\ webhookModel w1 = webhookModel w /\ outbox w1 = outbox w
    /\ files w1 = files w /\ faults w1 = faults w.
Proof.
  destruct (cleanupClient_succeeds clientId w) as ([] & w1 & E).
  pose proof (cleanupClient_clears clientId w) as H. rewrite E in H.
  destruct H as (Hc & Hq & Hi & Hr).
  exists w1. split; [done|]. split; [by apply cleanupClient_nothing_to_do|].
  change w1 with (Ok tt, w1).2. rewrite <- E.
  repeat split; framed.
Qed.


Lemma try_finally_modify {A} (m : M A) (f : World -> World) w :
  try_finally m (modify f) w = ((m w).1, f (m w).2).
Proof. unfold try_finally, modify. by destruct (m w). Qed.

Lemma race_without_events client w :
  (forall ms o, Client.initialize client = Some (ms, o) -> 0 <= ms) ->
  (t0 <- race_begin client ;; race_end client t0) w = race_initialize client w.
Proof.
  intros H. unfold race_begin, race_end, race_initialize, sleep_until.
  destruct w as [cl qc ic rt sm mm wm tm nt fl ob lg nw ft].
  destruct (Client.initialize client) as [[ms o]|] eqn:E.
  - specialize (H ms o eq_refl). destruct (ms <? 240000)%Z; run_goal.
    + replace (Z.max (nw + ms) nw)%Z with (nw + ms)%Z by lia. by destruct o.
    + by replace (Z.max (nw + 240000) nw)%Z with (nw + 240000)%Z by lia.
  - run_goal. by replace (Z.max (nw + 240000) nw)%Z with (nw + 240000)%Z by lia.
Qed.

Lemma initSession_prologue_client clientId w :
  match initSession_prologue P clientId w with
  | (Ok (inr c), _) => exists t, c = newClient P clientId t
  | _ => True
  end.
Proof. destruct w. run. all: try exact I. all: by eexists. Qed.

(** When nothing happens during the wait, the call with its wait is the call
    in one piece. *)
Lemma initSession_during_nothing clientId w :
  (forall t ms o, Client.initialize (newClient P clientId t) = Some (ms, o) -> 0 <= ms) ->
  initSession_during P (fun w => w) clientId w = initSession P clientId w.
Proof.
  intros H. unfold initSession_during, initSession.
  unfold try_finally. f_equal.
  assert (try_catch
            (p <- initSession_suspend P clientId;;
             match p with inl _ => ret () | inr _ => modify (fun w => w) end;;
             initSession_continue clientId p)
            (initSession_catch P clientId) w
          = try_catch (p <- initSession_prologue P clientId;; initSession_epilogue clientId p)
              (initSession_catch P clientId) w) as ->; [|done].
  unfold try_catch. f_equal.
  unfold initSession_suspend, bind.
  pose proof (initSession_prologue_client clientId w) as Hc.
  destruct (initSession_prologue P clientId w) as [[[r0|c]|e] w0]; [done| |done].
  destruct Hc as [t ->].
  unfold initSession_continue, initSession_epilogue, bind, modify, ret.
  rewrite <- (race_without_events (newClient P clientId t) w0 (H t)). unfold bind.
  by destruct (race_begin _ w0) as [[t0|e] w1].
Qed.




(** X3. A start request for an identity that is not being initialized and
    whose handle has presence is a no-op: it answers [{true, 'connected'}]
    and the world is exactly as before (nothing is persisted, no client is
    built, the clock does not move). *)
Theorem initSession_connected_is_noop clientId w c i :
  clientId ∉ initializingClients w ->
  clients w !! clientId = Some c ->
  Client.info c (now w) = Some i ->
  initSession P clientId w
  = (Ok {| init_success := true; init_status := "connected" |}, w).
Proof.
  intros Hi Hc Hp. destruct w. simpl in *. js_unfold.
  rewrite bool_decide_eq_false_2 by done. rewrite Hc, Hp. simpl.
  f_equal. f_equal. set_solver.
Qed.

Lemma handleInitializationFailure_now clientId reason :
  preserves now (handleInitializationFailure P clientId reason).
Proof. frame. Qed.

Lemma initSession_suspend_fresh clientId w :
  clientId ∉ initializingClients w ->
  clients w !! clientId = None ->
  faults w = [] ->
  let c := newClient P clientId (now w) in
  exists w1,
    initSession_suspend P clientId w = (Ok (inr (c, now w)), w1)
    /\ clients w1 = <[clientId := c]> (clients w)
    /\ clientId ∈ initializingClients w1
    /\ persisted_status w1 clientId = Some connecting
    /\ now w1 = now w
    /\ faults w1 = []
    /\ outbox w1 = outbox w.
Proof.
  intros Hi Hc Hf c. subst c. unfold persisted_status.
  destruct w as [cl qc ic rt sm mm wm tm nt fl ob lg nw ft]. simpl in *. subst.
  unfold initSession_suspend, race_begin, initSession_prologue.
  run_goal. rewrite bool_decide_eq_false_2 by done. rewrite Hc. run.
  all: eexists; split; [reflexivity|]; run_goal.
  all: rewrite ?lookup_insert_eq.
  all: repeat split; try done; set_solver.
Qed.

Lemma initSession_continue_settles clientId c t0 w :
  exists r w',
    try_catch (initSession_continue clientId (inr (c, t0))) (initSession_catch P clientId) w
    = (Ok r, w')
    /\ outbox w' = outbox w
    /\ match settles_in_time c with
       | Some (ms, Fulfilled) =>
           r = {| init_success := true; init_status := "connecting" |}
           /\ clients w' = clients w
           /\ sessionModel w' = sessionModel w
           /\ qrCodes w' = qrCodes w
           /\ readyTimeouts w' = readyTimeouts w
           /\ initializingClients w' = initializingClients w
           /\ now w' = Z.max (t0 + ms) (now w)
       | Some (ms, Rejected e) =>
           r = {| init_success := false; init_status := "disconnected" |}
           /\ clients w' !! clientId = None
           /\ (next_call_succeeds w = true ->
               persisted_status w' clientId = Some disconnected)
           /\ now w' = Z.max (t0 + ms) (now w)
       | None =>
           r = {| init_success := false; init_status := "disconnected" |}
           /\ clients w' !! clientId = None
           /\ (next_call_succeeds w = true ->
               persisted_status w' clientId = Some disconnected)
           /\ now w' = Z.max (t0 + 240000) (now w)
       end.
Proof.
  unfold settles_in_time, initSession_continue, race_end, sleep_until.
  assert (forall e w0, exists w',
            initSession_catch P clientId e w0
            = (Ok {| init_success := false; init_status := "disconnected" |}, w')
            /\ outbox w' = outbox w0
            /\ clients w' !! clientId = None
            /\ (next_call_succeeds w0 = true ->
                persisted_status w' clientId = Some disconnected)
            /\ now w' = now w0) as Hcatch.
  { intros e w0. unfold initSession_catch, bind, logger_error, logger, modify, ret.
    set (w1 := logged _ _ w0).
    pose proof (handleInitializationFailure_now clientId e w1) as Hn.
    destruct (handleInitializationFailure_converges P clientId e w1)
      as (w3 & E3 & Ho & H1 & _ & _ & _ & Hp).
    rewrite E3 in *. simpl in Hn. eexists. split; [reflexivity|].
    subst w1. destruct w0. simpl in *. done. }
  destruct w as [cl qc ic rt sm mm wm tm nt fl ob lg nw ft].
  destruct (Client.initialize c) as [[ms o]|]; [destruct (ms <? 240000)%Z; [destruct o|]|].
  - run_goal. eexists _, _. split; [reflexivity|]. done.
  - unfold try_catch, bind, modify, throw.
    match goal with |- context [initSession_catch P clientId ?e ?w0] =>
      destruct (Hcatch e w0) as (w' & -> & Ho & Hc & Hp & Hn) end.
    eexists _, _. split; [reflexivity|]. done.
  - unfold try_catch, bind, modify, throw.
    match goal with |- context [initSession_catch P clientId ?e ?w0] =>
      destruct (Hcatch e w0) as (w' & -> & Ho & Hc & Hp & Hn) end.
    eexists _, _. split; [reflexivity|]. done.
  - unfold try_catch, bind, modify, throw.
    match goal with |- context [initSession_catch P clientId ?e ?w0] =>
      destruct (Hcatch e w0) as (w' & -> & Ho & Hc & Hp & Hn) end.
    eexists _, _. split; [reflexivity|]. done.
Qed.

(** X4. A first start (no guard, no handle) with the environment answering
    every call reaches the wait: the client is built and registered, the guard
    is set, [connecting] is persisted, and the call waits for
    [client.initialize()] against the 240 s timeout.  Whatever happens during
    the wait: if the client fulfils in time the result is
    [{true, 'connecting'}], and the registry, the caches and the Session
    records are as the events of the wait left them; if it rejects in time,
    or has not settled after 240000 ms, the result is
    [{false, 'disconnected'}], no handle is left, and [disconnected] is
    persisted when the store takes the write.  The call sends nothing itself,
    resumes at the settlement, 240000 ms after the start of the race at most
    (later only when the handlers of the wait have moved the clock past it),
    and releases the guard in every case. *)
Theorem initSession_fresh_start during clientId w :
  clientId ∉ initializingClients w ->
  clients w !! clientId = None ->
  faults w = [] ->
  let c := newClient P clientId (now w) in
  exists w1,
    initSession_suspend P clientId w = (Ok (inr (c, now w)), w1)
    /\ clients w1 = <[clientId := c]> (clients w)
    /\ clientId ∈ initializingClients w1
    /\ persisted_status w1 clientId = Some connecting
    /\ now w1 = now w
    /\ faults w1 = []
    /\ outbox w1 = outbox w
    /\ exists r w',
         initSession_during P during clientId w = (Ok r, w')
         /\ (clientId ∉ initializingClients w')
         /\ outbox w' = outbox (during w1)
         /\ match settles_in_time c with
            | Some (ms, Fulfilled) =>
                r = {| init_success := true; init_status := "connecting" |}
                /\ clients w' = clients (during w1)
                /\ sessionModel w' = sessionModel (during w1)
                /\ qrCodes w' = qrCodes (during w1)
                /\ readyTimeouts w' = readyTimeouts (during w1)
                /\ now w' = Z.max (now w + ms) (now (during w1))
            | Some (ms, Rejected e) =>
                r = {| init_success := false; init_status := "disconnected" |}
                /\ clients w' !! clientId = None
                /\ (next_call_succeeds (during w1) = true ->
                    persisted_status w' clientId = Some disconnected)
                /\ now w' = Z.max (now w + ms) (now (during w1))
            | None =>
                r = {| init_success := false; init_status := "disconnected" |}
                /\ clients w' !! clientId = None
                /\ (next_call_succeeds (during w1) = true ->
                    persisted_status w' clientId = Some disconnected)
                /\ now w' = Z.max (now w + 240000) (now (during w1))
            end.
Proof.
  intros Hi Hc Hf c.
  destruct (initSession_suspend_fresh clientId w Hi Hc Hf)
    as (w1 & E & H1 & H2 & H3 & H4 & H5 & H6).
  fold c in E. exists w1. do 7 (split; [done|]).
  unfold initSession_during, initSession_finally. rewrite try_finally_modify.
  destruct (initSession_continue_settles clientId c (now w) (during w1))
    as (r & w' & E' & Ho & H).
  assert (try_catch
            (p <- initSession_suspend P clientId;;
             match p with inl _ => ret () | inr _ => modify during end;;
             initSession_continue clientId p)
            (initSession_catch P clientId) w = (Ok r, w')) as ->.
  { revert E'. unfold try_catch, bind. rewrite E. simpl. done. }
  simpl. eexists _, _. split; [reflexivity|].
  split; [destruct w'; simpl; set_solver|].
  split; [by destruct w'|].
  unfold persisted_status in *.
  destruct (settles_in_time c) as [[ms [|e]]|]; destruct w'; simpl in *; intuition.
Qed.

End Starting.

(** ** One identity at a time *)

Section Isolation.
Context (P : Platform).

Lemma initSession_other clientId other :
  clientId <> other ->
  preserves (fun w => identity_view w other) (initSession P clientId).
Proof. intros Hne. other_identity. Qed.

Lemma filter_other_messages clientId other (l : list Message.t) :
  clientId <> other ->
  List.filter (of_client other) (List.filter (fun m => negb (of_client clientId m)) l)
  = List.filter (of_client other) l.
Proof.
  intros Hne. unfold of_client. induction l as [|m l IH]; simpl; [done|].
  destruct (String.eqb_spec (Message.clientId m) clientId) as [E|E]; simpl.
  - destruct (String.eqb_spec (Message.clientId m) other) as [E'|E']; [congruence|done].
  - destruct (String.eqb (Message.clientId m) other); by rewrite IH.
Qed.

(** X5. The methods of the service work on one identity: starting,
    restarting, cleaning up or deleting a session, sending a message and the
    manual ready check leave the handle, the cached QR, the ready-timeout, the
    guard and the Session record of every other identity as they were,
    whether the call returns or throws; and [deleteSession] leaves the
    messages of every other identity in the store. *)
Theorem methods_leave_other_identities clientId other :
  clientId <> other ->
  preserves (fun w => identity_view w other) (initSession P clientId)
  /\ preserves (fun w => identity_view w other) (restartSession P clientId)
  /\ preserves (fun w => identity_view w other) (cleanupClient clientId)
  /\ preserves (fun w => identity_view w other) (deleteSession P clientId)
  /\ preserves (fun w => List.filter (of_client other) (messageModel w))
       (deleteSession P clientId)
  /\ (forall to message type,
        preserves (fun w => identity_view w other) (sendMessage P clientId to message type))
  /\ preserves (fun w => identity_view w other) (checkAndFixReadyState P clientId).
Proof.
  intros Hne. split; [by apply initSession_other|].
  split; [other_identity|]. split; [other_identity|]. split; [other_identity|].
  split.
  { repeat other_step. intros []. simpl. by apply filter_other_messages. }
  split; [intros; other_identity|]. other_identity.
Qed.

(** X6. So do the event handlers of an attempt and its timer callbacks: the
    [qr], [authenticated], [ready], [disconnected], [auth_failure] and
    [message] handlers, the ready-timeout and its follow-up leave the
    registry entries and the Session record of every other identity as they
    were. *)
Theorem events_leave_other_identities a other :
  attempt_clientId a <> other ->
  (forall qr, preserves (fun w => identity_view w other) (on_qr P a qr))
  /\ preserves (fun w => identity_view w other) (on_authenticated P a)
  /\ preserves (fun w => identity_view w other) (on_ready P a)
  /\ (forall reason, preserves (fun w => identity_view w other) (on_disconnected P a reason))
  /\ (forall message, preserves (fun w => identity_view w other) (on_auth_failure P a message))
  /\ (forall message,
        preserves (fun w => identity_view w other)
          (handleIncomingMessage P (attempt_clientId a) message))
  /\ preserves (fun w => identity_view w other)
       (run_task P (ReadyTimeoutTask (attempt_clientId a) (attempt_client a)))
  /\ preserves (fun w => identity_view w other)
       (run_task P (FollowUpTask (attempt_clientId a) (attempt_client a))).
Proof.
  intros Hne. destruct a as [clientId client n]. simpl in *.
  split; [intros; other_identity|]. split; [other_identity|]. split; [other_identity|].
  split; [intros; other_identity|]. split; [intros; other_identity|].
  split; [intros; other_identity|]. split; other_identity.
Qed.

End Isolation.

(** ** The events of an attempt *)

Section Events.
Context (P : Platform).

Lemma on_qr_returns a qr w :
  (qrCount a < 5)%nat ->
  exists w',
    on_qr P a qr w
    = (Ok (mkAttempt (attempt_clientId a) (attempt_client a) (S (qrCount a))), w')
    /\ clients w' = clients w.
Proof.
  intros Hc. unfold on_qr. rewrite bool_decide_eq_false_2 by lia.
  set (body := try_catch _ _).
  assert (preserves clients body) as Hp by (subst body; frame).
  assert (succeeds body) as Hs by (subst body; no_throw).
  destruct (Hs w) as ([] & w' & E). specialize (Hp w). rewrite E in Hp.
  exists w'. unfold bind, ret. by rewrite E.
Qed.

Lemma on_qr_issued a qr w :
  (qrCount a < 5)%nat ->
  faults w = [] ->
  exists w',
    on_qr P a qr w
    = (Ok (mkAttempt (attempt_clientId a) (attempt_client a) (S (qrCount a))), w')
    /\ qrCodes w' !! attempt_clientId a = Some (QRCode_toDataURL P qr)
    /\ persisted_status w' (attempt_clientId a) = Some qr_required
    /\ persisted_qrCode w' (attempt_clientId a) = Some (QRCode_toDataURL P qr)
    /\ notified P w w' (attempt_clientId a) "qr_code" (now w)
         (JObj [("qr", JStr (QRCode_toDataURL P qr));
                ("attempt", JNum (Z.of_nat (S (qrCount a))))]).
Proof.
  intros Hc Hf.
  unfold persisted_status, persisted_qrCode, notified.
  destruct w as [cl qc ic rt sm mm wm tm nt fl ob lg nw ft]. simpl in Hf. subst.
  unfold on_qr. rewrite bool_decide_eq_false_2 by lia.
  run_ser P.
  all: eexists; split; [reflexivity|]; run_goal.
  all: rewrite ?lookup_insert_eq; repeat split; try done.
  all: eexists; repeat split; reflexivity.
Qed.

Lemma on_qr_render_fails a qr w e rest :
  (qrCount a < 5)%nat ->
  faults w = Some e :: rest ->
  exists w',
    on_qr P a qr w
    = (Ok (mkAttempt (attempt_clientId a) (attempt_client a) (S (qrCount a))), w')
    /\ qrCodes w' = qrCodes w /\ sessionModel w' = sessionModel w
    /\ outbox w' = outbox w
    /\ last (logs w')
       = Some (mkLog ERROR
                 (error_line ("QR generation failed for " +:+ attempt_clientId a +:+ ":") e)).
Proof.
  intros Hc Hf. destruct w. simpl in Hf. subst.
  unfold on_qr. rewrite bool_decide_eq_false_2 by lia.
  run. eexists; split; [reflexivity|]; run_goal.
  repeat split; try done. apply last_snoc.
Qed.

(** X7. One of the first five QR events of an attempt (the counter of the
    closure is below 5 when the event arrives): the handler returns with the
    counter advanced by one and the handle kept.  When the environment
    answers every call, the rendered data URL is cached for the identity, the
    Session record holds [qr_required] with that payload, and one [qr_code]
    notification carrying the payload and the attempt number goes to the
    matching subscription, if there is one.  When the rendering fails, the
    error is logged and nothing else happens: nothing is cached, persisted or
    sent. *)
Theorem on_qr_within_five a qr w :
  (qrCount a < 5)%nat ->
  let clientId := attempt_clientId a in
  let count := S (qrCount a) in
  let qrDataUrl := QRCode_toDataURL P qr in
  exists w',
    on_qr P a qr w = (Ok (mkAttempt clientId (attempt_client a) count), w')
    /\ clients w' = clients w
    /\ (faults w = [] ->
        qrCodes w' !! clientId = Some qrDataUrl
        /\ persisted_status w' clientId = Some qr_required
        /\ persisted_qrCode w' clientId = Some qrDataUrl
        /\ notified P w w' clientId "qr_code" (now w)
             (JObj [("qr", JStr qrDataUrl); ("attempt", JNum (Z.of_nat count))]))
    /\ (forall e rest,
          faults w = Some e :: rest ->
          qrCodes w' = qrCodes w /\ sessionModel w' = sessionModel w
          /\ outbox w' = outbox w
          /\ last (logs w')
             = Some (mkLog ERROR
                       (error_line ("QR generation failed for " +:+ clientId +:+ ":") e))).
Proof.
  intros Hc clientId count qrDataUrl. subst clientId count qrDataUrl.
  destruct (on_qr_returns a qr w Hc) as (w' & E & Hcl).
  exists w'. split; [exact E|]. split; [exact Hcl|]. split.
  - intros Hf. destruct (on_qr_issued a qr w Hc Hf) as (w'' & E' & H).
    rewrite E in E'. injection E' as <-. exact H.
  - intros e rest Hf. destruct (on_qr_render_fails a qr w e rest Hc Hf) as (w'' & E' & H).
    rewrite E in E'. injection E' as <-. exact H.
Qed.

(** X8. The [ready] event for a client that has presence one second later,
    with the environment answering: the pending ready-timeout is disarmed,
    that is, the timer recorded for the identity leaves the queue of pending
    timers, no other timer is touched, none is armed, and the record of its
    id is dropped; the Session record becomes [connected] with the phone
    number of the account and the instant of the event, the cached QR is
    dropped, the handle is kept, and one [ready] notification with the phone
    number and the identity goes to the matching subscription, if there is
    one. *)
Theorem on_ready_with_presence a w i :
  faults w = [] ->
  Client.info (attempt_client a) (now w + 1000) = Some i ->
  let clientId := attempt_clientId a in
  let phoneNumber := phone_of (Some i) in
  exists w' d,
    on_ready P a w = (Ok tt, w')
    /\ now w' = now w + 1000
    /\ sessionModel w' !! clientId = Some d
    /\ Session.status d = connected
    /\ Session.lastActivity d = Some (now w + 1000)
    /\ (forall n, phoneNumber = Some n -> Session.phoneNumber d = Some n)
    /\ qrCodes w' !! clientId = None
    /\ readyTimeouts w' !! clientId = None
    /\ nextTimer w' = nextTimer w
    /\ timers w' = match readyTimeouts w !! clientId with
                   | Some id => filter (fun t => timer_id t ≠ id) (timers w)
                   | None => timers w
                   end
    /\ clients w' = clients w
    /\ notified P w w' clientId "ready" (now w + 1000)
         (JObj [("phoneNumber", json_opt phoneNumber); ("clientId", JStr clientId)]).
Proof.
  intros Hf Hi clientId phoneNumber. subst clientId phoneNumber. unfold notified.
  destruct w as [cl qc ic rt sm mm wm tm nt fl ob lg nw ft]. simpl in Hf, Hi. subst.
  unfold on_ready. run_goal.
  destruct (rt !! attempt_clientId a) eqn:Hrt; run_goal; rewrite Hi.
  all: destruct (wid i) eqn:Hw; simpl.
  all: run_ser P.
  all: eexists _, _; split; [reflexivity|]; run_goal.
  all: rewrite ?lookup_insert_eq, ?lookup_delete_eq; repeat split; try done.
  all: try (by intros ? [= <-]).
  all: try (eexists; repeat split; reflexivity).
  all: try (simpl; intros; by simplify_eq).
Qed.


(** X10. The [authenticated] event arms the ready-timeout: one timer due in
    60000 ms is added to the queue, whose callback is the ready-timeout of
    this identity and client, and its id is recorded for the identity.  No
    timer is removed, so a timeout recorded earlier for the identity stays in
    the queue while its id is overwritten.  The cached QR is dropped, the
    handle and the guard are kept, nothing is sent, and [connecting] is
    persisted when the store takes the write. *)
Theorem on_authenticated_arms_timeout a w :
  let clientId := attempt_clientId a in
  exists w',
    on_authenticated P a w = (Ok tt, w')
    /\ timers w'
       = (timers w ++ [mkTimer (nextTimer w) (now w + 60000)
                         (ReadyTimeoutTask clientId (attempt_client a))])%list
    /\ readyTimeouts w' !! clientId = Some (nextTimer w)
    /\ nextTimer w' = S (nextTimer w)
    /\ qrCodes w' !! clientId = None
    /\ clients w' = clients w
    /\ initializingClients w' = initializingClients w
    /\ outbox w' = outbox w
    /\ (next_call_succeeds w = true -> persisted_status w' clientId = Some connecting).
Proof.
  intros clientId. subst clientId.
  destruct w as [cl qc ic rt sm mm wm tm nt fl ob lg nw ft].
  unfold on_authenticated, next_call_succeeds, persisted_status. run.
  all: eexists; split; [reflexivity|]; run_goal.
  all: rewrite ?lookup_insert_eq, ?lookup_delete_eq; repeat split; done.
Qed.



(** The manual ready path, shared by the ready-timeout, the state check, the
    follow-up and [checkAndFixReadyState]: it never throws and always ends
    with no ready-timeout recorded for the identity. *)
Lemma handleManualReady_effect clientId client w :
  let phoneNumber := phone_of (Client.info client (now w)) in
  exists w',
    handleManualReady P clientId client w = (Ok tt, w')
    /\ clients w' = clients w
    /\ initializingClients w' = initializingClients w
    /\ qrCodes w' !! clientId = None
    /\ readyTimeouts w' !! clientId = None
    /\ nextTimer w' = nextTimer w
    /\ now w' = now w
    /\ (next_call_succeeds w = true ->
        exists d,
          sessionModel w' !! clientId = Some d
          /\ Session.status d = connected
          /\ Session.lastActivity d = Some (now w)
          /\ (forall n, phoneNumber = Some n -> Session.phoneNumber d = Some n))
    /\ (faults w = [] ->
        notified P w w' clientId "ready" (now w)
          (JObj [("phoneNumber", json_opt phoneNumber); ("clientId", JStr clientId)])).
Proof.
  intros phoneNumber. subst phoneNumber.
  destruct w as [cl qc ic rt sm mm wm tm nt fl ob lg nw ft].
  unfold handleManualReady, notified, next_call_succeeds, phone_of. run_goal.
  destruct (Client.info client nw) as [[[wd|]]|]; simpl.
  all: run_ser P.
  all: eexists; split; [reflexivity|]; run_goal.
  all: rewrite ?lookup_insert_eq, ?lookup_delete_eq; repeat split; try done.
  all: try (intros Hf; simplify_eq).
  all: try (eexists; rewrite ?lookup_insert_eq; repeat split; try done; intros; by simplify_eq).
  all: try (eexists; repeat split; reflexivity).
Qed.

End Events.

(** ** The timers of an attempt *)

Ltac use_manual_ready :=
  match goal with
  | |- context [handleManualReady ?P ?clientId ?client ?w0] =>
      destruct (handleManualReady_effect P clientId client w0)
        as (w1 & E & Hcl & Hic & Hqr & Hrt & Hnt & Hnow & Hper & Hnote);
      rewrite E
  end.

Ltac use_failure :=
  match goal with
  | |- context [handleInitializationFailure ?P ?clientId ?reason ?w0] =>
      destruct (handleInitializationFailure_converges P clientId reason w0)
        as (w1 & E & Hout & Hcl & Hqr & Hic & Hrt & Hper);
      rewrite E
  end.

Section Timers.
Context (P : Platform).

Lemma handleReadyTimeout_resolves clientId client w :
  exists w',
    handleReadyTimeout P clientId client w = (Ok tt, w')
    /\ readyTimeouts w' !! clientId = None
    /\ match Client.info client (now w), Client.getState client (now w) with
       | Some _, _ =>
           clients w' = clients w
           /\ (next_call_succeeds w = true -> persisted_status w' clientId = Some connected)
       | None, inl state =>
           if bool_decide (state = Some "CONNECTED") then
             timers w'
             = (timers w ++ [mkTimer (nextTimer w) (now w + 5000)
                               (FollowUpTask clientId client)])%list
             /\ clients w' = clients w /\ sessionModel w' = sessionModel w
           else
             clients w' !! clientId = None
             /\ (next_call_succeeds w = true ->
                 persisted_status w' clientId = Some disconnected)
       | None, inr _ =>
           clients w' !! clientId = None
           /\ (next_call_succeeds w = true ->
               persisted_status w' clientId = Some disconnected)
       end.
Proof.
  unfold handleReadyTimeout.
  destruct w as [cl qc ic rt sm mm wm tm nt fl ob lg nw ft].
  unfold persisted_status. js_core.
  destruct (Client.info client nw) as [i|]; [|destruct (Client.getState client nw) as [state|e]].
  - use_manual_ready. eexists. split; [reflexivity|]. destruct w1; simpl in *.
    rewrite lookup_delete_eq. repeat split; try done.
    intros Hn. destruct (Hper Hn) as (d & Hd & Hs & _). rewrite Hd; simpl; by rewrite Hs.
  - js_core. case_bool_decide.
    + js_core. eexists. split; [reflexivity|]. simpl.
      by rewrite lookup_delete_eq.
    + js_core. use_failure. eexists. split; [reflexivity|]. destruct w1; simpl in *.
      rewrite lookup_delete_eq. repeat split; try done.
  - js_core. use_failure. eexists. split; [reflexivity|]. destruct w1; simpl in *.
    rewrite lookup_delete_eq. repeat split; try done.
Qed.

Lemma follow_up_resolves clientId client w :
  exists w',
    run_task P (FollowUpTask clientId client) w = (Ok tt, w')
    /\ readyTimeouts w' !! clientId = None
    /\ match Client.info client (now w) with
       | Some _ =>
           clients w' = clients w
           /\ nextTimer w' = nextTimer w
           /\ (next_call_succeeds w = true -> persisted_status w' clientId = Some connected)
       | None =>
           clients w' !! clientId = None
           /\ last (timers w')
              = Some (mkTimer (nextTimer w) (now w + 3000) (RestartTask clientId))
           /\ (next_call_succeeds w = true ->
               persisted_status w' clientId = Some disconnected)
       end.
Proof.
  unfold run_task.
  destruct w as [cl qc ic rt sm mm wm tm nt fl ob lg nw ft].
  unfold persisted_status. js_core.
  destruct (Client.info client nw) as [i|] eqn:Hi; simpl.
  - use_manual_ready. js_core. eexists. split; [reflexivity|].
    repeat split; try done.
    intros Hn. destruct (Hper Hn) as (d & Hd & Hs & _). rewrite Hd; simpl; by rewrite Hs.
  - match goal with
    | |- context [restartSession P clientId ?w0] =>
        destruct (restartSession_effect P clientId w0)
          as (w1 & E & Hcl & Hqr & Hic & Hrt & Hper & Htm); rewrite E
    end.
    js_core. eexists. split; [reflexivity|]. repeat split; done.
Qed.

(** X13. The ready-timeout always resolves: its handler never throws and
    leaves no ready-timeout recorded for the identity.  A client with
    presence is treated as ready ([connected] is persisted when the store
    takes the write, the handle is kept).  Without presence, a client whose
    state is [CONNECTED] gets one follow-up check, queued 5000 ms later, and
    nothing else changes; in any other state, or when [getState] fails, the
    failure path runs: the handle is dropped and [disconnected] is persisted
    when the store takes the write.  The follow-up in turn either finds
    presence and treats the client as ready, or restarts the session: the
    handle is dropped, [disconnected] is persisted and the re-initialization
    is queued 3000 ms later. *)
Theorem ready_timeout_resolution clientId client w :
  (exists w',
     handleReadyTimeout P clientId client w = (Ok tt, w')
     /\ readyTimeouts w' !! clientId = None
     /\ match Client.info client (now w), Client.getState client (now w) with
        | Some _, _ =>
            clients w' = clients w
            /\ (next_call_succeeds w = true ->
                persisted_status w' clientId = Some connected)
        | None, inl state =>
            if bool_decide (state = Some "CONNECTED") then
              timers w'
              = (timers w ++ [mkTimer (nextTimer w) (now w + 5000)
                                (FollowUpTask clientId client)])%list
              /\ clients w' = clients w /\ sessionModel w' = sessionModel w
            else
              clients w' !! clientId = None
              /\ (next_call_succeeds w = true ->
                  persisted_status w' clientId = Some disconnected)
        | None, inr _ =>
            clients w' !! clientId = None
            /\ (next_call_succeeds w = true ->
                persisted_status w' clientId = Some disconnected)
        end)
  /\ (exists w',
        run_task P (FollowUpTask clientId client) w = (Ok tt, w')
        /\ readyTimeouts w' !! clientId = None
        /\ match Client.info client (now w) with
           | Some _ =>
               clients w' = clients w
               /\ nextTimer w' = nextTimer w
               /\ (next_call_succeeds w = true ->
                   persisted_status w' clientId = Some connected)
           | None =>
               clients w' !! clientId = None
               /\ last (timers w')
                  = Some (mkTimer (nextTimer w) (now w + 3000) (RestartTask clientId))
               /\ (next_call_succeeds w = true ->
                   persisted_status w' clientId = Some disconnected)
           end).
Proof.
  split; [apply handleReadyTimeout_resolves|apply follow_up_resolves].
Qed.

(** X14. A [change_state] event queues one state check, due in 3000 ms, when
    the new state is [CONNECTED] or [OPENING], and does nothing but log
    otherwise.  When the check runs it acts only if the client has presence
    and no ready-timeout is recorded for the identity: then the client is
    treated as ready ([connected] is persisted when the store takes the
    write).  With a ready-timeout pending, or without presence, the check
    leaves the world exactly as it is. *)
Theorem change_state_check a state w :
  let clientId := attempt_clientId a in
  let client := attempt_client a in
  (exists w',
     on_change_state a state w = (Ok tt, w')
     /\ sessionModel w' = sessionModel w /\ clients w' = clients w
     /\ readyTimeouts w' = readyTimeouts w /\ outbox w' = outbox w
     /\ timers w'
        = if String.eqb state "CONNECTED" || String.eqb state "OPENING"
          then (timers w ++ [mkTimer (nextTimer w) (now w + 3000)
                               (StateCheckTask clientId client state)])%list
          else timers w)
  /\ (exists w',
        run_task P (StateCheckTask clientId client state) w = (Ok tt, w')
        /\ match Client.info client (now w), readyTimeouts w !! clientId with
           | Some _, None =>
               clients w' = clients w
               /\ readyTimeouts w' !! clientId = None
               /\ (next_call_succeeds w = true ->
                   persisted_status w' clientId = Some connected)
           | _, _ => w' = w
           end).
Proof.
  intros clientId client. subst clientId client. split.
  - destruct w as [cl qc ic rt sm mm wm tm nt fl ob lg nw ft].
    unfold on_change_state. run_goal.
    destruct (String.eqb state "CONNECTED" || String.eqb state "OPENING"); run_goal.
    all: eexists; split; [reflexivity|]; done.
  - unfold run_task.
    destruct w as [cl qc ic rt sm mm wm tm nt fl ob lg nw ft].
    unfold persisted_status. js_core.
    destruct (Client.info (attempt_client a) nw) as [i|] eqn:Hi; simpl;
      destruct (rt !! attempt_clientId a) as [id|] eqn:Hr; simpl; eauto.
    use_manual_ready. js_core. eexists. split; [reflexivity|].
    split; [done|]. split; [done|].
    intros Hn. destruct (Hper Hn) as (d & Hd & Hs & _). rewrite Hd; simpl; by rewrite Hs.
Qed.

End Timers.

(** ** Messages *)

Section Messages.
Context (P : Platform).

Lemma count_after_create clientId (doc : Message.t) (l : list Message.t) :
  Message.clientId doc = clientId ->
  Z.of_nat (length (List.filter (of_client clientId) (l ++ [doc])))
  = Z.of_nat (length (List.filter (of_client clientId) l)) + 1.
Proof.
  intros <-. rewrite List.filter_app, length_app. simpl.
  unfold of_client at 2. rewrite String.eqb_refl. simpl. lia.
Qed.

Lemma handleIncomingMessage_records clientId message w :
  let doc := {| Message.clientId := clientId; Message.messageId := wa_id message;
                Message.from := wa_from message;
                Message.to := to_or (wa_to message) clientId;
                Message.body := wa_body message; Message.type := wa_type message;
                Message.status := "delivered"; Message.direction := "incoming" |} in
  faults w = [] ->
  exists w',
    handleIncomingMessage P clientId message w = (Ok tt, w')
    /\ match missing_paths doc with
       | [] =>
           exists d,
             messageModel w' = (messageModel w ++ [doc])%list
             /\ sessionModel w' !! clientId = Some d
             /\ Session.messageCount d
                = Z.of_nat (length (List.filter (of_client clientId) (messageModel w))) + 1
             /\ Session.lastActivity d = Some (now w)
             /\ Session.status d
                = Session.status (default Session.fresh (sessionModel w !! clientId))
             /\ notified P w w' clientId "message" (now w)
                  (JObj [("id", JStr (wa_id message)); ("from", JStr (wa_from message));
                         ("to", json_opt (wa_to message)); ("body", JStr (wa_body message));
                         ("type", JStr (wa_type message));
                         ("timestamp", JNum (wa_timestamp message))])
       | paths =>
           messageModel w' = messageModel w /\ sessionModel w' = sessionModel w
           /\ outbox w' = outbox w
           /\ logs w'
              = (logs w
                 ++ [mkLog ERROR (error_line "Failed to handle incoming message:"
                                    (validation_error paths))])%list
       end.
Proof.
  intros doc Hf. subst doc.
  destruct w as [cl qc ic rt sm mm wm tm nt fl ob lg nw ft]. simpl in Hf. subst.
  destruct message as [id from to body type ts].
  unfold handleIncomingMessage, notified, messageModel_create.
  destruct to as [to|]; simpl.
  all: match goal with |- context [missing_paths ?d] => destruct (missing_paths d) end.
  all: run_ser P.
  all: eexists; split; [reflexivity|]; run_goal.
  all: rewrite ?lookup_insert_eq; repeat split; try done.
  all: try (eexists; repeat split; try reflexivity; try done; try (by apply count_after_create)).
  all: try (eexists; repeat split; reflexivity).
Qed.

(** X15. An inbound message: the handler never throws and keeps the handle.
    Either no record was added, and then nothing else happened (no session
    update, no notification), or the document built from the message has all
    the paths the schema requires and was added as the one new record.  When
    the environment answers every call, the schema decides.  A message in
    which a required path is empty (a media message without caption has an
    empty body) is refused by the validation before any write: nothing is
    stored, no session is updated, no notification is sent, and the
    validation error is logged.  Otherwise the record has status [delivered],
    direction [incoming] and the fields of the message, its recipient being
    the identity itself when the message names none; the Session record of
    the identity (created if there was none) counts one message more than the
    identity had on record, carries the instant of the event as its last
    activity and keeps its status; and one [message] notification goes to the
    matching subscription, if there is one. *)
Theorem inbound_message_recorded clientId message w :
  let doc := {| Message.clientId := clientId; Message.messageId := wa_id message;
                Message.from := wa_from message;
                Message.to := to_or (wa_to message) clientId;
                Message.body := wa_body message; Message.type := wa_type message;
                Message.status := "delivered"; Message.direction := "incoming" |} in
  exists w',
    handleIncomingMessage P clientId message w = (Ok tt, w')
    /\ clients w' = clients w
    /\ ((messageModel w' = messageModel w /\ sessionModel w' = sessionModel w
         /\ outbox w' = outbox w)
        \/ (missing_paths doc = []
            /\ messageModel w' = (messageModel w ++ [doc])%list))
    /\ (faults w = [] ->
        match missing_paths doc with
        | [] =>
            exists d,
              messageModel w' = (messageModel w ++ [doc])%list
              /\ sessionModel w' !! clientId = Some d
              /\ Session.messageCount d
                 = Z.of_nat (length (List.filter (of_client clientId) (messageModel w))) + 1
              /\ Session.lastActivity d = Some (now w)
              /\ Session.status d
                 = Session.status (default Session.fresh (sessionModel w !! clientId))
              /\ notified P w w' clientId "message" (now w)
                   (JObj [("id", JStr (wa_id message)); ("from", JStr (wa_from message));
                          ("to", json_opt (wa_to message)); ("body", JStr (wa_body message));
                          ("type", JStr (wa_type message));
                          ("timestamp", JNum (wa_timestamp message))])
        | paths =>
            messageModel w' = messageModel w /\ sessionModel w' = sessionModel w
            /\ outbox w' = outbox w
            /\ logs w'
               = (logs w
                  ++ [mkLog ERROR (error_line "Failed to handle incoming message:"
                                     (validation_error paths))])%list
        end).
Proof.
  intros doc.
  assert (exists w', handleIncomingMessage P clientId message w = (Ok tt, w')
    /\ clients w' = clients w
    /\ ((messageModel w' = messageModel w /\ sessionModel w' = sessionModel w
         /\ outbox w' = outbox w)
        \/ (missing_paths doc = []
            /\ messageModel w' = (messageModel w ++ [doc])%list))) as (w' & E & Hc & Hm).
  { subst doc. destruct w as [cl qc ic rt sm mm wm tm nt fl ob lg nw ft].
    unfold handleIncomingMessage. run.
    all: eexists; split; [reflexivity|]; run_goal; split; [done|].
    all: first [ by left | right; by split ]. }
  exists w'. split; [exact E|]. split; [exact Hc|]. split; [exact Hm|].
  intros Hf.
  destruct (handleIncomingMessage_records clientId message w Hf) as (w'' & E' & H).
  rewrite E in E'. injection E' as <-. exact H.
Qed.

(** X16. A send for an identity whose client has presence (at once, or after
    the grace period of 2000 ms), with the environment answering: the chat id
    is the recipient as given when it contains [@], and the recipient
    followed by [@c.us] otherwise, and the client is asked to send before the
    record is validated.  When the client refuses, the call throws the
    client's error under the prefix "Failed to send message: ", whatever the
    record would have been.  When the client accepts and the record has all
    the paths the schema requires, the call returns success with the id the
    client gave; exactly one record is added, with direction [outgoing],
    status [sent], the account's own id as sender and the chat id as
    recipient; the Session record counts one message more and carries the
    instant of the send; no webhook request is made.  When the client accepts
    and a required path is empty (an empty message text, for one), the
    message has gone out, but the call throws the validation error under the
    same prefix.  In both failures no record is added and no session is
    updated. *)
Theorem sendMessage_delivers clientId to message type w client i wd :
  let t := if is_Some_b (Client.info client (now w)) then now w else now w + 2000 in
  let chatId := if includes_at to then to else to +:+ "@c.us" in
  clients w !! clientId = Some client ->
  Client.info client t = Some i ->
  wid i = Some wd ->
  faults w = [] ->
  match Client.sendMessage client chatId message t with
  | inl sentId =>
      let doc := {| Message.clientId := clientId; Message.messageId := sentId;
                    Message.from := _serialized wd; Message.to := chatId;
                    Message.body := message; Message.type := type;
                    Message.status := "sent"; Message.direction := "outgoing" |} in
      match missing_paths doc with
      | [] =>
          exists w' d,
            sendMessage P clientId to message type w
            = (Ok {| send_success := true; send_messageId := sentId;
                     send_message := "Message sent successfully" |}, w')
            /\ now w' = t
            /\ messageModel w' = (messageModel w ++ [doc])%list
            /\ sessionModel w' !! clientId = Some d
            /\ Session.messageCount d
               = Z.of_nat (length (List.filter (of_client clientId) (messageModel w))) + 1
            /\ Session.lastActivity d = Some t
            /\ outbox w' = outbox w
      | paths =>
          exists w',
            sendMessage P clientId to message type w
            = (Throw ("Failed to send message: " +:+ validation_error paths), w')
            /\ now w' = t
            /\ messageModel w' = messageModel w
            /\ sessionModel w' = sessionModel w
            /\ outbox w' = outbox w
      end
  | inr e =>
      exists w',
        sendMessage P clientId to message type w
        = (Throw ("Failed to send message: " +:+ e), w')
        /\ now w' = t
        /\ messageModel w' = messageModel w
        /\ sessionModel w' = sessionModel w
        /\ outbox w' = outbox w
  end.
Proof.
  intros t chatId Hc Hi Hw Hf. subst t chatId.
  destruct w as [cl qc ic rt sm mm wm tm nt fl ob lg nw ft]. simpl in *. subst.
  unfold sendMessage, messageModel_create. run_goal. rewrite Hc.
  destruct (Client.info client nw) as [i0|] eqn:Hi0; simpl in *; run_goal.
  all: rewrite ?Hi; run_goal.
  all: match goal with |- context [Client.sendMessage ?c ?a ?b ?t] =>
         destruct (Client.sendMessage c a b t) as [sentId|e] end.
  all: run_goal; rewrite ?Hi, ?Hw; run_goal.
  all: try match goal with |- context [missing_paths ?d] => destruct (missing_paths d) end.
  all: run_goal.
  all: try (eexists _, _; split; [reflexivity|]; run_goal;
            rewrite lookup_insert_eq; repeat split; try done; by apply count_after_create).
  all: eexists; split; [reflexivity|]; done.
Qed.

(** X17. A send for an identity whose client has no presence, neither at the
    call nor 2000 ms later, fails with "Client not ready" under the prefix
    "Failed to send message: " after exactly that grace period; the client is
    not asked to send, no record is created and no session is updated. *)
Theorem sendMessage_not_ready clientId to message type w client :
  clients w !! clientId = Some client ->
  Client.info client (now w) = None ->
  Client.info client (now w + 2000) = None ->
  exists w',
    sendMessage P clientId to message type w
    = (Throw ("Failed to send message: " +:+ not_ready), w')
    /\ now w' = now w + 2000
    /\ messageModel w' = messageModel w
    /\ sessionModel w' = sessionModel w
    /\ faults w' = faults w.
Proof.
  intros Hc H0 H1.
  destruct w as [cl qc ic rt sm mm wm tm nt fl ob lg nw ft]. simpl in *.
  unfold sendMessage. run_goal. rewrite Hc, H0. run_goal. rewrite H1. run_goal.
  eexists. split; [reflexivity|]. done.
Qed.

Lemma sendMessage_result clientId to message type w :
  match sendMessage P clientId to message type w with
  | (Ok r, _) => send_success r = true
  | (Throw e, _) => exists cause, e = "Failed to send message: " +:+ cause
  end.
Proof.
  destruct w as [cl qc ic rt sm mm wm tm nt fl ob lg nw ft].
  unfold sendMessage. run.
  all: eauto.
Qed.

(** X18. Whatever the client and the environment do, [sendMessage] reports
    success only after exactly one outgoing record of the identity, with the
    id it returns, has been added to the store; and every failure is an error
    whose message starts with "Failed to send message: " and leaves the
    Session records untouched.  A failure does not mean that nothing was
    sent: at most one record has been added by then. *)
Theorem sendMessage_commit clientId to message type w :
  match sendMessage P clientId to message type w with
  | (Ok r, w') =>
      send_success r = true
      /\ exists doc,
           messageModel w' = (messageModel w ++ [doc])%list
           /\ Message.clientId doc = clientId
           /\ Message.messageId doc = send_messageId r
           /\ Message.direction doc = "outgoing"
  | (Throw e, w') =>
      (exists cause, e = "Failed to send message: " +:+ cause)
      /\ sessionModel w' = sessionModel w
      /\ (messageModel w' = messageModel w
          \/ exists doc, messageModel w' = (messageModel w ++ [doc])%list)
  end.
Proof.
  destruct w as [cl qc ic rt sm mm wm tm nt fl ob lg nw ft].
  unfold sendMessage. run.
  all: repeat split; eauto.
Qed.

End Messages.

(** ** The status query *)

Section StatusQuery.

(** X19. [getSessionStatus] is a read: whether it returns or throws, the
    registry, the collections, the timers, the files, the clock and the
    outbox are as before, and it throws only when the lookup of the Session
    record fails.  The phone number and the last activity it reports are
    those of the stored record; the client state is what [getState] answers
    now, and "unknown" both without a handle and when [getState] fails. *)
Theorem getSessionStatus_read_only clientId w :
  match getSessionStatus clientId w with
  | (Ok s, w') =>
      same_service_state w w' /\ outbox w' = outbox w
      /\ snap_phoneNumber s = sessionModel w !! clientId ≫= Session.phoneNumber
      /\ snap_lastActivity s = sessionModel w !! clientId ≫= Session.lastActivity
      /\ snap_clientState s
         = match clients w !! clientId with
           | Some c =>
               match Client.getState c (now w) with
               | inl state => state
               | inr _ => Some "unknown"
               end
           | None => Some "unknown"
           end
  | (Throw e, w') =>
      same_service_state w w' /\ outbox w' = outbox w /\ head (faults w) = Some (Some e)
  end.
Proof.
  unfold same_service_state.
  destruct w as [cl qc ic rt sm mm wm tm nt fl ob lg nw ft].
  unfold getSessionStatus. run.
  all: repeat split; done.
Qed.

End StatusQuery.

(** ** Subscriptions *)

Section Subscriptions.
Context (P : Platform).

Lemma find_update_first (p : Webhook.t -> bool) f l :
  (forall h, p h = true -> p (f h) = true) ->
  List.find p (update_first p f l) = f <$> List.find p l.
Proof.
  intros Hp. induction l as [|h l IH]; simpl; [done|].
  destruct (p h) eqn:E; simpl.
  - by rewrite (Hp h E).
  - by rewrite E.
Qed.

Lemma find_snoc (p : Webhook.t -> bool) l h :
  List.find p l = None -> List.find p (l ++ [h]) = if p h then Some h else None.
Proof.
  induction l as [|x l IH]; simpl; [done|].
  destruct (p x); [done|]. exact IH.
Qed.

Lemma find_none_filter (p : Webhook.t -> bool) l :
  List.find p l = None -> List.filter p l = [].
Proof.
  induction l as [|x l IH]; simpl; [done|].
  destruct (p x); [done|]. exact IH.
Qed.

Lemma find_some_filter (p : Webhook.t -> bool) l h :
  List.find p l = Some h -> (0 < length (List.filter p l))%nat.
Proof.
  induction l as [|x l IH]; simpl; [done|].
  destruct (p x); simpl; [lia|]. exact IH.
Qed.

Lemma filter_update_first (p q : Webhook.t -> bool) f l :
  (forall h, p h = true -> q (f h) = q h) ->
  length (List.filter q (update_first p f l)) = length (List.filter q l).
Proof.
  intros Hq. induction l as [|h l IH]; simpl; [done|].
  destruct (p h) eqn:E; simpl.
  - rewrite (Hq h E). by destruct (q h).
  - destruct (q h); simpl; by rewrite IH.
Qed.

Lemma filter_other_update_first (p q : Webhook.t -> bool) f l :
  (forall h, p h = true -> q h = false /\ q (f h) = false) ->
  List.filter q (update_first p f l) = List.filter q l.
Proof.
  intros Hq. induction l as [|h l IH]; simpl; [done|].
  destruct (p h) eqn:E; simpl.
  - destruct (Hq h E) as [-> ->]. done.
  - destruct (q h); simpl; by rewrite IH.
Qed.

Lemma for_client_eq clientId h : for_client clientId h = true <-> Webhook.clientId h = clientId.
Proof. unfold for_client. by rewrite String.eqb_eq. Qed.

Lemma for_client_other clientId other h :
  other <> clientId -> for_client clientId h = true -> for_client other h = false.
Proof.
  intros Hne H. apply for_client_eq in H. unfold for_client.
  apply String.eqb_neq. congruence.
Qed.

Lemma createWebhook_returns clientId d w :
  faults w = [] ->
  exists h w1,
    createWebhook clientId d w = (Ok h, w1)
    /\ getWebhook clientId w1 = (Ok (Some h), w1)
    /\ Webhook.url h = data_url d
    /\ (forall b, data_enabled d = Some b -> Webhook.enabled h = b)
    /\ (forall events, data_events d = Some events -> Webhook.events h = events)
    /\ faults w1 = [] /\ outbox w1 = outbox w /\ now w1 = now w.
Proof.
  intros Hf.
  destruct w as [cl qc ic rt sm mm wm tm nt fl ob lg nw ft]. simpl in Hf. subst.
  unfold createWebhook, getWebhook. run_goal.
  destruct (List.find (for_client clientId) wm) as [h0|] eqn:Hfind; run_goal.
  - eexists _, _. split; [reflexivity|]. run_goal.
    rewrite find_update_first, Hfind by done.
    repeat split; try done.
    + intros b Hb. unfold apply_data. simpl. by rewrite Hb.
    + intros ev Hb. unfold apply_data. simpl. by rewrite Hb.
  - eexists _, _. split; [reflexivity|]. run_goal.
    rewrite (find_snoc _ _ _ Hfind). simpl.
    unfold for_client at 1. simpl. rewrite String.eqb_refl.
    repeat split; try done.
    + intros b Hb. unfold apply_data. simpl. by rewrite Hb.
    + intros ev Hb. unfold apply_data. simpl. by rewrite Hb.
Qed.

(** X20. [createWebhook] followed by [getWebhook], with the store answering:
    the document returned by the first is the one the second finds; it
    belongs to the identity and carries the URL, and the [enabled] flag and
    the event filter when the request gives them.  The upsert never adds a
    second document for an identity that has one (the number of documents of
    the identity becomes 1 if it was 0 and stays as it is otherwise), and the
    documents of every other identity, the Session records and the registry
    are untouched. *)
Theorem createWebhook_round_trip clientId d w :
  faults w = [] ->
  exists h w1,
    createWebhook clientId d w = (Ok h, w1)
    /\ getWebhook clientId w1 = (Ok (Some h), w1)
    /\ Webhook.clientId h = clientId
    /\ Webhook.url h = data_url d
    /\ (forall b, data_enabled d = Some b -> Webhook.enabled h = b)
    /\ (forall events, data_events d = Some events -> Webhook.events h = events)
    /\ length (List.filter (for_client clientId) (webhookModel w1))
       = Nat.max 1 (length (List.filter (for_client clientId) (webhookModel w)))
    /\ (forall other, other <> clientId ->
        List.filter (for_client other) (webhookModel w1)
        = List.filter (for_client other) (webhookModel w))
    /\ sessionModel w1 = sessionModel w /\ clients w1 = clients w.
Proof.
  intros Hf.
  destruct w as [cl qc ic rt sm mm wm tm nt fl ob lg nw ft]. simpl in Hf. subst.
  unfold createWebhook, getWebhook. run_goal.
  destruct (List.find (for_client clientId) wm) as [h0|] eqn:Hfind; run_goal.
  - eexists _, _. split; [reflexivity|]. run_goal.
    rewrite find_update_first, Hfind by done.
    pose proof (find_some _ _ Hfind) as [_ Hh0]. apply for_client_eq in Hh0.
    repeat split; try done.
    + intros b Hb. unfold apply_data. simpl. by rewrite Hb.
    + intros ev Hb. unfold apply_data. simpl. by rewrite Hb.
    + rewrite filter_update_first by done.
      apply find_some_filter in Hfind. lia.
    + intros other Hne. apply filter_other_update_first.
      intros h Hh. split; by eapply for_client_other.
  - eexists _, _. split; [reflexivity|]. run_goal.
    rewrite (find_snoc _ _ _ Hfind). simpl.
    unfold for_client at 1. simpl. rewrite String.eqb_refl.
    repeat split; try done.
    + intros b Hb. unfold apply_data. simpl. by rewrite Hb.
    + intros ev Hb. unfold apply_data. simpl. by rewrite Hb.
    + rewrite List.filter_app, length_app, (find_none_filter _ _ Hfind). simpl.
      unfold for_client. simpl. by rewrite String.eqb_refl.
    + intros other Hne. rewrite List.filter_app. simpl.
      unfold for_client at 2. simpl.
      replace (String.eqb clientId other) with false; [by rewrite app_nil_r|].
      symmetry. apply String.eqb_neq. congruence.
Qed.

Lemma webhook_filter_for_client clientId event h :
  webhook_filter clientId event h = true -> for_client clientId h = true.
Proof. unfold webhook_filter, for_client. by intros [[H _]%andb_prop _]%andb_prop. Qed.

(** The first document of an identity is the first match of the dispatcher's
    filter when that document is enabled and takes every event. *)
Lemma find_filter_first clientId event l h :
  List.find (for_client clientId) l = Some h ->
  Webhook.enabled h = true -> Webhook.events h = [] ->
  List.find (webhook_filter clientId event) l = Some h.
Proof.
  induction l as [|x l IH]; simpl; [done|].
  destruct (for_client clientId x) eqn:E.
  - intros [= ->] He Hv. unfold webhook_filter. unfold for_client in E.
    rewrite E, He, Hv. rewrite (bool_decide_eq_true_2 (_ = _)) by done.
    by rewrite orb_true_r.
  - intros Hf He Hv.
    destruct (webhook_filter clientId event x) eqn:E2.
    + apply webhook_filter_for_client in E2. congruence.
    + by apply IH.
Qed.

(** X21. Registering a URL the way the controller does ([enabled: true],
    [events: []]) subscribes the identity to every event: with the
    environment answering, a notification of any event with a serializable
    payload, sent right after, makes exactly one request, to that URL, with
    the envelope of the event as payload, whatever document the identity had
    before. *)
Theorem createWebhook_subscribes clientId url secret event data w :
  faults w = [] ->
  serializable data = true ->
  exists h w1 w2 p,
    createWebhook clientId
      {| data_url := url; data_enabled := Some true; data_events := Some [];
         data_secret := secret |} w = (Ok h, w1)
    /\ sendWebhook P clientId event data w1 = (Ok tt, w2)
    /\ outbox w2 = (outbox w ++ [p])%list
    /\ post_url p = url
    /\ post_payload p = envelope P event clientId (now w) data.
Proof.
  intros Hf Hs.
  set (d := {| data_url := url; data_enabled := Some true; data_events := Some [];
               data_secret := secret |}).
  destruct (createWebhook_returns clientId d w Hf)
    as (h & w1 & E & Eg & Hu & He & Hv & Hf1 & Ho & Hn).
  assert (List.find (webhook_filter clientId event) (webhookModel w1) = Some h) as Hfind.
  { apply find_filter_first; [|by apply He|by apply Hv].
    revert Eg. unfold getWebhook. destruct w1. simpl in Hf1. subst. run_goal. congruence. }
  destruct (sendWebhook_notifies P clientId event data w1 Hf1 Hs)
    as (w2 & E2 & _ & _ & Hnote).
  unfold notified in Hnote. rewrite Hfind in Hnote. destruct Hnote as (p & Hp1 & Hp2 & Hp3).
  exists h, w1, w2, p. simpl in Hu.
  split; [done|]. split; [done|]. split; [by rewrite Hp1, Ho|].
  split; [by rewrite Hp2|]. by rewrite Hp3, Hn.
Qed.

Lemma remove_first_none (p : Webhook.t -> bool) l :
  (length (List.filter p l) <= 1)%nat -> List.filter p (remove_first p l) = [].
Proof.
  induction l as [|x l IH]; simpl; [done|].
  destruct (p x) eqn:E; simpl.
  - intros H. destruct (List.filter p l); [done|simpl in H; lia].
  - rewrite E. exact IH.
Qed.

Lemma filter_nil_find (p q : Webhook.t -> bool) l :
  (forall h, q h = true -> p h = true) -> List.filter p l = [] -> List.find q l = None.
Proof.
  intros Hpq. induction l as [|x l IH]; simpl; [done|].
  destruct (p x) eqn:E; [done|].
  destruct (q x) eqn:E2; [|exact IH].
  apply Hpq in E2. congruence.
Qed.

(** X22. [deleteWebhook] for an identity with at most one document (what
    [createWebhook] maintains), with the store answering: the count it returns
    is the number of documents the identity had; afterwards [getWebhook]
    finds nothing and a notification of any event for the identity is a
    no-op, the world being exactly as the delete left it; the documents of
    every other identity are untouched. *)
Theorem deleteWebhook_unsubscribes clientId event data w :
  faults w = [] ->
  (length (List.filter (for_client clientId) (webhookModel w)) <= 1)%nat ->
  exists w1,
    deleteWebhook clientId w
    = (Ok (length (List.filter (for_client clientId) (webhookModel w))), w1)
    /\ getWebhook clientId w1 = (Ok None, w1)
    /\ sendWebhook P clientId event data w1 = (Ok tt, w1)
    /\ (forall other, other <> clientId ->
        List.filter (for_client other) (webhookModel w1)
        = List.filter (for_client other) (webhookModel w)).
Proof.
  intros Hf Hone.
  exists (with_webhookModel (remove_first (for_client clientId)) w).
  destruct w as [cl qc ic rt sm mm wm tm nt fl ob lg nw ft]. simpl in *. subst.
  pose proof (remove_first_none _ _ Hone) as Hnil.
  unfold deleteWebhook, getWebhook. run_goal.
  split; [|split; [|split]].
  - f_equal. f_equal.
    destruct (List.find (for_client clientId) wm) as [h|] eqn:Hfind; simpl.
    + apply find_some_filter in Hfind. lia.
    + by rewrite (find_none_filter _ _ Hfind).
  - by rewrite (filter_nil_find _ _ _ (fun h H => H) Hnil).
  - run_goal.
    by rewrite (filter_nil_find _ _ _ (webhook_filter_for_client clientId event) Hnil).
  - intros other Hne. clear Hnil Hone.
    induction wm as [|x l IH]; simpl; [done|].
    destruct (for_client clientId x) eqn:E; simpl.
    + by rewrite (for_client_other clientId other x Hne E).
    + destruct (for_client other x); by rewrite IH.
Qed.

End Subscriptions.

(** ** Queries *)

Section Queries.

(** X23. [getMessages], with the store answering, is a read that returns
    only stored messages of the identity: as many as the identity has beyond
    the offset, and no more than the limit when the limit is positive.
    Consecutive pages tile: the page of [n] messages at offset 0 followed by
    the page of [m] messages at offset [n] is the page of [n + m] messages at
    offset 0, so paging by the limit neither skips nor repeats a message. *)
Theorem getMessages_pages clientId limit offset w :
  faults w = [] ->
  let stored := List.filter (of_client clientId) (messageModel w) in
  exists l,
    getMessages clientId limit offset w = (Ok l, w)
    /\ Forall (fun m => Message.clientId m = clientId /\ m ∈ messageModel w) l
    /\ length l = (if decide (limit = 0%nat) then length stored - offset
                   else limit `min` (length stored - offset))%nat
    /\ forall n m,
         (0 < n)%nat -> (0 < m)%nat ->
         exists first second,
           getMessages clientId n 0 w = (Ok first, w)
           /\ getMessages clientId m n w = (Ok second, w)
           /\ getMessages clientId (n + m) 0 w = (Ok (first ++ second)%list, w).
Proof.
  intros Hf stored. subst stored.
  destruct w as [cl qc ic rt sm mm wm tm nt fl ob lg nw ft]. simpl in Hf. subst.
  unfold getMessages. run_goal. eexists. split; [reflexivity|].
  set (l := List.rev (List.filter (of_client clientId) mm)).
  assert (Forall (fun m => Message.clientId m = clientId /\ m ∈ mm) l) as Hall.
  { apply Forall_forall. intros m Hm. subst l.
    apply list_elem_of_In, in_rev, filter_In in Hm as [Hin Hc].
    split; [by apply String.eqb_eq|by apply list_elem_of_In]. }
  assert (length l = length (List.filter (of_client clientId) mm)) as Hlen
    by (subst l; apply length_rev).
  split; [|split].
  - unfold page. destruct limit as [|n]; [by apply Forall_drop|].
    apply Forall_take. by apply Forall_drop.
  - unfold page. destruct limit as [|n]; simpl decide.
    + by rewrite length_drop, Hlen.
    + by rewrite length_take, length_drop, Hlen.
  - intros n m Hn Hm. eexists _, _. split; [reflexivity|]. split; [reflexivity|].
    f_equal. f_equal. unfold page.
    destruct n as [|n]; [lia|]. destruct m as [|m]; [lia|].
    rewrite !drop_0. symmetry. apply take_take_drop.
Qed.

Lemma later_first_total : Total later_first.
Proof.
  intros a b. unfold later_first.
  destruct (Session.lastActivity a.2), (Session.lastActivity b.2); try tauto. lia.
Qed.

Lemma later_first_transitive : Transitive later_first.
Proof.
  intros a b c. unfold later_first.
  destruct (Session.lastActivity a.2), (Session.lastActivity b.2),
    (Session.lastActivity c.2); try tauto. lia.
Qed.

(** X24. [getAllSessions], with the store answering, is a read that returns
    one row per stored Session record (the identities of the rows are those
    of the collection, each once), ordered by last activity, latest first and
    records without one last.  Each row carries the status and the message
    count of its record; its [connected] flag is true exactly when the
    registry holds a handle with presence for the identity, whatever the
    stored status says; and its [isInitializing] flag is the guard. *)
Theorem getAllSessions_rows w :
  faults w = [] ->
  exists rows,
    getAllSessions w = (Ok rows, w)
    /\ StronglySorted
         (fun a b => not_earlier (row_lastActivity a) (row_lastActivity b)) rows
    /\ row_clientId <$> rows ≡ₚ (map_to_list (sessionModel w)).*1
    /\ Forall (fun r =>
         (exists d,
            sessionModel w !! row_clientId r = Some d
            /\ row_status r = Session.status d
            /\ row_messageCount r = Session.messageCount d)
         /\ (row_connected r = true <-> live_presence w (row_clientId r))
         /\ row_isInitializing r = bool_decide (row_clientId r ∈ initializingClients w))
         rows.
Proof.
  intros Hf.
  destruct w as [cl qc ic rt sm mm wm tm nt fl ob lg nw ft]. simpl in Hf. subst.
  unfold getAllSessions. run_goal. eexists. split; [reflexivity|].
  set (w := mkWorld cl qc ic rt sm mm wm tm nt fl ob lg nw []).
  set (sorted := merge_sort later_first (map_to_list sm)).
  assert (sorted ≡ₚ map_to_list sm) as Hperm by apply merge_sort_Permutation.
  change (List.map ?f ?l) with (f <$> l).
  split; [|split].
  - apply (StronglySorted_fmap _ later_first).
    + intros x y H. exact H.
    + apply StronglySorted_merge_sort; [apply later_first_transitive|apply later_first_total].
  - rewrite <- list_fmap_compose. change (row_clientId ∘ _) with (@fst string Session.t).
    by rewrite Hperm.
  - apply Forall_fmap, Forall_forall. intros [k d] Hin. simpl.
    rewrite Hperm in Hin. apply elem_of_map_to_list in Hin.
    split; [by exists d|]. split; [|done].
    unfold live_presence. simpl. destruct (cl !! k) as [c|] eqn:Hc.
    + destruct (Client.info c nw) as [i|] eqn:Hi; simpl.
      * split; [|done]. intros _. by exists c, i.
      * split; [done|]. intros (c' & i & ? & ?). by simplify_eq.
    + split; [done|]. by intros (c & i & ? & ?).
Qed.

End Queries.

(** ** Recovery *)

Section Recovery.
Context (P : Platform).

Lemma restore_each_succeeds ids : succeeds (restore_each P ids).
Proof.
  induction ids as [|clientId rest IH]; simpl.
  - apply succeeds_ret.
  - apply succeeds_bind; [apply succeeds_modify|intros _].
    apply succeeds_bind; [apply initSession_succeeds|intros _]. exact IH.
Qed.

Lemma restore_each_other ids other :
  other ∉ ids ->
  preserves (fun w => identity_view w other) (restore_each P ids).
Proof.
  induction ids as [|clientId rest IH]; simpl; intros Hn.
  - apply preserves_ret.
  - apply not_elem_of_cons in Hn as [Hne Hn].
    apply preserves_bind; [apply preserves_modify; by intros []|intros _].
    apply preserves_bind; [by apply initSession_other|intros _]. by apply IH.
Qed.

Lemma connected_ids (sessions : gmap string Session.t) clientId :
  clientId ∈ (List.filter (fun d : string * Session.t =>
                             bool_decide (Session.status d.2 = connected))
                (map_to_list sessions)).*1 ->
  Session.status <$> sessions !! clientId = Some connected.
Proof.
  intros ((k & d) & -> & Hin)%list_elem_of_fmap. simpl.
  apply list_elem_of_In, filter_In in Hin as [Hin Hs].
  apply list_elem_of_In, elem_of_map_to_list in Hin. rewrite Hin. simpl.
  f_equal. by apply bool_decide_eq_true in Hs.
Qed.

(** X25. [restoreSessions] never throws, whatever the store and the clients
    do, and it only restarts what was persisted as [connected]: for every
    identity whose stored status is not [connected] (or that has no record),
    the handle, the cached QR, the ready-timeout, the guard and the Session
    record are after the restoration as they were before it. *)
Theorem restoreSessions_scope w :
  exists w',
    restoreSessions P w = (Ok tt, w')
    /\ forall other,
         persisted_status w other <> Some connected ->
         identity_view w' other = identity_view w other.
Proof.
  unfold restoreSessions, sessionModel_find_connected, persisted_status.
  destruct w as [cl qc ic rt sm mm wm tm nt fl ob lg nw ft].
  js_core. destruct ft as [|[e|] rest]; js_core.
  2: { eexists. split; [reflexivity|]. done. }
  all: match goal with
       | |- context [restore_each P ?ids ?w0] =>
           destruct (restore_each_succeeds ids w0) as ([] & w1 & E);
           pose proof (fun other H => restore_each_other ids other H w0) as Ho;
           rewrite E in *
       end.
  all: exists w1; split; [done|]; intros other Hs.
  all: simpl in Ho; rewrite Ho; [done|].
  all: intros Hin; apply Hs; by apply connected_ids.
Qed.

(** X26. [checkAndFixReadyState] never throws.  Without a handle it answers
    [{false, 'Client not found'}] and changes nothing.  When [getState]
    fails, the answer carries the error and neither the Session records nor
    the registry change.  When the state is [CONNECTED] or the client has
    presence, and no ready-timeout is recorded for the identity, the client
    is treated as ready: the answer is [{true, 'Ready state fixed
    manually'}] and [connected] is persisted when the store takes the write,
    also for a client that is [CONNECTED] without presence.  Otherwise (a
    ready-timeout is pending, or neither condition holds) the answer is a
    failure and nothing is persisted. *)
Theorem checkAndFixReadyState_cases clientId w :
  exists r w',
    checkAndFixReadyState P clientId w = (Ok r, w')
    /\ match clients w !! clientId with
       | None => r = {| success := false; message := "Client not found" |} /\ w' = w
       | Some client =>
           match Client.getState client (now w) with
           | inr e =>
               r = {| success := false; message := e |}
               /\ sessionModel w' = sessionModel w /\ clients w' = clients w
           | inl state =>
               if (bool_decide (state = Some "CONNECTED")
                   || is_Some_b (Client.info client (now w)))
                  && negb (is_Some_b (readyTimeouts w !! clientId))
               then
                 r = {| success := true; message := "Ready state fixed manually" |}
                 /\ clients w' = clients w
                 /\ (next_call_succeeds w = true ->
                     persisted_status w' clientId = Some connected)
               else
                 success r = false
                 /\ sessionModel w' = sessionModel w /\ clients w' = clients w
           end
       end.
Proof.
  unfold checkAndFixReadyState, persisted_status.
  destruct w as [cl qc ic rt sm mm wm tm nt fl ob lg nw ft]. js_core.
  destruct (cl !! clientId) as [client|]; js_core; [|by eexists _, _].
  destruct (Client.getState client nw) as [state|e]; js_core; [|by eexists _, _].
  destruct (_ && _) eqn:Hc.
  - use_manual_ready. js_core. eexists _, _. split; [reflexivity|].
    repeat split; try done.
    intros Hn. destruct (Hper Hn) as (d & Hd & Hs & _). rewrite Hd; simpl; by rewrite Hs.
  - js_core. by eexists _, _.
Qed.

End Recovery.

(** ** The routes of the controller *)

Section Routes.
Context (P : Platform).

Lemma deleteSession_failure clientId w e w' :
  deleteSession P clientId w = (Throw e, w') ->
  exists cause, e = "Failed to delete session: " +:+ cause.
Proof.
  destruct w as [cl qc ic rt sm mm wm tm nt fl ob lg nw ft].
  unfold deleteSession. run.
  all: intros [= <- <-]; eauto.
Qed.

(** X27. [POST sessions] never lets an error of the session start through:
    [initSession] always returns, and its result is the body of the reply when
    the request names no webhook.  With a webhook, the reply is that same
    result once the URL is registered for the identity, enabled and for every
    event; the only error the route answers with is the one of a failed
    registration, with status 500, and by then the session start has already
    run: the registry and the Session record of the identity are as
    [initSession] left them. *)
Theorem controller_createSession_replies dto w :
  let clientId := dto_clientId dto in
  exists r w1 reply w',
    initSession P clientId w = (Ok r, w1)
    /\ controller_createSession P dto w = (Ok reply, w')
    /\ match truthy (dto_webhook dto), reply with
       | None, _ => reply = Replied r /\ w' = w1
       | Some url, Replied r' =>
           r' = r
           /\ exists h,
                List.find (for_client clientId) (webhookModel w') = Some h
                /\ Webhook.url h = url /\ Webhook.enabled h = true
                /\ Webhook.events h = []
       | Some url, HttpException e status =>
           status = 500 /\ head (faults w1) = Some (Some e)
           /\ webhookModel w' = webhookModel w1
           /\ identity_view w' clientId = identity_view w1 clientId
       end.
Proof.
  intros clientId. subst clientId.
  destruct (initSession_succeeds P (dto_clientId dto) w) as (r & w1 & E).
  exists r, w1. unfold controller_createSession, try_catch, bind. rewrite E.
  destruct (truthy (dto_webhook dto)) as [url|]; [|by eexists _, _].
  destruct w1 as [cl qc ic rt sm mm wm tm nt fl ob lg nw ft].
  unfold createWebhook. run.
  all: eexists _, _; split; [done|]; split; [reflexivity|]; run_goal.
  all: try done.
  all: split; [done|].
  all: eexists; split;
    [ match goal with
      | H : List.find _ _ = Some _ |- _ =>
          rewrite find_update_first by done; rewrite H; reflexivity
      | H : List.find _ _ = None |- _ =>
          rewrite (find_snoc _ _ _ H); simpl;
          unfold for_client; simpl; rewrite String.eqb_refl; reflexivity
      end
    | done ].
Qed.

(** X28. The two routes that translate errors never throw, and their
    handlers run exactly once.  [POST sessions/:id/messages] (the type
    defaults to "text") replies with the result of [sendMessage], which is a
    success, or with status 400 and a message that starts with "Failed to
    send message: "; [DELETE sessions/:id] replies with the result of
    [deleteSession], which is a success, or with status 500 and a message
    that starts with "Failed to delete session: ". *)
Theorem controller_error_statuses clientId dto w :
  (exists reply,
     controller_sendMessage P clientId dto w
     = (Ok reply, (sendMessage P clientId (dto_to dto) (dto_message dto)
                     (match truthy (dto_type dto) with Some t => t | None => "text" end)
                     w).2)
     /\ match reply with
        | Replied r => send_success r = true
        | HttpException e status =>
            status = 400 /\ exists cause, e = "Failed to send message: " +:+ cause
        end)
  /\ (exists reply,
        controller_deleteSession P clientId w = (Ok reply, (deleteSession P clientId w).2)
        /\ match reply with
           | Replied r => success r = true
           | HttpException e status =>
               status = 500 /\ exists cause, e = "Failed to delete session: " +:+ cause
           end).
Proof.
  split.
  - unfold controller_sendMessage, try_catch, bind, ret.
    set (type := match truthy (dto_type dto) with Some t => t | None => "text" end).
    pose proof (sendMessage_result P clientId (dto_to dto) (dto_message dto) type w) as H.
    destruct (sendMessage P clientId (dto_to dto) (dto_message dto) type w)
      as [[r|e] w1]; simpl; eexists; (split; [reflexivity|]); simpl; tauto.
  - unfold controller_deleteSession, try_catch, bind, ret.
    pose proof (deleteSession_effect P clientId w) as H.
    pose proof (deleteSession_failure clientId w) as H'.
    destruct (deleteSession P clientId w) as [[r|e] w1]; simpl;
      eexists; (split; [reflexivity|]); simpl.
    + destruct H as [-> _]. done.
    + split; [done|]. by eapply H'.
Qed.

End Routes.

(** ** The directories of the sessions *)

Section Paths.
Context (P : Platform).

Lemma append_cons c s t : String c s +:+ t = String c (s +:+ t).
Proof. reflexivity. Qed.

Lemma append_empty_r s : s +:+ EmptyString = s.
Proof. induction s as [|c s IH]; [done|]. rewrite append_cons. by f_equal. Qed.

Lemma append_assoc a b c : (a +:+ b) +:+ c = a +:+ (b +:+ c).
Proof. induction a as [|x a IH]; [done|]. rewrite !append_cons. by f_equal. Qed.

Lemma split_slash_append a b : forall acc,
  split_slash acc (a +:+ String "/" b)
  = (split_slash acc a ++ split_slash EmptyString b)%list.
Proof.
  induction a as [|c a IH]; intros acc; [done|].
  rewrite append_cons. simpl.
  destruct (N_of_ascii c =? 47)%N; simpl; by rewrite IH.
Qed.

Lemma rev_app_rev_app s : forall a b,
  String.rev_app (String.rev_app s a) b = String.rev_app a (s +:+ b).
Proof.
  induction s as [|c s IH]; intros a b; [done|].
  rewrite append_cons. simpl. by rewrite IH.
Qed.

Lemma split_slash_segment s : forall acc,
  includes_slash s = false ->
  split_slash acc s = [String.rev (String.rev_app s acc)].
Proof.
  induction s as [|c s IH]; intros acc; simpl; [done|].
  destruct (N_of_ascii c =? 47)%N; simpl; [done|]. apply IH.
Qed.

Lemma split_slash_one s :
  includes_slash s = false -> split_slash EmptyString s = [s].
Proof.
  intros H. rewrite (split_slash_segment s _ H). unfold String.rev.
  by rewrite rev_app_rev_app, append_empty_r.
Qed.

Lemma normalize_append l1 : forall stack l2,
  normalize stack (l1 ++ l2) = normalize (List.rev (normalize stack l1)) l2.
Proof.
  induction l1 as [|seg l1 IH]; intros stack l2; simpl.
  - by rewrite List.rev_involutive.
  - destruct (String.eqb seg EmptyString); [apply IH|].
    destruct (String.eqb seg "."); [apply IH|].
    destruct (String.eqb seg ".."); apply IH.
Qed.

Lemma concat_snoc l seg :
  l <> [] -> String.concat "/" (l ++ [seg]) = String.concat "/" l +:+ String "/" seg.
Proof.
  induction l as [|x l IH]; [done|]. intros _.
  destruct l as [|y l]; [done|].
  change (String.concat "/" ((x :: y :: l) ++ [seg]))
    with (x +:+ String "/" (String.concat "/" ((y :: l) ++ [seg]))).
  rewrite IH by done.
  change (String.concat "/" (x :: y :: l))
    with (x +:+ String "/" (String.concat "/" (y :: l))).
  by rewrite append_assoc.
Qed.

Lemma prefix_append a b : String.prefix a (a +:+ b) = true.
Proof.
  induction a as [|c a IH]; [by destruct b|].
  rewrite append_cons. simpl. by destruct (ascii_dec c c).
Qed.

(** The segments of the sessions directory. *)
Lemma sessionsDir_segments :
  normalize [] (split_slash EmptyString (cwd P +:+ "/" +:+ "./wa-sessions"))
  = (normalize [] (split_slash EmptyString (cwd P)) ++ ["wa-sessions"])%list.
Proof.
  change ("/" +:+ "./wa-sessions") with (String "/" "./wa-sessions").
  rewrite split_slash_append, normalize_append. simpl.
  by rewrite List.rev_involutive.
Qed.

(** The directory of an identity whose name has no slash is the entry
    [session-<identity>] of the sessions directory. *)
Lemma sessionPath_inside clientId :
  includes_slash clientId = false ->
  sessionPath P clientId = sessionsDir P +:+ "/session-" +:+ clientId
  /\ within (sessionsDir P) (sessionPath P clientId) = true.
Proof.
  intros Hs.
  assert (sessionPath P clientId = sessionsDir P +:+ "/session-" +:+ clientId) as E.
  { unfold sessionPath, sessionsDir, path_resolve. simpl.
    change (?a +:+ "/" +:+ "session-" +:+ clientId)
      with (a +:+ String "/" ("session-" +:+ clientId)).
    rewrite split_slash_append, normalize_append.
    change (cwd P +:+ String "/" "./wa-sessions") with (cwd P +:+ "/" +:+ "./wa-sessions").
    rewrite sessionsDir_segments.
    rewrite (split_slash_one ("session-" +:+ clientId)) by done.
    simpl. rewrite List.rev_involutive.
    rewrite concat_snoc by (by destruct (normalize _ _)).
    by rewrite !append_assoc. }
  split; [done|]. rewrite E. unfold within.
  change (sessionsDir P +:+ "/session-" +:+ clientId)
    with (sessionsDir P +:+ "/" +:+ "session-" +:+ clientId).
  rewrite <- (append_assoc (sessionsDir P) "/").
  by rewrite prefix_append, orb_true_r.
Qed.

Lemma prefix_split x : forall q, String.prefix x q = true -> exists r, q = x +:+ r.
Proof.
  induction x as [|c x IH]; intros q H; [by exists q|].
  destruct q as [|d q]; [done|]. simpl in H.
  destruct (ascii_dec c d) as [->|]; [|done].
  destruct (IH q H) as [r ->]. by exists r.
Qed.

(** [q] is [p] followed by nothing or by a slash and more. *)
Lemma within_split p q :
  within p q = true -> exists r, q = p +:+ r /\ (r = EmptyString \/ exists r', r = String "/" r').
Proof.
  unfold within. intros [H|H]%orb_prop.
  - apply String.eqb_eq in H as ->. exists EmptyString. by rewrite append_empty_r; auto.
  - apply prefix_split in H as [r ->]. exists (String "/" r).
    rewrite append_assoc. eauto.
Qed.

Lemma segment_unique u : forall v ra rb,
  includes_slash u = false -> includes_slash v = false ->
  (ra = EmptyString \/ exists r, ra = String "/" r) ->
  (rb = EmptyString \/ exists r, rb = String "/" r) ->
  u +:+ ra = v +:+ rb -> u = v.
Proof.
  induction u as [|x u IH]; intros v ra rb Hu Hv Ha Hb E.
  - destruct v as [|c v]; [done|]. simpl in Hv. apply orb_false_elim in Hv as [Hc _].
    change (EmptyString +:+ ra) with ra in E. rewrite append_cons in E.
    destruct Ha as [->|[r ->]]; [done|]. injection E as <- _.
    by vm_compute in Hc.
  - simpl in Hu. apply orb_false_elim in Hu as [Hx Hu].
    destruct v as [|c v].
    + change (EmptyString +:+ rb) with rb in E. rewrite append_cons in E.
      destruct Hb as [->|[r ->]]; [done|]. injection E as -> _.
      by vm_compute in Hx.
    + simpl in Hv. apply orb_false_elim in Hv as [_ Hv].
      rewrite !append_cons in E. injection E as -> E. f_equal.
      exact (IH v ra rb Hu Hv Ha Hb E).
Qed.

Lemma directories_disjoint clientId other q :
  includes_slash clientId = false -> includes_slash other = false ->
  clientId <> other ->
  within (sessionPath P other) q = true -> within (sessionPath P clientId) q = false.
Proof.
  intros Hc Ho Hne Hq.
  destruct (within (sessionPath P clientId) q) eqn:Hq'; [|done].
  destruct Hne.
  apply within_split in Hq as (rb & -> & Hb). apply within_split in Hq' as (ra & E & Ha).
  rewrite (proj1 (sessionPath_inside clientId Hc)),
    (proj1 (sessionPath_inside other Ho)) in E.
  rewrite !append_assoc in E. apply String.app_inj in E.
  rewrite <- !append_assoc in E.
  change ("/session-" +:+ ?x) with (String "/" ("session-" +:+ x)) in E.
  rewrite !append_cons in E. injection E as E.
  change (EmptyString +:+ other) with other in E.
  change (EmptyString +:+ clientId) with clientId in E.
  symmetry. by eapply (segment_unique other clientId rb ra).
Qed.

Lemma filter_disjoint (p q : string -> bool) (l : list string) :
  (forall x, p x = true -> q x = false) ->
  List.filter p (List.filter (fun x => negb (q x)) l) = List.filter p l.
Proof.
  intros H. induction l as [|x l IH]; simpl; [done|].
  destruct (q x) eqn:Eq; simpl.
  - destruct (p x) eqn:Ep; [|done]. apply H in Ep. congruence.
  - destruct (p x); by rewrite IH.
Qed.

(** What [deleteSession] removes from the disk when it returns: the path
    [./wa-sessions/session-<identity>] with everything below it, if that path
    exists, and nothing otherwise.  Every other path stays, the directory of
    the strategy [new LocalAuth({ clientId })] included when it lies
    elsewhere. *)
Lemma deleteSession_files clientId w :
  match deleteSession P clientId w with
  | (Ok _, w') =>
      files w'
      = if bool_decide (sessionPath P clientId ∈ files w)
        then List.filter (fun q => negb (within (sessionPath P clientId) q)) (files w)
        else files w
  | (Throw _, _) => True
  end.
Proof.
  destruct w as [cl qc ic rt sm mm wm tm nt fl ob lg nw ft].
  unfold deleteSession. run_goal.
  destruct (bool_decide (sessionPath P clientId ∈ fl)) eqn:E; run.
  all: try exact I. all: try congruence. all: reflexivity.
Qed.

(** X29. For identities whose names have no slash, the directory of an
    identity is the entry [session-<identity>] of the sessions directory
    [<cwd>/wa-sessions], whatever the working directory, and the directories
    of two identities are disjoint: [deleteSession] of one identity, whether
    it returns or throws, removes neither the directory of another identity
    nor any file below it. *)
Theorem deleteSession_keeps_other_directories clientId other :
  includes_slash clientId = false -> includes_slash other = false ->
  clientId <> other ->
  sessionPath P clientId = sessionsDir P +:+ "/session-" +:+ clientId
  /\ within (sessionsDir P) (sessionPath P clientId) = true
  /\ preserves (fun w => List.filter (within (sessionPath P other)) (files w))
       (deleteSession P clientId).
Proof.
  intros Hc Ho Hne.
  destruct (sessionPath_inside clientId Hc) as [E Hw].
  split; [exact E|]. split; [exact Hw|].
  repeat other_step.
  intros []. simpl. apply filter_disjoint.
  intros q. by apply directories_disjoint.
Qed.

Lemma includes_slash_rev_app a : forall b,
  includes_slash (String.rev_app a b) = includes_slash a || includes_slash b.
Proof.
  induction a as [|c a IH]; intros b; simpl; [done|].
  rewrite IH. simpl. by destruct (N_of_ascii c =? 47)%N, (includes_slash a).
Qed.

Lemma split_slash_segments s : forall acc,
  includes_slash acc = false ->
  Forall (fun seg => includes_slash seg = false) (split_slash acc s).
Proof.
  induction s as [|c s IH]; intros acc Ha; simpl.
  - constructor; [|done]. unfold String.rev. by rewrite includes_slash_rev_app, Ha.
  - destruct (N_of_ascii c =? 47)%N eqn:Hc.
    + constructor; [|by apply IH].
      unfold String.rev. by rewrite includes_slash_rev_app, Ha.
    + apply IH. simpl. by rewrite Hc.
Qed.

Lemma normalize_plain l : forall stack,
  Forall (fun seg => includes_slash seg = false) l ->
  Forall (fun seg => plain_segment seg = true) stack ->
  Forall (fun seg => plain_segment seg = true) (normalize stack l).
Proof.
  induction l as [|seg l IH]; intros stack Hl Hs; simpl.
  - by apply Forall_rev.
  - apply Forall_cons in Hl as [Hseg Hl].
    destruct (String.eqb seg EmptyString) eqn:E1; [by apply IH|].
    destruct (String.eqb seg ".") eqn:E2; [by apply IH|].
    destruct (String.eqb seg "..") eqn:E3.
    + apply IH; [done|]. destruct stack; [done|]. by apply Forall_cons in Hs as [_ Hs].
    + apply IH; [done|]. constructor; [|done].
      unfold plain_segment. by rewrite E1, E2, E3, Hseg.
Qed.

Lemma normalize_plain_id l : forall stack,
  Forall (fun seg => plain_segment seg = true) l ->
  normalize stack l = (List.rev stack ++ l)%list.
Proof.
  induction l as [|seg l IH]; intros stack Hl; simpl.
  - by rewrite app_nil_r.
  - apply Forall_cons in Hl as [Hseg Hl]. unfold plain_segment in Hseg.
    apply andb_prop in Hseg as [[[E1 E2]%andb_prop E3]%andb_prop _].
    apply negb_true_iff in E1, E2, E3. rewrite E1, E2, E3, IH by done.
    simpl. by rewrite <- app_assoc.
Qed.

Lemma split_slash_concat segs :
  Forall (fun seg => plain_segment seg = true) segs -> segs <> [] ->
  split_slash EmptyString (String.concat "/" segs) = segs.
Proof.
  assert (forall seg, plain_segment seg = true -> includes_slash seg = false) as Hp.
  { intros seg [_ H]%andb_prop. by apply negb_true_iff in H. }
  induction segs as [|x segs IH]; [done|]. intros [Hx Hs]%Forall_cons _.
  destruct segs as [|y segs]; [by apply split_slash_one, Hp|].
  change (String.concat "/" (x :: y :: segs))
    with (x +:+ String "/" (String.concat "/" (y :: segs))).
  rewrite split_slash_append, IH, split_slash_one by auto. done.
Qed.

Lemma last_ancestors segs : forall prefix,
  segs <> [] ->
  last (ancestors prefix segs) = Some (prefix +:+ "/" +:+ String.concat "/" segs).
Proof.
  induction segs as [|x segs IH]; [done|]. intros prefix _.
  destruct segs as [|y segs]; [done|].
  change (ancestors prefix (x :: y :: segs))
    with ((prefix +:+ "/" +:+ x) :: ancestors (prefix +:+ "/" +:+ x) (y :: segs)).
  rewrite last_cons, IH by done.
  change (String.concat "/" (x :: y :: segs))
    with (x +:+ "/" +:+ String.concat "/" (y :: segs)).
  by rewrite !append_assoc.
Qed.

(** [mkdirSync] of the sessions directory makes the directory itself. *)
Lemma sessionsDir_made :
  sessionsDir P
  ∈ ancestors EmptyString (normalize [] (split_slash EmptyString (sessionsDir P))).
Proof.
  set (segs := (normalize [] (split_slash EmptyString (cwd P)) ++ ["wa-sessions"])%list).
  assert (sessionsDir P = "/" +:+ String.concat "/" segs) as E.
  { unfold sessionsDir, path_resolve. simpl. by rewrite sessionsDir_segments. }
  assert (Forall (fun seg => plain_segment seg = true) segs) as Hplain.
  { apply Forall_app. split; [|by repeat constructor].
    apply normalize_plain; [by apply split_slash_segments|done]. }
  assert (segs <> []) as Hne by (subst segs; by destruct (normalize _ _)).
  rewrite E at 2. change ("/" +:+ ?x) with (String "/" x). simpl.
  rewrite split_slash_concat by done. simpl.
  rewrite normalize_plain_id by done. simpl.
  pose proof (last_ancestors segs EmptyString Hne) as Hl.
  apply last_Some in Hl as [l' Hl]. rewrite Hl, E.
  apply elem_of_app. right. by apply list_elem_of_singleton.
Qed.

(** X30. [ensureSessionsDirectory] throws only when the creation of the
    directory fails, and then the files are as before.  When it returns, the
    sessions directory [<cwd>/wa-sessions] exists, whatever the working
    directory; no file that existed has been removed; nothing at all changes
    if the directory was already there; and a second call is a no-op. *)
Theorem ensureSessionsDirectory_creates w :
  match ensureSessionsDirectory P w with
  | (Ok _, w') =>
      sessionsDir P ∈ files w'
      /\ (exists made, files w' = (files w ++ made)%list)
      /\ (sessionsDir P ∈ files w -> w' = w)
      /\ ensureSessionsDirectory P w' = (Ok tt, w')
  | (Throw e, w') => files w' = files w /\ head (faults w) = Some (Some e)
  end.
Proof.
  destruct w as [cl qc ic rt sm mm wm tm nt fl ob lg nw ft].
  unfold ensureSessionsDirectory. run_goal.
  destruct (bool_decide (sessionsDir P ∈ fl)) eqn:Hd; run_goal.
  - apply bool_decide_eq_true in Hd. rewrite bool_decide_eq_true_2 by done.
    repeat split; try done. by exists []; rewrite app_nil_r.
  - apply bool_decide_eq_false in Hd.
    assert (sessionsDir P
            ∈ (fl ++ List.filter (fun q => negb (bool_decide (q ∈ fl)))
                       (ancestors EmptyString
                          (normalize [] (split_slash EmptyString (sessionsDir P)))))%list)
      as Hin.
    { apply elem_of_app. right. apply list_elem_of_In, filter_In. split.
      - apply list_elem_of_In, sessionsDir_made.
      - by rewrite bool_decide_eq_false_2. }
    destruct ft as [|[e|] rest]; run_goal; [| done |].
    all: rewrite bool_decide_eq_true_2 by done.
    all: repeat split; eauto; done.
Qed.

End Paths.

(** ** The properties above on the worked examples *)

(** A second start request once the first has run to its end. *)
Lemma initSession_connected_is_noop_witness :
  ("A" ∉ initializingClients session_started)
  /\ clients session_started !! "A" = Some (example_client "A")
  /\ Client.info (example_client "A") (now session_started) = Some example_info
  /\ initSession example_platform "A" session_started
     = (Ok {| init_success := true; init_status := "connected" |}, session_started).
Proof.
  assert ("A" ∉ initializingClients session_started) as Hg
    by (apply (bool_decide_eq_false_1 ("A" ∈ initializingClients session_started)); vm_compute; reflexivity).
  assert (clients session_started !! "A" = Some (example_client "A")) as Hc
    by (vm_compute; reflexivity).
  assert (Client.info (example_client "A") (now session_started) = Some example_info)
    as Hi by (vm_compute; reflexivity).
  split; [exact Hg|]. split; [exact Hc|]. split; [exact Hi|].
  exact (initSession_connected_is_noop example_platform "A" session_started
           (example_client "A") example_info Hg Hc Hi).
Defined.

(** The first start of identity [A]: the example client initializes in
    ninety seconds, and its first QR code is issued while the call waits.
    The call answers [connecting]; the record says [qr_required]. *)
Lemma initSession_fresh_start_witness :
  ("A" ∉ initializingClients empty_world)
  /\ clients empty_world !! "A" = None
  /\ faults empty_world = []
  /\ exists w1 w',
       initSession_suspend example_platform "A" empty_world
       = (Ok (inr (example_client "A", 1700000000000)), w1)
       /\ persisted_status w1 "A" = Some connecting
       /\ initSession_during example_platform qr_while_waiting "A" empty_world
          = (Ok {| init_success := true; init_status := "connecting" |}, w')
       /\ sessionModel w' = sessionModel (qr_while_waiting w1)
       /\ persisted_status w' "A" = Some qr_required
       /\ now w' = 1700000090000.
Proof.
  assert ("A" ∉ initializingClients empty_world) as Hg by apply not_elem_of_empty.
  split; [exact Hg|]. split; [reflexivity|]. split; [reflexivity|].
  destruct (initSession_fresh_start example_platform qr_while_waiting "A" empty_world
              Hg eq_refl eq_refl)
    as (w1 & E1 & _ & _ & Hp & _ & _ & _ & r & w' & E & _ & _ & H).
  change (r = {| init_success := true; init_status := "connecting" |}
          /\ clients w' = clients (qr_while_waiting w1)
          /\ sessionModel w' = sessionModel (qr_while_waiting w1)
          /\ qrCodes w' = qrCodes (qr_while_waiting w1)
          /\ readyTimeouts w' = readyTimeouts (qr_while_waiting w1)
          /\ now w' = Z.max (now empty_world + 90000) (now (qr_while_waiting w1))) in H.
  destruct H as (-> & _ & Hs & _ & _ & Hn).
  exists w1, w'. split; [exact E1|]. split; [exact Hp|]. split; [exact E|].
  split; [exact Hs|].
  assert (w1 = (initSession_suspend example_platform "A" empty_world).2) as Hw
    by (rewrite E1; reflexivity).
  split.
  - unfold persisted_status. rewrite Hs, Hw. vm_compute. reflexivity.
  - rewrite Hn, Hw. vm_compute. reflexivity.
Defined.

(** The same start with a [disconnected] event during the wait: the call
    answers [{true, 'connecting'}] for an identity that has no handle and
    whose record says [disconnected]. *)
Example initSession_logout_while_waiting :
  let '(r, w') := initSession_during example_platform logout_while_waiting "A" empty_world in
  r = Ok {| init_success := true; init_status := "connecting" |}
  /\ clients w' !! "A" = None
  /\ persisted_status w' "A" = Some disconnected
  /\ bool_decide ("A" ∈ initializingClients w') = false.
Proof. vm_compute. repeat split; reflexivity. Qed.

(** The wait with the QR event, in full. *)
Example initSession_qr_while_waiting :
  let '(r, w') := initSession_during example_platform qr_while_waiting "A" empty_world in
  r = Ok {| init_success := true; init_status := "connecting" |}
  /\ persisted_status w' "A" = Some qr_required
  /\ persisted_qrCode w' "A" = Some "data:image/png;base64,2@k9"
  /\ qrCodes w' !! "A" = Some "data:image/png;base64,2@k9"
  /\ is_Some_b (clients w' !! "A") = true.
Proof. vm_compute. repeat split; reflexivity. Qed.

(** Identities [A] and [B]. *)
Lemma methods_leave_other_identities_witness :
  "A" <> "B"
  /\ preserves (fun w => identity_view w "B") (initSession example_platform "A")
  /\ preserves (fun w => identity_view w "B") (deleteSession example_platform "A").
Proof.
  assert ("A" <> "B") as Hne by discriminate.
  destruct (methods_leave_other_identities example_platform "A" "B" Hne)
    as (H1 & _ & _ & H4 & _).
  split; [exact Hne|]. split; [exact H1|exact H4].
Defined.

Lemma events_leave_other_identities_witness :
  attempt_clientId first_attempt <> "B"
  /\ preserves (fun w => identity_view w "B") (on_ready example_platform first_attempt).
Proof.
  assert (attempt_clientId first_attempt <> "B") as Hne by discriminate.
  destruct (events_leave_other_identities example_platform first_attempt "B" Hne)
    as (_ & _ & H3 & _).
  split; [exact Hne|exact H3].
Defined.

(** The first QR code of the attempt of the examples. *)
Lemma on_qr_within_five_witness :
  (qrCount first_attempt < 5)%nat
  /\ faults first_call_suspended = []
  /\ exists w',
       on_qr example_platform first_attempt "2@k9" first_call_suspended
       = (Ok (mkAttempt "A" (example_client "A") 1), w')
       /\ qrCodes w' !! "A" = Some "data:image/png;base64,2@k9"
       /\ persisted_status w' "A" = Some qr_required.
Proof.
  assert (qrCount first_attempt < 5)%nat as Hc by (simpl; lia).
  split; [exact Hc|]. split; [reflexivity|].
  destruct (on_qr_within_five example_platform first_attempt "2@k9" first_call_suspended Hc)
    as (w' & E & _ & H & _).
  destruct (H eq_refl) as (Hq & Hs & _).
  exists w'. split; [exact E|]. split; [exact Hq|exact Hs].
Defined.

(** The [ready] event six seconds into the first start, and at its
    beginning. *)
Lemma on_ready_with_presence_witness :
  faults ready_event_due = []
  /\ Client.info (attempt_client first_attempt) (now ready_event_due + 1000)
     = Some example_info
  /\ readyTimeouts ready_event_due !! "A" = Some 0%nat
  /\ (timer_id <$> timers ready_event_due) = [0%nat]
  /\ exists w' d,
       on_ready example_platform first_attempt ready_event_due = (Ok tt, w')
       /\ sessionModel w' !! "A" = Some d
       /\ Session.status d = connected
       /\ Session.phoneNumber d = Some "15550001"
       /\ readyTimeouts w' !! "A" = None
       /\ timers w' = [].
Proof.
  assert (Client.info (attempt_client first_attempt) (now ready_event_due + 1000)
          = Some example_info) as Hi by (vm_compute; reflexivity).
  split; [reflexivity|]. split; [exact Hi|].
  split; [vm_compute; reflexivity|]. split; [vm_compute; reflexivity|].
  destruct (on_ready_with_presence example_platform first_attempt ready_event_due
              example_info eq_refl Hi)
    as (w' & d & E & _ & Hd & Hs & _ & Hp & _ & Hr & _ & Ht & _).
  exists w', d. split; [exact E|]. split; [exact Hd|]. split; [exact Hs|].
  split; [apply Hp; reflexivity|]. split; [exact Hr|].
  rewrite Ht. vm_compute. reflexivity.
Defined.


(** A send six seconds into the first start, and at its beginning. *)
Lemma sendMessage_delivers_witness :
  clients presence_before_ready !! "A" = Some (example_client "A")
  /\ faults presence_before_ready = []
  /\ exists w',
       sendMessage example_platform "A" "15550002" "hi" "text" presence_before_ready
       = (Ok {| send_success := true; send_messageId := "true_15550002@c.us_3EB0";
                send_message := "Message sent successfully" |}, w')
       /\ messageModel w'
          = [{| Message.clientId := "A"; Message.messageId := "true_15550002@c.us_3EB0";
                Message.from := "15550001@c.us"; Message.to := "15550002@c.us";
                Message.body := "hi"; Message.type := "text";
                Message.status := "sent"; Message.direction := "outgoing" |}].
Proof.
  assert (clients presence_before_ready !! "A" = Some (example_client "A")) as Hc
    by (vm_compute; reflexivity).
  split; [exact Hc|]. split; [reflexivity|].
  destruct (sendMessage_delivers example_platform "A" "15550002" "hi" "text"
              presence_before_ready (example_client "A") example_info
              (mkWid "15550001" "15550001@c.us") Hc eq_refl eq_refl eq_refl)
    as (w' & d & E & _ & Hm & _).
  exists w'. split; [exact E|exact Hm].
Defined.

Lemma sendMessage_not_ready_witness :
  clients first_call_suspended !! "A" = Some (example_client "A")
  /\ Client.info (example_client "A") (now first_call_suspended) = None
  /\ Client.info (example_client "A") (now first_call_suspended + 2000) = None
  /\ exists w',
       sendMessage example_platform "A" "15550002" "hi" "text" first_call_suspended
       = (Throw ("Failed to send message: " +:+ not_ready), w')
       /\ now w' = now first_call_suspended + 2000
       /\ messageModel w' = messageModel first_call_suspended.
Proof.
  assert (clients first_call_suspended !! "A" = Some (example_client "A")) as Hc
    by (vm_compute; reflexivity).
  assert (Client.info (example_client "A") (now first_call_suspended) = None) as H0
    by (vm_compute; reflexivity).
  assert (Client.info (example_client "A") (now first_call_suspended + 2000) = None) as H1
    by (vm_compute; reflexivity).
  split; [exact Hc|]. split; [exact H0|]. split; [exact H1|].
  destruct (sendMessage_not_ready example_platform "A" "15550002" "hi" "text"
              first_call_suspended (example_client "A") Hc H0 H1)
    as (w' & E & Hn & Hm & _).
  exists w'. split; [exact E|]. split; [exact Hn|exact Hm].
Defined.

(** The subscription of identity [A] is registered, used and removed. *)
Lemma createWebhook_round_trip_witness :
  faults empty_world = []
  /\ exists h w1,
       createWebhook "A" example_data empty_world = (Ok h, w1)
       /\ getWebhook "A" w1 = (Ok (Some h), w1)
       /\ Webhook.url h = "https://hooks.example/wa"
       /\ length (List.filter (for_client "A") (webhookModel w1)) = 1%nat.
Proof.
  split; [reflexivity|].
  destruct (createWebhook_round_trip "A" example_data empty_world eq_refl)
    as (h & w1 & E & Eg & _ & Hu & _ & _ & Hl & _).
  exists h, w1. split; [exact E|]. split; [exact Eg|]. split; [exact Hu|exact Hl].
Defined.

Lemma createWebhook_subscribes_witness :
  faults empty_world = []
  /\ serializable ready_data = true
  /\ exists h w1 w2 p,
       createWebhook "A" example_data empty_world = (Ok h, w1)
       /\ sendWebhook example_platform "A" "ready" ready_data w1 = (Ok tt, w2)
       /\ outbox w2 = [p]
       /\ post_url p = "https://hooks.example/wa".
Proof.
  split; [reflexivity|]. split; [reflexivity|].
  destruct (createWebhook_subscribes example_platform "A" "https://hooks.example/wa" None
              "ready" ready_data empty_world eq_refl eq_refl)
    as (h & w1 & w2 & p & E & E2 & Ho & Hu & _).
  exists h, w1, w2, p. split; [exact E|]. split; [exact E2|]. split; [exact Ho|exact Hu].
Defined.

Lemma deleteWebhook_unsubscribes_witness :
  faults first_call_suspended = []
  /\ (length (List.filter (for_client "A") (webhookModel first_call_suspended)) <= 1)%nat
  /\ exists w1,
       deleteWebhook "A" first_call_suspended = (Ok 1%nat, w1)
       /\ getWebhook "A" w1 = (Ok None, w1)
       /\ sendWebhook example_platform "A" "ready" ready_data w1 = (Ok tt, w1).
Proof.
  assert (length (List.filter (for_client "A") (webhookModel first_call_suspended)) <= 1)%nat
    as Hone by (vm_compute; lia).
  split; [reflexivity|]. split; [exact Hone|].
  destruct (deleteWebhook_unsubscribes example_platform "A" "ready" ready_data
              first_call_suspended eq_refl Hone) as (w1 & E & Eg & Es & _).
  exists w1. split; [exact E|]. split; [exact Eg|exact Es].
Defined.

(** The messages of identity [A] in the populated world, one per page. *)
Lemma getMessages_pages_witness :
  faults populated = []
  /\ exists l,
       getMessages "A" 1 0 populated = (Ok l, populated)
       /\ length l = 1%nat
       /\ exists first second,
            getMessages "A" 1 0 populated = (Ok first, populated)
            /\ getMessages "A" 1 1 populated = (Ok second, populated)
            /\ getMessages "A" 2 0 populated = (Ok (first ++ second)%list, populated).
Proof.
  split; [reflexivity|].
  destruct (getMessages_pages "A" 1 0 populated eq_refl) as (l & E & _ & Hl & Ht).
  exists l. split; [exact E|]. split; [exact Hl|].
  apply (Ht 1%nat 1%nat); lia.
Defined.

(** The sessions of the world in which the first QR code has been issued. *)
Lemma getAllSessions_rows_witness :
  faults qr_issued = []
  /\ exists rows,
       getAllSessions qr_issued = (Ok rows, qr_issued)
       /\ row_clientId <$> rows ≡ₚ (map_to_list (sessionModel qr_issued)).*1.
Proof.
  split; [reflexivity|].
  destruct (getAllSessions_rows qr_issued eq_refl) as (rows & E & _ & Hp & _).
  exists rows. split; [exact E|exact Hp].
Defined.

(** The directories of identities [A] and [B]. *)
Lemma deleteSession_keeps_other_directories_witness :
  includes_slash "A" = false /\ includes_slash "B" = false /\ "A" <> "B"
  /\ sessionPath example_platform "A" = "/srv/app/wa-sessions/session-A"
  /\ preserves (fun w => List.filter (within (sessionPath example_platform "B")) (files w))
       (deleteSession example_platform "A").
Proof.
  assert ("A" <> "B") as Hne by discriminate.
  destruct (deleteSession_keeps_other_directories example_platform "A" "B"
              eq_refl eq_refl Hne) as (E & _ & H).
  split; [reflexivity|]. split; [reflexivity|]. split; [exact Hne|].
  split; [exact E|exact H].
Defined.

(** An identity whose name climbs out of the sessions directory: the
    directory that [deleteSession] removes for it is not below
    [wa-sessions]. *)
Example sessionPath_escapes :
  sessionPath example_platform "x/../../../etc" = "/srv/etc"
  /\ within (sessionsDir example_platform) (sessionPath example_platform "x/../../../etc")
     = false.
Proof. vm_compute. split; reflexivity. Qed.

(** A failed send after the message went out: the client accepted the
    message and the record was stored, and then the count of the messages
    failed. *)
Example sendMessage_fails_after_sending :
  let w := with_faults (fun _ => [None; Some "MongoNetworkError: connection timed out"])
             presence_before_ready in
  let '(r, w') := sendMessage example_platform "A" "15550002" "hi" "text" w in
  r = Throw "Failed to send message: MongoNetworkError: connection timed out"
  /\ length (messageModel w') = 1%nat
  /\ sessionModel w' = sessionModel w.
Proof. vm_compute. repeat split; reflexivity. Qed.

(** A send of an empty text: the client is asked to send and accepts, then
    the schema refuses the record, whose body is a required path, and the
    call fails with nothing stored. *)
Example sendMessage_empty_text :
  let w := presence_before_ready in
  let '(r, w') := sendMessage example_platform "A" "15550002" EmptyString "text" w in
  Client.sendMessage (example_client "A") "15550002@c.us" EmptyString (now w)
  = inl "true_15550002@c.us_3EB0"
  /\ r = Throw ("Failed to send message: "
               +:+ "Message validation failed: body: Path `body` is required.")
  /\ messageModel w' = messageModel w
  /\ sessionModel w' = sessionModel w.
Proof. vm_compute. repeat split; reflexivity. Qed.

(** An inbound picture without caption has an empty body: the schema refuses
    the record, the handler logs the error, and no record, no count and no
    notification follow. *)
Example inbound_empty_body_dropped :
  let message := {| wa_id := "false_15550002@c.us_3EB0A2"; wa_from := "15550002@c.us";
                    wa_to := Some "15550003@c.us"; wa_body := EmptyString;
                    wa_type := "image"; wa_timestamp := 1700000000 |} in
  let '(r, w') := handleIncomingMessage example_platform "C" message four_messages in
  r = Ok tt
  /\ messageModel w' = messageModel four_messages
  /\ sessionModel w' = sessionModel four_messages
  /\ outbox w' = []
  /\ last (logs w')
     = Some (mkLog ERROR ("Failed to handle incoming message: "
                          +:+ "Message validation failed: body: Path `body` is required.")).
Proof. vm_compute. repeat split; reflexivity. Qed.

(** The sessions directory is made with the ancestors it lacks. *)
Example ensureSessionsDirectory_from_scratch :
  let '(r, w') := ensureSessionsDirectory example_platform empty_world in
  r = Ok tt
  /\ files w' = ["/srv"; "/srv/app"; "/srv/app/wa-sessions"]
  /\ last (logs w') = Some (mkLog LOG "Created wa-sessions directory").
Proof. vm_compute. repeat split; reflexivity. Qed.
